(** * Moving-average crossover backtest engine

    A shallow embedding of the two copies of [_execute_backtest]
    (src/strategies/views.py and src/backend/strategies/views.py), of the
    models they write (src/strategies/models.py), of the read actions of
    the view set, of the download of the backend copy and of the management
    command run_multi_symbol_backtest.py.

    Conventions of the embedding.
    - Python floats (and the numpy scalars of a DataFrame row) are read as
      exact rationals [Q]: rounding error of binary floating point is not
      modelled.  Operations that raise in Python ([x / 0], [int(inf)],
      [int(nan)]) raise here.
    - The numeric parameters are floats, as the management command
      run_multi_symbol_backtest.py passes them and as the defaults of
      [BacktestCreateSerializer] are.  A request that gives a percentage
      leaves a [Decimal] in [validated_data], on which the risk check
      ([entry_price * (1 - Decimal / 100)]) raises [TypeError] at the first
      bar that finds a position open; requests and the [run_backtest] action
      are framework code around the engine and are not modelled.
    - Every figure is taken to fit its [DecimalField] column: what Django
      does with a value of more than [max_digits] digits depends on its
      version and on the database.
    - [BacktestResult.objects.create] hands out the keys 1, 2, ... of a
      table from which no row was deleted.
    - The database is the explicit [Store]; every [objects.create] and
      [save] is committed at once (no transaction is opened anywhere in the
      source), so the store survives an exception.  A row holds the values
      that were passed to [create]; read back through the view set, a
      [DecimalField] column gives its value to two places ([Models.stored],
      [Models.read_snapshot]).
    - [yf.download] / Lumibot are outside the repository: the fetched frame
      is an argument of the engine. *)

From Stdlib Require Import ZArith QArith Qround Qabs List Bool Lia Lqa.
From Stdlib Require Import Ascii String Sorted Permutation.
Import ListNotations.
Open Scope Q_scope.

(** ** Python values *)

(** A pandas [Timestamp] / Python [datetime]: calendar day and time of day. *)
Record datetime := mkDatetime { dt_date : Z; dt_time : Z }.

(** [datetime.combine(d, datetime.min.time())], made aware. *)
Definition midnight (d : Z) : datetime := mkDatetime d 0.

Inductive exn :=
| ValueError
| ZeroDivisionError
| OverflowError
| IntegrityError.

Inductive result (A : Type) :=
| Ok (a : A)
| Raise (e : exn).
Arguments Ok {A} a.
Arguments Raise {A} e.

Definition Qlt_bool (a b : Q) : bool := negb (Qle_bool b a).

(** Python's [int(x)] on a float: truncation toward zero. *)
Definition int (x : Q) : Z := Z.quot (Qnum x) (Zpos (Qden x)).

(** Python's [round(x)]: to the nearest integer, ties to the even one. *)
Definition round_half_even (x : Q) : Z :=
  let f := Qfloor x in
  match Qcompare (x - inject_Z f) (1 # 2) with
  | Lt => f
  | Gt => (f + 1)%Z
  | Eq => if Z.even f then f else (f + 1)%Z
  end.

(** [Decimal(str(round(x, 2)))]. *)
Definition round2 (x : Q) : Q := inject_Z (round_half_even (x * 100)) / 100.

(** ** Models (src/strategies/models.py) *)

Record BacktestResult := mkBacktestResult {
  pk : nat;
  stock_tested : string;
  trade_test_start_date : datetime;
  trade_test_end_date : datetime;
  stop_loss : Q;
  take_profit : Q;
  starting_amount : Q;
  closing_amount : Q;
  total_profit : Q;
  number_of_trades : Z;
  total_returns : Q;
  peak_stock_value : Q;
  lowest_stock_value : Q;
  drawdown : Q
}.

Record Trade := mkTrade {
  trade_backtest : nat;
  stock_symbol : string;
  entry_date : datetime;
  entry_price : Q;
  quantity : Z;
  exit_date : datetime;
  exit_price : Q
}.

Record DailyPortfolioSnapshot := mkSnapshot {
  snap_backtest : nat;
  date : Z;
  total_portfolio_value : Q;
  cash_balance : Q;
  daily_return : Q;
  peak_portfolio_value : Q;
  snap_drawdown : Q;
  open_positions_count : Z
}.

(** The three tables. *)
Record Store := mkStore {
  backtests : list BacktestResult;
  snapshots : list DailyPortfolioSnapshot;
  trades : list Trade
}.

Definition empty_store : Store := mkStore [] [] [].

(** ** Database actions: state and exceptions *)

Definition M (A : Type) : Type := Store -> result A * Store.

Definition ret {A} (a : A) : M A := fun db => (Ok a, db).
Definition raise {A} (e : exn) : M A := fun db => (Raise e, db).
Definition bind {A B} (m : M A) (k : A -> M B) : M B :=
  fun db =>
    match m db with
    | (Ok a, db') => k a db'
    | (Raise e, db') => (Raise e, db')
    end.

Declare Scope py_scope.
Delimit Scope py_scope with py.
Notation "x <- m ;; k" := (bind m (fun x => k))
  (at level 100, m at next level, right associativity) : py_scope.
Notation "m ;; k" := (bind m (fun _ => k))
  (at level 100, right associativity) : py_scope.
Open Scope py_scope.

(** [a / b] on Python floats. *)
Definition truediv (a b : Q) : M Q :=
  if Qeq_bool b 0 then raise ZeroDivisionError else ret (a / b).

(** [BacktestResult.objects.create(...)]: the row gets the next key of a
    table from which no row was deleted, the number of rows plus one. *)
Definition BacktestResult_create (mk : nat -> BacktestResult) : M BacktestResult :=
  fun db =>
    let b := mk (S (List.length (backtests db))) in
    (Ok b, mkStore (backtests db ++ [b]) (snapshots db) (trades db)).

(** [backtest.save()]: the row with this key is overwritten. *)
Definition BacktestResult_save (b : BacktestResult) : M unit :=
  fun db =>
    (Ok tt,
     mkStore (map (fun b' => if Nat.eqb (pk b') (pk b) then b else b') (backtests db))
             (snapshots db) (trades db)).

Definition Trade_create (t : Trade) : M unit :=
  fun db => (Ok tt, mkStore (backtests db) (snapshots db) (trades db ++ [t])).

(** Whether backtest [b] already has a snapshot for day [d]. *)
Definition day_taken (b : nat) (d : Z) (db : Store) : bool :=
  existsb (fun s => Nat.eqb (snap_backtest s) b && Z.eqb (date s) d)
          (snapshots db).

(** [DailyPortfolioSnapshot.objects.create(...)];
    [unique_together = ['backtest', 'date']]. *)
Definition DailyPortfolioSnapshot_create (s : DailyPortfolioSnapshot) : M unit :=
  fun db =>
    if day_taken (snap_backtest s) (date s) db then (Raise IntegrityError, db)
    else (Ok tt, mkStore (backtests db) (snapshots db ++ [s]) (trades db)).

(** ** The price frame *)

Record Bar := mkBar { bar_index : datetime; bar_Close : Q }.

(** A row of [stock_data] once the two SMA columns are added; [None] is NaN. *)
Record Row := mkRow {
  index : datetime;
  Close : Q;
  SMA_short : option Q;
  SMA_long : option Q
}.

Definition Qsum (l : list Q) : Q := fold_left Qplus l 0.

(** Entry [i] of [xs.rolling(w).mean()]. *)
Definition window_mean (w : nat) (xs : list Q) (i : nat) : option Q :=
  if Nat.eqb w 0 || Nat.ltb (S i) w then None
  else Some (Qsum (firstn w (skipn (S i - w) xs)) / inject_Z (Z.of_nat w)).

(** [xs.rolling(window).mean()]; pandas refuses a negative window. *)
Definition rolling_mean (window : Z) (xs : list Q) : result (list (option Q)) :=
  if (window <? 0)%Z then Raise ValueError
  else Ok (map (window_mean (Z.to_nat window) xs) (seq 0 (List.length xs))).

Fixpoint add_columns (bars : list Bar) (s l : list (option Q)) : list Row :=
  match bars, s, l with
  | b :: bars', x :: s', y :: l' =>
      mkRow (bar_index b) (bar_Close b) x y :: add_columns bars' s' l'
  | _, _, _ => []
  end.

Definition lift {A} (r : result A) : M A := fun db => (r, db).

(** ** Parameters and loop state *)

Record Params := mkParams {
  p_stock_symbol : string;
  start_date : Z;
  end_date : Z;
  short_period : Z;
  long_period : Z;
  stop_loss_percentage : Q;
  take_profit_percentage : Q;
  p_starting_amount : Q
}.

(** The [position] dict. *)
Record Position := mkPosition {
  pos_quantity : Z;
  pos_entry_price : Q;
  pos_entry_date : datetime
}.

(** The local variables of the simulation. *)
Record State := mkState {
  cash : Q;
  position : option Position;
  portfolio_value : Q;
  peak_value : Q;
  trades_count : Z
}.

Definition isna (x : option Q) : bool :=
  match x with None => true | Some _ => false end.

Definition stop_price (params : Params) (entry_price : Q) : Q :=
  entry_price * (1 - stop_loss_percentage params / 100).

Definition take_profit_price (params : Params) (entry_price : Q) : Q :=
  entry_price * (1 + take_profit_percentage params / 100).

(** [for i, (date, row) in enumerate(stock_data.iterrows())], from index [i]. *)
Fixpoint for_rows (body : nat -> Row -> State -> M State)
         (i : nat) (rows : list Row) (st : State) : M State :=
  match rows with
  | [] => ret st
  | row :: rest => st' <- body i row st ;; for_rows body (S i) rest st'
  end.

Definition bool_of_position (position : option Position) : bool :=
  match position with Some _ => true | None => false end.

(** [Trade.objects.create(...)] for the open position, sold at [price]. *)
Definition record_trade (params : Params) (backtest : BacktestResult)
    (pos : Position) (exit_date : datetime) (price : Q) : M unit :=
  Trade_create
    (mkTrade (pk backtest) (p_stock_symbol params)
             (pos_entry_date pos) (pos_entry_price pos) (pos_quantity pos)
             exit_date price).

(** The row created before the simulation, with its placeholder figures. *)
Definition initial_backtest (params : Params) (id : nat) : BacktestResult :=
  mkBacktestResult id (p_stock_symbol params)
    (midnight (start_date params)) (midnight (end_date params))
    (stop_loss_percentage params) (take_profit_percentage params)
    (p_starting_amount params) (p_starting_amount params)
    0 0%Z 0 (p_starting_amount params) (p_starting_amount params) 0.

(** [min(a, b)] of Python. *)
Definition py_min (a b : Q) : Q := if Qlt_bool b a then b else a.

(** The trailing block "Update backtest results", the same in both copies.
    Nothing reaches the database before [save]: a division that raises leaves
    the row as it was created. *)
Definition update_backtest_results (params : Params) (backtest : BacktestResult)
    (st : State) : M BacktestResult :=
  let final_value := cash st in
  let profit := final_value - p_starting_amount params in
  ratio <- truediv profit (p_starting_amount params) ;;
  let returns := ratio * 100 in
  dd <- truediv (peak_value st - final_value) (peak_value st) ;;
  let backtest' :=
    mkBacktestResult (pk backtest) (stock_tested backtest)
      (trade_test_start_date backtest) (trade_test_end_date backtest)
      (stop_loss backtest) (take_profit backtest) (starting_amount backtest)
      (round2 final_value) (round2 profit) (trades_count st) (round2 returns)
      (round2 (peak_value st))
      (round2 (py_min (portfolio_value st) (p_starting_amount params)))
      (round2 (dd * 100)) in
  BacktestResult_save backtest' ;;
  ret backtest'.

(** "Calculate portfolio value" and "Update peak", the same in both
    copies: the local variables once the bar is valued at [current_price]. *)
Definition update_valuation (st : State) (current_price : Q) : State :=
  let portfolio_value :=
    match position st with
    | Some pos => cash st + inject_Z (pos_quantity pos) * current_price
    | None => cash st
    end in
  let peak_value :=
    if Qlt_bool (peak_value st) portfolio_value then portfolio_value
    else peak_value st in
  mkState (cash st) (position st) portfolio_value peak_value (trades_count st).

(** [drawdown = ((peak_value - portfolio_value) / peak_value) * 100
      if peak_value > 0 else 0]. *)
Definition drawdown_pct (st : State) : Q :=
  if Qlt_bool 0 (peak_value st)
  then ((peak_value st - portfolio_value st) / peak_value st) * 100 else 0.

(** The keyword arguments of [DailyPortfolioSnapshot.objects.create]. *)
Definition snapshot_row (backtest : BacktestResult) (date : datetime)
    (st : State) (daily_return : Q) : DailyPortfolioSnapshot :=
  mkSnapshot (pk backtest) (dt_date date)
    (round2 (portfolio_value st)) (round2 (cash st)) daily_return
    (round2 (peak_value st)) (round2 (drawdown_pct st))
    (if bool_of_position (position st) then 1 else 0)%Z.

(** The local variables once the open position [pos] is sold at [price]. *)
Definition after_sale (st : State) (pos : Position) (price : Q) : State :=
  mkState (cash st + inject_Z (pos_quantity pos) * price) None
          (portfolio_value st) (peak_value st) (trades_count st + 1).

(** ** src/strategies/views.py *)

Module Strategies.

(** [int(cash / current_price)] on numpy scalars: a zero divisor gives
    [nan] or [inf], which [int] refuses.  The quotient is the exact one; the
    float quotient of the code can fall just below a whole number
    ([int(0.3 / 0.1)] is 2). *)
Definition shares_for (cash current_price : Q) : M Z :=
  if Qeq_bool current_price 0
  then (if Qeq_bool cash 0 then raise ValueError else raise OverflowError)
  else ret (int (cash / current_price)).

(** Lines 140-176: "Check for crossover signals". *)
Definition check_crossover (params : Params) (backtest : BacktestResult)
    (stock_data : list Row) (i : nat) (row : Row)
    (sma_short sma_long : Q) (st : State) : M State :=
  let date := index row in
  let current_price := Close row in
  if Nat.ltb 0 i then
    let prev_row := nth (i - 1) stock_data row in
    match SMA_short prev_row, SMA_long prev_row with
    | Some prev_short, Some prev_long =>
        if Qle_bool prev_short prev_long && Qlt_bool sma_long sma_short
           && negb (bool_of_position (position st))
        then
          shares_to_buy <- shares_for (cash st) current_price ;;
          if (0 <? shares_to_buy)%Z then
            ret (mkState (cash st - inject_Z shares_to_buy * current_price)
                         (Some (mkPosition shares_to_buy current_price date))
                         (portfolio_value st) (peak_value st) (trades_count st))
          else ret st
        else
          match position st with
          | Some pos =>
              if Qle_bool prev_long prev_short && Qlt_bool sma_short sma_long
              then
                record_trade params backtest pos date current_price ;;
                ret (after_sale st pos current_price)
              else ret st
          | None => ret st
          end
    | _, _ => ret st
    end
  else ret st.

(** Lines 118-138: "Check stop-loss/take-profit"; a risk exit ends the
    iteration ([continue]). *)
Definition check_stop_loss_take_profit (params : Params) (backtest : BacktestResult)
    (stock_data : list Row) (i : nat) (row : Row)
    (sma_short sma_long : Q) (st : State) : M State :=
  let date := index row in
  let current_price := Close row in
  match position st with
  | Some pos =>
      if Qle_bool current_price (stop_price params (pos_entry_price pos))
         || Qle_bool (take_profit_price params (pos_entry_price pos)) current_price
      then
        record_trade params backtest pos date current_price ;;
        ret (after_sale st pos current_price)
      else check_crossover params backtest stock_data i row sma_short sma_long st
  | None => check_crossover params backtest stock_data i row sma_short sma_long st
  end.

(** Lines 88-176: one iteration of the simulation loop. *)
Definition loop_body (params : Params) (backtest : BacktestResult)
    (stock_data : list Row) (i : nat) (row : Row) (st : State) : M State :=
  match SMA_short row, SMA_long row with
  | Some sma_short, Some sma_long =>
      let st := update_valuation st (Close row) in
      DailyPortfolioSnapshot_create (snapshot_row backtest (index row) st 0) ;;
      check_stop_loss_take_profit params backtest stock_data i row
                                  sma_short sma_long st
  | _, _ => ret st
  end.

(** Lines 178-191: "Close any remaining position". *)
Definition close_remaining (params : Params) (backtest : BacktestResult)
    (stock_data : list Row) (st : State) : M State :=
  match position st with
  | Some pos =>
      let final_price := last (map Close stock_data) 0 in
      record_trade params backtest pos
        (last (map index stock_data) (midnight 0)) final_price ;;
      ret (mkState (cash st + inject_Z (pos_quantity pos) * final_price)
                   (position st) (portfolio_value st) (peak_value st)
                   (trades_count st + 1))
  | None => ret st
  end.

(** Lines 81-191: the simulation, from the fresh local variables to the
    forced liquidation. *)
Definition simulate (params : Params) (backtest : BacktestResult)
    (stock_data : list Row) : M State :=
  let cash := p_starting_amount params in
  st <- for_rows (loop_body params backtest stock_data) 0 stock_data
          (mkState cash None cash cash 0) ;;
  close_remaining params backtest stock_data st.

Definition _execute_backtest (params : Params) (stock_data : list Bar)
  : M BacktestResult :=
  match stock_data with
  | [] => raise ValueError
  | _ =>
      sma_short <- lift (rolling_mean (short_period params) (map bar_Close stock_data)) ;;
      sma_long <- lift (rolling_mean (long_period params) (map bar_Close stock_data)) ;;
      let stock_data := add_columns stock_data sma_short sma_long in
      backtest <- BacktestResult_create (initial_backtest params) ;;
      st <- simulate params backtest stock_data ;;
      update_backtest_results params backtest st
  end.

End Strategies.

(** ** src/backend/strategies/views.py *)

Module Backend.

(** [DailyPortfolioSnapshot.objects.filter(backtest=backtest)
      .order_by('-date').first()]. *)
Definition prev_snapshots_first (backtest : BacktestResult)
  : M (option DailyPortfolioSnapshot) :=
  fun db =>
    (Ok (fold_left
           (fun best s =>
              if Nat.eqb (snap_backtest s) (pk backtest) then
                match best with
                | Some b => if (date b <? date s)%Z then Some s else best
                | None => Some s
                end
              else best)
           (snapshots db) None),
     db).

(** Lines 222-231.  The previous snapshot is read as it was written: its
    figures are taken to fit their columns. *)
Definition compute_daily_return_pct (backtest : BacktestResult) (i : nat)
    (portfolio_value : Q) : M Q :=
  if Nat.eqb i 0 then ret 0
  else
    prev <- prev_snapshots_first backtest ;;
    match prev with
    | Some s =>
        let prev_value := total_portfolio_value s in
        ratio <- truediv (portfolio_value - prev_value) prev_value ;;
        ret (ratio * 100)
    | None => ret 0
    end.

(** [int(cash / current_price)] on Python floats, with the exact quotient
    (see [Strategies.shares_for]). *)
Definition shares_for (cash current_price : Q) : M Z :=
  ratio <- truediv cash current_price ;;
  ret (int ratio).

(** Lines 272-319: "Check for crossover signals". *)
Definition check_crossover (params : Params) (backtest : BacktestResult)
    (stock_data : list Row) (i : nat) (row : Row)
    (curr_short curr_long : Q) (st : State) : M State :=
  let date := index row in
  let current_price := Close row in
  if Nat.ltb 0 i then
    let prev_row := nth (i - 1) stock_data row in
    match SMA_short prev_row, SMA_long prev_row with
    | Some prev_short, Some prev_long =>
        if Qle_bool prev_short prev_long && Qlt_bool curr_long curr_short
           && negb (bool_of_position (position st))
        then
          shares_to_buy <- shares_for (cash st) current_price ;;
          if (0 <? shares_to_buy)%Z then
            ret (mkState (cash st - inject_Z shares_to_buy * current_price)
                         (Some (mkPosition shares_to_buy current_price
                                           (midnight (dt_date date))))
                         (portfolio_value st) (peak_value st) (trades_count st))
          else ret st
        else
          match position st with
          | Some pos =>
              if Qle_bool prev_long prev_short && Qlt_bool curr_short curr_long
              then
                record_trade params backtest pos (midnight (dt_date date))
                             current_price ;;
                ret (after_sale st pos current_price)
              else ret st
          | None => ret st
          end
    | _, _ => ret st
    end
  else ret st.

(** Lines 247-270: "Check stop-loss/take-profit"; a risk exit ends the
    iteration ([continue]). *)
Definition check_stop_loss_take_profit (params : Params) (backtest : BacktestResult)
    (stock_data : list Row) (i : nat) (row : Row)
    (curr_short curr_long : Q) (st : State) : M State :=
  let date := index row in
  let current_price := Close row in
  match position st with
  | Some pos =>
      if Qle_bool current_price (stop_price params (pos_entry_price pos))
         || Qle_bool (take_profit_price params (pos_entry_price pos)) current_price
      then
        record_trade params backtest pos (midnight (dt_date date)) current_price ;;
        ret (after_sale st pos current_price)
      else check_crossover params backtest stock_data i row curr_short curr_long st
  | None => check_crossover params backtest stock_data i row curr_short curr_long st
  end.

(** Lines 193-321: one iteration of the simulation loop. *)
Definition loop_body (params : Params) (backtest : BacktestResult)
    (stock_data : list Row) (i : nat) (row : Row) (st : State) : M State :=
  match SMA_short row, SMA_long row with
  | Some curr_short, Some curr_long =>
      let st := update_valuation st (Close row) in
      daily_return_pct <-
        compute_daily_return_pct backtest i (portfolio_value st) ;;
      DailyPortfolioSnapshot_create
        (snapshot_row backtest (index row) st daily_return_pct) ;;
      check_stop_loss_take_profit params backtest stock_data i row
                                  curr_short curr_long st
  | _, _ => ret st
  end.

(** Lines 325-340: "Close any remaining position". *)
Definition close_remaining (params : Params) (backtest : BacktestResult)
    (stock_data : list Row) (st : State) : M State :=
  match position st with
  | Some pos =>
      let final_price := last (map Close stock_data) 0 in
      let final_date :=
        midnight (dt_date (last (map index stock_data) (midnight 0))) in
      record_trade params backtest pos final_date final_price ;;
      ret (mkState (cash st + inject_Z (pos_quantity pos) * final_price)
                   (position st) (portfolio_value st) (peak_value st)
                   (trades_count st + 1))
  | None => ret st
  end.

(** Lines 184-340: the simulation, from the fresh local variables to the
    forced liquidation. *)
Definition simulate (params : Params) (backtest : BacktestResult)
    (stock_data : list Row) : M State :=
  let cash := p_starting_amount params in
  st <- for_rows (loop_body params backtest stock_data) 0 stock_data
          (mkState cash None cash cash 0) ;;
  close_remaining params backtest stock_data st.

(** [fetched] is what [_download_data_with_lumibot] returns. *)
Definition _execute_backtest (params : Params) (fetched : list Bar)
  : M BacktestResult :=
  match fetched with
  | [] => raise ValueError
  | _ =>
      sma_short <- lift (rolling_mean (short_period params) (map bar_Close fetched)) ;;
      sma_long <- lift (rolling_mean (long_period params) (map bar_Close fetched)) ;;
      let stock_data := add_columns fetched sma_short sma_long in
      backtest <- BacktestResult_create (initial_backtest params) ;;
      st <- simulate params backtest stock_data ;;
      update_backtest_results params backtest st
  end.

End Backend.

(** ** Vocabulary of the properties *)

(** The two copies of the engine. *)
Inductive Copy := StrategiesViews | BackendViews.

Definition loop_body_of (c : Copy) :=
  match c with
  | StrategiesViews => Strategies.loop_body
  | BackendViews => Backend.loop_body
  end.

Definition check_stop_loss_take_profit_of (c : Copy) :=
  match c with
  | StrategiesViews => Strategies.check_stop_loss_take_profit
  | BackendViews => Backend.check_stop_loss_take_profit
  end.

Definition close_remaining_of (c : Copy) :=
  match c with
  | StrategiesViews => Strategies.close_remaining
  | BackendViews => Backend.close_remaining
  end.

Definition simulate_of (c : Copy) :=
  match c with
  | StrategiesViews => Strategies.simulate
  | BackendViews => Backend.simulate
  end.

Definition execute_of (c : Copy) :=
  match c with
  | StrategiesViews => Strategies._execute_backtest
  | BackendViews => Backend._execute_backtest
  end.

(** The date a copy writes for a bar: the index itself, or its day at
    midnight. *)
Definition stamp_of (c : Copy) (d : datetime) : datetime :=
  match c with
  | StrategiesViews => d
  | BackendViews => midnight (dt_date d)
  end.

(** The trade that closes [pos] at [price] on [day]. *)
Definition sold (params : Params) (backtest : BacktestResult) (pos : Position)
    (day : datetime) (price : Q) : Trade :=
  mkTrade (pk backtest) (p_stock_symbol params)
          (pos_entry_date pos) (pos_entry_price pos) (pos_quantity pos)
          day price.

(** What one bar may do to the ledger. *)
Definition ledger_step (c : Copy) (params : Params) (backtest : BacktestResult)
    (row : Row) (st st' : State) (db db' : Store) : Prop :=
  match position st, position st' with
  | Some pos, None =>
      trades db' = trades db
                   ++ [sold params backtest pos (stamp_of c (index row)) (Close row)]
      /\ trades_count st' = (trades_count st + 1)%Z
  | Some pos, Some pos' =>
      pos' = pos /\ trades db' = trades db /\ trades_count st' = trades_count st
  | None, _ =>
      trades db' = trades db /\ trades_count st' = trades_count st
  end.

Definition defined (row : Row) : bool :=
  negb (isna (SMA_short row)) && negb (isna (SMA_long row)).

(** The local variables at the top of the loop. *)
Definition initial_state (params : Params) : State :=
  mkState (p_starting_amount params) None
          (p_starting_amount params) (p_starting_amount params) 0.

Definition with_snapshot (db : Store) (s : DailyPortfolioSnapshot) : Store :=
  mkStore (backtests db) (snapshots db ++ [s]) (trades db).

(** Daily bars on consecutive days, from day 0. *)
Definition daily_bars (closes : list Q) : list Bar :=
  map (fun ic => mkBar (midnight (Z.of_nat (fst ic))) (snd ic))
      (combine (seq 0 (List.length closes)) closes).

(** [stock_data] with its two SMA columns, as the loop reads it; there is
    no frame when pandas refuses a window. *)
Definition frame (params : Params) (bars : list Bar) : list Row :=
  match rolling_mean (short_period params) (map bar_Close bars),
        rolling_mean (long_period params) (map bar_Close bars) with
  | Ok s, Ok l => add_columns bars s l
  | _, _ => []
  end.

(** The reading of C5 on one bar: the snapshot shows the state the bar
    ends in. *)
Definition snapshot_after_decision (c : Copy) (params : Params)
    (backtest : BacktestResult) (rows : list Row) (i : nat) (row : Row)
    (st : State) (db : Store) : Prop :=
  forall st' db',
    loop_body_of c params backtest rows i row st db = (Ok st', db') ->
    exists s,
      snapshots db' = snapshots db ++ [s]
      /\ cash_balance s = round2 (cash st')
      /\ open_positions_count s
         = (if bool_of_position (position st') then 1 else 0)%Z.

(** ** Worked runs *)

(** The state and the store after the first [n] bars of a run that starts
    on an empty database. *)
Definition after_bars (c : Copy) (params : Params) (bars : list Bar) (n : nat)
  : result State * Store :=
  for_rows (loop_body_of c params (initial_backtest params 1) (frame params bars))
           0 (firstn n (frame params bars)) (initial_state params) empty_store.

Definition state_of (r : result State * Store) (d : State) : State :=
  match fst r with Ok st => st | Raise _ => d end.

(** Short window 1, long window 2, stop-loss and take-profit 50 %, 100 in
    cash; the closes dip to 8 and recover to 20. *)
Definition dip_params : Params := mkParams "AAPL" 0 5 1 2 50 50 100.
Definition dip_bars : list Bar := daily_bars [10; 9; 10; 8; 12; 20].

(** The scenario of the design notes: windows 2 and 3. *)
Definition warmup_params : Params := mkParams "AAPL" 0 4 2 3 1 50 100.
Definition warmup_bars : list Bar := daily_bars [10; 11; 12; 9; 14].

(** ** Comparing the two copies *)









(** [db'] holds the rows of [db] and possibly more snapshots and trades. *)
Definition grows (db db' : Store) : Prop :=
  backtests db' = backtests db
  /\ (exists snaps, snapshots db' = snapshots db ++ snaps)
  /\ (exists sold_, trades db' = trades db ++ sold_).

(** The bars are in strictly increasing order of day, as the data model
    requires. *)
Definition increasing_days (rows : list Row) : Prop :=
  forall i j ri rj,
    nth_error rows i = Some ri -> nth_error rows j = Some rj -> (i < j)%nat ->
    (dt_date (index ri) < dt_date (index rj))%Z.

(** Every snapshot of [backtest] in [db] is for one of the first [i] bars. *)
Definition snapshots_behind (backtest : BacktestResult) (rows : list Row)
    (i : nat) (db : Store) : Prop :=
  forall s,
    In s (snapshots db) -> snap_backtest s = pk backtest ->
    exists j r, (j < i)%nat /\ nth_error rows j = Some r
                /\ date s = dt_date (index r).

(** ** Readings of the claims that the code does not meet *)

(** C9: a run that fails leaves the database as it found it. *)
Definition atomic_run (c : Copy) (params : Params) (bars : list Bar)
    (db : Store) : Prop :=
  forall e db', execute_of c params bars db = (Raise e, db') -> db' = db.

(** C3: a series that is not empty but shorter than both windows is refused. *)
Definition refuses_short_history (c : Copy) (params : Params) (bars : list Bar)
    (db : Store) : Prop :=
  bars <> [] ->
  (Z.of_nat (List.length bars) < Z.min (short_period params) (long_period params))%Z ->
  exists e db', execute_of c params bars db = (Raise e, db').

(** C8: a configuration with a window or a starting amount that is not
    positive, or with the dates in the wrong order, is turned away before the
    loop and nothing is stored for it. *)
Definition refuses_invalid_configuration (c : Copy) (params : Params)
    (bars : list Bar) (db : Store) : Prop :=
  (short_period params <= 0)%Z \/ (long_period params <= 0)%Z
  \/ p_starting_amount params <= 0 \/ (end_date params < start_date params)%Z ->
  exists e, execute_of c params bars db = (Raise e, db).

(** One bar, both windows 1, nothing in cash. *)
Definition broke_params : Params := mkParams "AAPL" 0 0 1 1 1 50 0.
Definition broke_bars : list Bar := daily_bars [10].

(** One unit of cash, one share bought at 1, and a fall to 0.004: the
    portfolio is then worth less than half a cent. *)
Definition penny_params : Params := mkParams "AAPL" 0 5 1 2 1 50 1.
Definition penny_bars : list Bar :=
  daily_bars [1; 1 # 2; 1; 1 # 250; 1 # 250; 1 # 250].

(** Windows 2 and 3 with a debt of 5 as starting amount. *)
Definition debt_params : Params := mkParams "AAPL" 0 4 2 3 1 50 (- (5)).

(** Windows 2 and 3, a stop 99 % below the entry price, 0.1 in cash.  One
    share is bought at 0.1 on day 3; the close of 0.002 on day 4 leaves a
    portfolio worth less than half a cent, and the close of 0.0005 on day 5 is
    below the stop price of 0.001. *)
Definition slump_params : Params := mkParams "AAPL" 0 5 2 3 99 50 (1 # 10).
Definition slump_bars : list Bar :=
  daily_bars [1 # 20; 1 # 25; 1 # 10000; 1 # 10; 1 # 500; 1 # 2000].

(** * Further definitions *)

(** ** Accounting *)

(** [(self.exit_price - self.entry_price) * self.quantity], the profit of a
    closed trade (models.py, [Trade.get_profit]). *)
Definition trade_profit (t : Trade) : Q :=
  (exit_price t - entry_price t) * inject_Z (quantity t).

Definition ledger_profit (l : list Trade) : Q :=
  fold_right (fun t acc => trade_profit t + acc) 0 l.

(** What the open position was bought for. *)
Definition holdings_cost (st : State) : Q :=
  match position st with
  | Some pos => inject_Z (pos_quantity pos) * pos_entry_price pos
  | None => 0
  end.

(** The state an entry of [n] shares at the close of [row] leaves. *)
Definition after_entry (c : Copy) (st : State) (row : Row) (n : Z) : State :=
  mkState (cash st - inject_Z n * Close row)
          (Some (mkPosition n (Close row) (stamp_of c (index row))))
          (portfolio_value st) (peak_value st) (trades_count st).

Definition with_trade (db : Store) (t : Trade) : Store :=
  mkStore (backtests db) (snapshots db) (trades db ++ [t]).

(** The cash is not negative and an open position holds at least one share. *)
Definition solvent (st : State) : Prop :=
  0 <= cash st
  /\ match position st with
     | Some pos => (0 < pos_quantity pos)%Z
     | None => True
     end.

(** A trade does not end before it starts. *)
Definition ordered_trade (t : Trade) : Prop :=
  (dt_date (entry_date t) <= dt_date (exit_date t))%Z.

(** The portfolio value of the last valued bar is the cash plus the open
    position at the close of the bar before index [i]. *)
Definition marked_to_last_close (rows : list Row) (i : nat) (st : State) : Prop :=
  match position st with
  | None => portfolio_value st == cash st
  | Some pos =>
      exists r,
        nth_error rows (i - 1) = Some r /\ (0 < i)%nat /\ defined r = true
        /\ portfolio_value st == cash st + inject_Z (pos_quantity pos) * Close r
  end.

(** [unique_together = ['backtest', 'date']] holds in the snapshot table. *)
Definition snapshot_key (s : DailyPortfolioSnapshot) : nat * Z :=
  (snap_backtest s, date s).

Definition unique_days (db : Store) : Prop :=
  NoDup (map snapshot_key (snapshots db)).

(** The fetched bars are in strictly increasing order of day. *)
Definition increasing_bar_days (bars : list Bar) : Prop :=
  forall i j bi bj,
    nth_error bars i = Some bi -> nth_error bars j = Some bj -> (i < j)%nat ->
    (dt_date (bar_index bi) < dt_date (bar_index bj))%Z.

(** Foreign keys: every snapshot and every trade belongs to a stored
    backtest, whose keys are 1 to the number of rows. *)
Definition referential (db : Store) : Prop :=
  (forall s, In s (snapshots db) ->
             (snap_backtest s <= List.length (backtests db))%nat)
  /\ (forall t, In t (trades db) ->
                (trade_backtest t <= List.length (backtests db))%nat).

(** A list of figures that never goes down. *)
Fixpoint nondecreasing (l : list Q) : Prop :=
  match l with
  | [] => True
  | x :: l' => Forall (fun y => x <= y) l' /\ nondecreasing l'
  end.

(** A snapshot whose value is at most its peak and whose drawdown is not
    negative. *)
Definition sane_snapshot (s : DailyPortfolioSnapshot) : Prop :=
  total_portfolio_value s <= peak_portfolio_value s /\ 0 <= snap_drawdown s.

(** The snapshots of one backtest, in the order they were written. *)
Definition own_snapshots (backtest : BacktestResult) (db : Store)
  : list DailyPortfolioSnapshot :=
  filter (fun s => Nat.eqb (snap_backtest s) (pk backtest)) (snapshots db).

Fixpoint last_option {A} (l : list A) : option A :=
  match l with
  | [] => None
  | x :: l' =>
      match last_option l' with
      | Some y => Some y
      | None => Some x
      end
  end.

(** The daily return against the snapshot before, 0 when there is none. *)
Definition return_against (prev : option DailyPortfolioSnapshot) (value : Q) : Q :=
  match prev with
  | Some p => (value - total_portfolio_value p) / total_portfolio_value p * 100
  | None => 0
  end.

Fixpoint ascending (l : list Z) : Prop :=
  match l with
  | [] => True
  | x :: l' => Forall (fun y => (x < y)%Z) l' /\ ascending l'
  end.

(** ** src/strategies/models.py: the methods of [Trade] *)

Module Models.

(** A row of the trade table as it is read back: the exit columns and the
    final market price are nullable. *)
Record TradeRow := mkTradeRow {
  row_backtest : nat;
  row_stock_symbol : string;
  row_entry_date : datetime;
  row_entry_price : Q;
  row_quantity : Z;
  row_exit_date : option datetime;
  row_exit_price : option Q;
  row_final_market_price : option Q
}.

(** What a method returns; [TypeError] is the arithmetic on [None]. *)
Inductive outcome (A : Type) :=
| Returns (a : A)
| TypeError.
Arguments Returns {A} a.
Arguments TypeError {A}.

(** Lines 120-125.  [if self.exit_price:] is false for [None] and for a
    zero [Decimal]. *)
Definition get_profit (self : TradeRow) : outcome Q :=
  match row_exit_price self with
  | Some exit_price =>
      if negb (Qeq_bool exit_price 0)
      then Returns ((exit_price - row_entry_price self) * inject_Z (row_quantity self))
      else
        match row_final_market_price self with
        | Some final_market_price =>
            Returns ((final_market_price - row_entry_price self)
                     * inject_Z (row_quantity self))
        | None => TypeError
        end
  | None =>
      match row_final_market_price self with
      | Some final_market_price =>
          Returns ((final_market_price - row_entry_price self)
                   * inject_Z (row_quantity self))
      | None => TypeError
      end
  end.

(** Lines 127-129. *)
Definition is_open (self : TradeRow) : bool :=
  match row_exit_date self with
  | None => true
  | Some _ => false
  end.

(** The row a [Trade.objects.create] of the engine reads back as.  The two
    prices are [DecimalField(max_digits=10, decimal_places=2)] columns (lines
    107 and 112): the engine passes the unrounded [Decimal(str(price))] and
    the column keeps two places, ties to even.  No call passes
    [final_market_price]. *)
Definition stored (t : Trade) : TradeRow :=
  mkTradeRow (trade_backtest t) (stock_symbol t) (entry_date t)
             (round2 (entry_price t)) (quantity t)
             (Some (exit_date t)) (Some (round2 (exit_price t))) None.

(** A snapshot as it is read back: its five figures are [DecimalField]
    columns of two places (lines 166-189).  The engine rounds four of them
    itself; the backend copy passes the daily return unrounded.  This is the
    row for figures that fit their columns ([fits_columns] below). *)
Definition read_snapshot (s : DailyPortfolioSnapshot) : DailyPortfolioSnapshot :=
  mkSnapshot (snap_backtest s) (date s)
             (round2 (total_portfolio_value s)) (round2 (cash_balance s))
             (round2 (daily_return s)) (round2 (peak_portfolio_value s))
             (round2 (snap_drawdown s)) (open_positions_count s).

End Models.

(** Both prices of a trade are closes of the series. *)
Definition priced_at_closes (rows : list Row) (t : Trade) : Prop :=
  In (entry_price t) (map Close rows) /\ In (exit_price t) (map Close rows).

(** No stored key is above the number of stored backtests, so that the next
    key is a new one. *)
Definition keys_in_range (db : Store) : Prop :=
  Forall (fun b => (pk b <= List.length (backtests db))%nat) (backtests db).

(** ** The read actions of the view set (both copies, lines 31-45) *)

Module Views.

Inductive Response (A : Type) :=
| HTTP_200_OK (data : list A)
| HTTP_404_NOT_FOUND
| HTTP_500_INTERNAL_SERVER_ERROR.
Arguments HTTP_200_OK {A} data.
Arguments HTTP_404_NOT_FOUND {A}.
Arguments HTTP_500_INTERNAL_SERVER_ERROR {A}.

(** [self.get_object()]: the backtest with this key, or a 404. *)
Definition get_object (key : nat) (db : Store) : option BacktestResult :=
  find (fun b => Nat.eqb (pk b) key) (backtests db).

(** What [TradeSerializer] shows of a trade: its columns and the two method
    fields. *)
Record TradeData := mkTradeData {
  columns : Models.TradeRow;
  profit : Q;
  is_open : bool
}.

Definition TradeSerializer (t : Trade) : Models.outcome TradeData :=
  match Models.get_profit (Models.stored t) with
  | Models.Returns p =>
      Models.Returns (mkTradeData (Models.stored t) p
                                  (Models.is_open (Models.stored t)))
  | Models.TypeError => Models.TypeError
  end.

Fixpoint many {A B} (f : A -> Models.outcome B) (l : list A)
  : Models.outcome (list B) :=
  match l with
  | [] => Models.Returns []
  | x :: l' =>
      match f x, many f l' with
      | Models.Returns y, Models.Returns ys => Models.Returns (y :: ys)
      | _, _ => Models.TypeError
      end
  end.

(** Lines 31-37.  [Trade] has no [ordering]: the rows are listed as the
    table holds them, by key.  A [TypeError] of a method field leaves the view
    and is answered with a 500. *)
Definition trades (key : nat) (db : Store) : Response TradeData :=
  match get_object key db with
  | None => HTTP_404_NOT_FOUND
  | Some backtest =>
      match many TradeSerializer
                 (filter (fun t => Nat.eqb (trade_backtest t) (pk backtest))
                         (trades db)) with
      | Models.Returns data => HTTP_200_OK data
      | Models.TypeError => HTTP_500_INTERNAL_SERVER_ERROR
      end
  end.

(** [ordering = ['date']] of the snapshot model: a stable sort by date. *)
Fixpoint insert_by_date (s : DailyPortfolioSnapshot)
         (l : list DailyPortfolioSnapshot) : list DailyPortfolioSnapshot :=
  match l with
  | [] => [s]
  | x :: l' =>
      if (date s <=? date x)%Z then s :: x :: l' else x :: insert_by_date s l'
  end.

Definition order_by_date (l : list DailyPortfolioSnapshot)
  : list DailyPortfolioSnapshot :=
  fold_right insert_by_date [] l.

(** Lines 39-45. *)
Definition daily_snapshots (key : nat) (db : Store)
  : Response DailyPortfolioSnapshot :=
  match get_object key db with
  | None => HTTP_404_NOT_FOUND
  | Some backtest =>
      HTTP_200_OK
        (map Models.read_snapshot
             (order_by_date
                (filter (fun s => Nat.eqb (snap_backtest s) (pk backtest))
                        (snapshots db))))
  end.

End Views.

Definition by_date (s s' : DailyPortfolioSnapshot) : Prop :=
  (date s <= date s')%Z.

(** The figures of a snapshot fit their columns: [max_digits=12] and
    [max_digits=7] with two places leave ten and five digits before the
    point (models.py, lines 166-189). *)
Definition fits_columns (s : DailyPortfolioSnapshot) : Prop :=
  Qabs (round2 (total_portfolio_value s)) < 10000000000
  /\ Qabs (round2 (cash_balance s)) < 10000000000
  /\ Qabs (round2 (daily_return s)) < 100000
  /\ Qabs (round2 (peak_portfolio_value s)) < 10000000000
  /\ Qabs (round2 (snap_drawdown s)) < 100000.

(** What the [trades] action shows of a trade of a run. *)
Definition shown (t : Trade) : Views.TradeData :=
  Views.mkTradeData (Models.stored t)
                    ((round2 (exit_price t) - round2 (entry_price t))
                     * inject_Z (quantity t))
                    false.

(** ** src/backend/strategies/views.py, lines 65-133: the download *)

Module Download.

(** The frame of [bars.df]: the column labels, and for every bar its index
    stamp and one cell per column.  A tz-aware index is held by its UTC wall
    time, which is what [tz_convert(None)] leaves of it (lines 120-121). *)
Record DataFrame := mkDataFrame {
  df_columns : list string;
  df_rows : list (datetime * list Q)
}.

(** [df.empty]: an axis of length 0. *)
Definition empty (df : DataFrame) : bool :=
  match df_columns df, df_rows df with
  | [], _ => true
  | _, [] => true
  | _, _ => false
  end.

(** [str.lower] and [str.replace(a, "")] on ASCII labels. *)
Definition lower_char (a : Ascii.ascii) : Ascii.ascii :=
  let n := Ascii.nat_of_ascii a in
  if ((65 <=? n) && (n <=? 90))%nat then Ascii.ascii_of_nat (n + 32) else a.

Fixpoint lower (s : string) : string :=
  match s with
  | EmptyString => EmptyString
  | String a s' => String (lower_char a) (lower s')
  end.

Fixpoint without (a : Ascii.ascii) (s : string) : string :=
  match s with
  | EmptyString => EmptyString
  | String b s' =>
      if Ascii.eqb a b then without a s' else String b (without a s')
  end.

(** Lines 104-113: the entry of [rename_map] for a label, or the label itself
    where the map has none. *)
Definition rename (c : string) : string :=
  let lc := without "_"%char (without " "%char (lower c)) in
  if String.eqb lc "open" then "Open"
  else if String.eqb lc "high" then "High"
  else if String.eqb lc "low" then "Low"
  else if String.eqb lc "close" then "Close"
  else if String.eqb lc "adjclose" || String.eqb lc "adjustedclose"
          || String.eqb lc "adjustclose" then "Adj Close"
  else if String.eqb lc "volume" then "Volume"
  else c.

(** Comparison of two naive stamps. *)
Definition dt_leb (a b : datetime) : bool :=
  (dt_date a <? dt_date b)%Z
  || ((dt_date a =? dt_date b)%Z && (dt_time a <=? dt_time b)%Z).

(** [df.sort_index()]. *)
Fixpoint insert_by_index (r : datetime * list Q) (l : list (datetime * list Q))
  : list (datetime * list Q) :=
  match l with
  | [] => [r]
  | x :: l' =>
      if dt_leb (fst r) (fst x) then r :: x :: l' else x :: insert_by_index r l'
  end.

Definition sort_index (l : list (datetime * list Q)) : list (datetime * list Q) :=
  fold_right insert_by_index [] l.

(** Line 126: [(df.index >= start_dt) & (df.index <= end_dt)]. *)
Definition in_range (start_dt end_dt : datetime) (r : datetime * list Q) : bool :=
  dt_leb start_dt (fst r) && dt_leb (fst r) end_dt.

(** The function from line 97 on, of what [get_historical_prices] returned
    and the two dates of the request. *)
Definition _download_data_with_lumibot (bars : option DataFrame)
    (start_date end_date : Z) : result DataFrame :=
  let start_dt := midnight start_date in
  let end_dt := midnight end_date in
  match bars with
  | None => Raise ValueError
  | Some df =>
      if empty df then Raise ValueError
      else
        let df := mkDataFrame (map rename (df_columns df)) (df_rows df) in
        if negb (existsb (String.eqb "Close") (df_columns df))
        then Raise ValueError
        else
          let df := mkDataFrame (df_columns df) (sort_index (df_rows df)) in
          let df := mkDataFrame (df_columns df)
                                (filter (in_range start_dt end_dt) (df_rows df)) in
          if empty df then Raise ValueError else Ok df
  end.

End Download.

(** The stamps of a frame do not go down. *)
Definition by_index (r r' : datetime * list Q) : Prop :=
  Download.dt_leb (fst r) (fst r') = true.

(** What YahooData returns for a week of daily bars stamped at 05:00 UTC,
    newest first. *)
Definition yahoo_week : Download.DataFrame :=
  Download.mkDataFrame
    ["open"%string; "close"%string; "adj_close"%string; "dividend"%string]
    (map (fun d => (mkDatetime d 5, [inject_Z d; inject_Z d + 1; inject_Z d; 0]))
         [7; 6; 5; 4; 3; 2; 1]%Z).

(** ** src/backend/strategies/management/commands/run_multi_symbol_backtest.py *)

Module Command.

Definition symbols : list string := ["AAPL"%string; "GOOGL"%string; "MSFT"%string; "TSLA"%string;
   "AMZN"%string].

(** [datetime(2023, 1, 1).date()] and [datetime(2023, 12, 31).date()] as days
    since 1970-01-01. *)
Definition params_for (symbol : string) : Params :=
  mkParams symbol 19358 19722 20 50 1 50 10000.

(** What a pass of the loop writes to [stdout] after the announcement. *)
Inductive line :=
| SUCCESS (symbol : string) (total_profit total_returns : Q)
| ERROR (symbol : string) (e : exn).

(** One pass of the loop of [handle]: [fetched] is the frame the download
    gives for a symbol, empty where it gives none.  Every exception of the run
    is caught and reported. *)
Definition pass (fetched : string -> list Bar) (acc : list line * Store)
    (symbol : string) : list line * Store :=
  match Backend._execute_backtest (params_for symbol) (fetched symbol)
                                  (snd acc) with
  | (Ok result_, db') =>
      (fst acc ++ [SUCCESS symbol (total_profit result_) (total_returns result_)],
       db')
  | (Raise e, db') => (fst acc ++ [ERROR symbol e], db')
  end.

Definition handle (fetched : string -> list Bar) (db : Store)
  : list line * Store :=
  fold_left (pass fetched) symbols ([], db).

Definition symbol_of (l : line) : string :=
  match l with
  | SUCCESS symbol _ _ => symbol
  | ERROR symbol _ => symbol
  end.

End Command.

(** The symbols whose download gave bars. *)
Definition fetched_symbols (fetched : string -> list Bar) : list string :=
  filter (fun symbol => match fetched symbol with [] => false | _ => true end)
         Command.symbols.

(** ** Invariants of the loop *)

(** The books of a state against a starting point [db0], [cash0]: the trades
    written since, and cash plus cost of the open position equal to the
    starting cash plus the profit of those trades. *)
Definition balanced (db0 : Store) (cash0 : Q) (st : State) (db : Store) : Prop :=
  exists added,
    trades db = trades db0 ++ added
    /\ cash st + holdings_cost st == cash0 + ledger_profit added
    /\ trades_count st = Z.of_nat (List.length added).

(** The snapshots written since [db0]: each sane, their peaks in
    non-decreasing order and none above the running peak. *)
Definition charted (db0 : Store) (st : State) (db : Store) : Prop :=
  portfolio_value st <= peak_value st
  /\ exists added,
       snapshots db = snapshots db0 ++ added
       /\ Forall sane_snapshot added
       /\ nondecreasing (map peak_portfolio_value added)
       /\ Forall (fun y => y <= round2 (peak_value st))
                 (map peak_portfolio_value added).

(** The snapshots of the run are for earlier bars, in order of date, and
    they are what the table has gained. *)
Definition chronicle (backtest : BacktestResult) (rows : list Row)
    (db0 : Store) (i : nat) (db : Store) : Prop :=
  snapshots_behind backtest rows i db
  /\ ascending (map date (own_snapshots backtest db))
  /\ exists added,
       snapshots db = snapshots db0 ++ added
       /\ Forall (fun s => snap_backtest s = pk backtest) added.

(** The open position holds at least one share, and so does every trade
    written since [db0]. *)
Definition whole_shares (db0 : Store) (st : State) (db : Store) : Prop :=
  (forall pos, position st = Some pos -> (1 <= pos_quantity pos)%Z)
  /\ exists added,
       trades db = trades db0 ++ added
       /\ Forall (fun t => (1 <= quantity t)%Z) added.

(** The prices of the open position and of the trades written since [db0]
    are closes of the series, and the trades are those of [backtest]. *)
Definition priced (backtest : BacktestResult) (rows : list Row)
    (db0 : Store) (st : State) (db : Store) : Prop :=
  (forall pos, position st = Some pos -> In (pos_entry_price pos) (map Close rows))
  /\ exists added,
       trades db = trades db0 ++ added
       /\ Forall (fun t => priced_at_closes rows t
                           /\ trade_backtest t = pk backtest) added.

(** * Properties *)

Ltac break_match :=
  match goal with
  | H : context [match ?x with _ => _ end] |- _ => destruct x eqn:?
  | |- context [match ?x with _ => _ end] => destruct x eqn:?
  end.

Ltac invert_pairs :=
  repeat match goal with
         | H : (_, _) = (_, _) |- _ => inversion H; clear H; subst
         | H : Some _ = Some _ |- _ => inversion H; clear H; subst
         end.

Ltac run_signals :=
  unfold Strategies.check_stop_loss_take_profit, Backend.check_stop_loss_take_profit,
         Strategies.check_crossover, Backend.check_crossover,
         Strategies.shares_for, Backend.shares_for, after_sale,
         record_trade, Trade_create, truediv, bind, ret, raise in *;
  cbn [position cash trades_count portfolio_value peak_value
       trades snapshots backtests] in *.

Ltac crunch :=
  repeat break_match; try discriminate; invert_pairs;
  rewrite ?andb_false_r, ?andb_true_r in *; try discriminate;
  cbn [position cash trades_count portfolio_value peak_value
       trades snapshots backtests bool_of_position negb] in *; try discriminate.

(** ** The loop *)

Lemma bind_ret_r {A} (m : M A) db : bind m ret db = m db.
Proof. unfold bind, ret. destruct (m db) as [[a|e] db']; reflexivity. Qed.

Lemma for_rows_snoc body k rows row st db :
  for_rows body k (rows ++ [row]) st db =
  match for_rows body k rows st db with
  | (Ok st', db') => body (k + List.length rows)%nat row st' db'
  | (Raise e, db') => (Raise e, db')
  end.
Proof.
  revert k st db. induction rows as [|r rows IH]; intros k st db; cbn [for_rows app].
  - rewrite bind_ret_r. unfold ret. cbn. rewrite Nat.add_0_r. reflexivity.
  - unfold bind. destruct (body k r st db) as [[st1|e] db1]; [|reflexivity].
    rewrite IH. cbn [List.length]. rewrite Nat.add_succ_r. reflexivity.
Qed.

Lemma firstn_snoc {A} (l : list A) i x :
  nth_error l i = Some x -> firstn (S i) l = firstn i l ++ [x].
Proof.
  revert i. induction l as [|a l IH]; intros [|i] H; cbn in *; try discriminate.
  - congruence.
  - f_equal. auto.
Qed.

(** ** One bar *)

Section OneBar.

Variables (params : Params) (backtest : BacktestResult) (rows : list Row).

(** A bar whose indicators are not both defined changes nothing. *)
Lemma skipped_bar c i row st db :
  defined row = false ->
  loop_body_of c params backtest rows i row st db = (Ok st, db).
Proof.
  unfold defined, isna. intros H.
  destruct c; cbn [loop_body_of];
    unfold Strategies.loop_body, Backend.loop_body, ret;
    destruct (SMA_short row), (SMA_long row); cbn in H; try discriminate; reflexivity.
Qed.

(** A bar with both indicators: the snapshot is written first, then the
    risk check and the signals run on the valued state.  The snapshot is
    refused when the day already has one; the backend copy can also stop on
    its daily return. *)
Lemma processed_bar c i row st db r db' :
  defined row = true ->
  loop_body_of c params backtest rows i row st db = (r, db') ->
  (exists e, r = Raise e /\ db' = db
             /\ (e = IntegrityError
                 /\ day_taken (pk backtest) (dt_date (index row)) db = true
                 \/ c = BackendViews /\ e = ZeroDivisionError))
  \/ (exists s l daily,
        SMA_short row = Some s /\ SMA_long row = Some l
        /\ (c = StrategiesViews -> daily = 0)
        /\ check_stop_loss_take_profit_of c params backtest rows i row s l
             (update_valuation st (Close row))
             (with_snapshot db
                (snapshot_row backtest (index row)
                              (update_valuation st (Close row)) daily))
           = (r, db')).
Proof.
  unfold defined, isna. intros Hd H.
  destruct (SMA_short row) as [s|] eqn:Hs; [|discriminate].
  destruct (SMA_long row) as [l|] eqn:Hl; [|discriminate].
  destruct c; cbn [loop_body_of check_stop_loss_take_profit_of] in *.
  - unfold Strategies.loop_body in H. rewrite Hs, Hl in H.
    unfold bind, DailyPortfolioSnapshot_create in H.
    cbn [snapshot_row snap_backtest date] in H.
    destruct (day_taken _ _ db) eqn:Htaken.
    + left. inversion H. eauto 6.
    + right. exists s, l, 0. auto.
  - unfold Backend.loop_body in H. rewrite Hs, Hl in H.
    unfold bind at 1 in H.
    destruct (Backend.compute_daily_return_pct _ _ _ db) as [[daily|e] db1] eqn:Hdr.
    + assert (db1 = db) as ->.
      { unfold Backend.compute_daily_return_pct, Backend.prev_snapshots_first,
          truediv, bind, ret, raise in Hdr. crunch; reflexivity. }
      unfold bind, DailyPortfolioSnapshot_create in H.
      cbn [snapshot_row snap_backtest date] in H.
      destruct (day_taken _ _ db) eqn:Htaken.
      * left. inversion H. eauto 6.
      * right. exists s, l, daily. repeat split; auto. discriminate.
    + left. inversion H; subst.
      unfold Backend.compute_daily_return_pct, Backend.prev_snapshots_first,
          truediv, bind, ret, raise in Hdr. crunch; eauto 6.
Qed.

Lemma ledger_of_signals c i row s l st db st' db' :
  check_stop_loss_take_profit_of c params backtest rows i row s l st db
  = (Ok st', db') ->
  ledger_step c params backtest row st st' db db'
  /\ snapshots db' = snapshots db /\ backtests db' = backtests db.
Proof.
  unfold ledger_step, sold. intros H.
  destruct c; cbn [check_stop_loss_take_profit_of stamp_of] in *; run_signals;
    destruct (position st) as [pos|] eqn:Hpos; crunch; repeat split; congruence.
Qed.

Lemma failed_signals c i row s l st db e db' :
  check_stop_loss_take_profit_of c params backtest rows i row s l st db
  = (Raise e, db') ->
  db' = db.
Proof.
  intros H.
  destruct c; cbn [check_stop_loss_take_profit_of] in *; run_signals;
    destruct (position st) as [pos|] eqn:Hpos; crunch; reflexivity.
Qed.

Lemma ledger_of_bar c i row st db st' db' :
  loop_body_of c params backtest rows i row st db = (Ok st', db') ->
  ledger_step c params backtest row st st' db db'.
Proof.
  intros H. destruct (defined row) eqn:Hd.
  - apply processed_bar in H; [|assumption].
    destruct H as [(e & He & _)|(s & l & daily & _ & _ & _ & H)]; [discriminate|].
    apply ledger_of_signals in H. destruct H as [H _]. exact H.
  - rewrite skipped_bar in H by assumption. inversion H; subst.
    unfold ledger_step. destruct (position st'); auto.
Qed.

End OneBar.

(** ** The indicator columns *)

Lemma add_columns_nth_error f g bars : forall k i row,
  nth_error (add_columns bars (map f (seq k (List.length bars)))
                              (map g (seq k (List.length bars)))) i = Some row ->
  SMA_short row = f (k + i)%nat /\ SMA_long row = g (k + i)%nat.
Proof.
  induction bars as [|b bars IH]; intros k i row H.
  - destruct i; discriminate.
  - cbn in H. destruct i as [|i]; cbn in H.
    + inversion H; subst; cbn. rewrite Nat.add_0_r. auto.
    + apply IH in H. rewrite Nat.add_succ_r. exact H.
Qed.

Lemma frame_nth_error params bars i row :
  nth_error (frame params bars) i = Some row ->
  SMA_short row
  = window_mean (Z.to_nat (short_period params)) (map bar_Close bars) i
  /\ SMA_long row
     = window_mean (Z.to_nat (long_period params)) (map bar_Close bars) i.
Proof.
  unfold frame, rolling_mean. intros H.
  destruct (short_period params <? 0)%Z; [destruct i; discriminate|].
  destruct (long_period params <? 0)%Z; [destruct i; discriminate|].
  rewrite length_map in H. apply add_columns_nth_error in H. exact H.
Qed.

Lemma isna_window_mean w xs i :
  isna (window_mean w xs i) = Nat.eqb w 0 || Nat.ltb (S i) w.
Proof. unfold window_mean. destruct (_ || _); reflexivity. Qed.

(** Once both averages are defined they stay defined: the warm-up bars are
    a prefix of the frame. *)
Lemma frame_warm params bars i row row' :
  nth_error (frame params bars) i = Some row ->
  nth_error (frame params bars) (S i) = Some row' ->
  defined row = true -> defined row' = true.
Proof.
  intros H H' Hd. apply frame_nth_error in H, H'.
  destruct H as [Hs Hl], H' as [Hs' Hl']. unfold defined in *.
  rewrite Hs, Hl, !isna_window_mean in Hd.
  rewrite Hs', Hl', !isna_window_mean.
  apply andb_true_iff in Hd. destruct Hd as [H1 H2].
  apply negb_true_iff, orb_false_iff in H1, H2.
  destruct H1 as [H1 H1'], H2 as [H2 H2'].
  rewrite H1, H2. apply Nat.ltb_ge in H1', H2'.
  assert (Nat.ltb (S (S i)) (Z.to_nat (short_period params)) = false) as ->
    by (apply Nat.ltb_ge; lia).
  assert (Nat.ltb (S (S i)) (Z.to_nat (long_period params)) = false) as ->
    by (apply Nat.ltb_ge; lia).
  reflexivity.
Qed.

(** A position can only be open after a bar that had both indicators. *)
Lemma holding_after_defined_bar c params backtest bars db0 : forall i st db,
  (i <= List.length (frame params bars))%nat ->
  for_rows (loop_body_of c params backtest (frame params bars)) 0
           (firstn i (frame params bars)) (initial_state params) db0 = (Ok st, db) ->
  position st <> None ->
  exists row, nth_error (frame params bars) (i - 1) = Some row
              /\ (0 < i)%nat /\ defined row = true.
Proof.
  induction i as [|i IH]; intros st db Hlen Hrun Hpos.
  - cbn in Hrun. inversion Hrun; subst. cbn in Hpos. congruence.
  - destruct (nth_error (frame params bars) i) as [row|] eqn:Hrow.
    2:{ apply nth_error_None in Hrow. lia. }
    rewrite (firstn_snoc _ _ _ Hrow), for_rows_snoc in Hrun.
    destruct (for_rows _ 0 (firstn i _) _ db0) as [[sti|e] dbi] eqn:Hpre;
      [|discriminate].
    replace (S i - 1)%nat with i by lia.
    exists row. split; [assumption|]. split; [lia|].
    destruct (defined row) eqn:Hd; [reflexivity|].
    rewrite skipped_bar in Hrun by assumption. inversion Hrun; subst.
    destruct (IH st db ltac:(lia) eq_refl Hpos) as (prev & Hprev & Hi & Hdp).
    replace i with (S (i - 1)) in Hrow by lia.
    rewrite (frame_warm _ _ _ _ _ Hprev Hrow Hdp) in Hd. discriminate.
Qed.

(** ** Risk exit *)

Lemma risk_exit_of_signals c params backtest rows i row s l st db pos :
  position st = Some pos ->
  Qle_bool (Close row) (stop_price params (pos_entry_price pos))
  || Qle_bool (take_profit_price params (pos_entry_price pos)) (Close row) = true ->
  check_stop_loss_take_profit_of c params backtest rows i row s l st db
  = (Ok (after_sale st pos (Close row)),
     mkStore (backtests db) (snapshots db)
             (trades db ++ [sold params backtest pos (stamp_of c (index row))
                                 (Close row)])).
Proof.
  intros Hpos Hrisk.
  destruct c; cbn [check_stop_loss_take_profit_of stamp_of];
    unfold Strategies.check_stop_loss_take_profit,
           Backend.check_stop_loss_take_profit;
    rewrite Hpos, Hrisk; reflexivity.
Qed.

(** The risk exit where the bar is processed: on a bar that finds the
    account holding with the close at or beyond the stop-loss or take-profit
    price, a bar that returns has sold the position at that close, recorded
    one trade and left the account flat, whatever the crossover signals of the
    bar are.  A bar that raises instead has raised in its snapshot block,
    before the risk check: the day already has a snapshot (a duplicated
    date), or the backend copy divides by a previous portfolio value of
    zero. *)
Lemma risk_exit_closes_position c params backtest bars db0 i row st db pos :
  for_rows (loop_body_of c params backtest (frame params bars)) 0
           (firstn i (frame params bars)) (initial_state params) db0
  = (Ok st, db) ->
  nth_error (frame params bars) i = Some row ->
  position st = Some pos ->
  Close row <= stop_price params (pos_entry_price pos)
  \/ take_profit_price params (pos_entry_price pos) <= Close row ->
  (exists e,
      loop_body_of c params backtest (frame params bars) i row st db
      = (Raise e, db)
      /\ (e = IntegrityError
          /\ day_taken (pk backtest) (dt_date (index row)) db = true
          \/ c = BackendViews /\ e = ZeroDivisionError))
  \/ (exists st' db',
         loop_body_of c params backtest (frame params bars) i row st db
         = (Ok st', db')
         /\ position st' = None
         /\ cash st' = cash st + inject_Z (pos_quantity pos) * Close row
         /\ trades_count st' = (trades_count st + 1)%Z
         /\ trades db'
            = trades db ++ [sold params backtest pos (stamp_of c (index row))
                                 (Close row)]).
Proof.
  intros Hrun Hrow Hpos Hrisk.
  assert (Hlen : (i <= List.length (frame params bars))%nat).
  { apply Nat.lt_le_incl, nth_error_Some. congruence. }
  assert (Hd : defined row = true).
  { destruct (holding_after_defined_bar _ _ _ _ _ _ _ _ Hlen Hrun)
      as (prev & Hprev & Hi & Hdp); [congruence|].
    replace i with (S (i - 1)) in Hrow by lia.
    eapply frame_warm; eassumption. }
  assert (Hb : Qle_bool (Close row) (stop_price params (pos_entry_price pos))
               || Qle_bool (take_profit_price params (pos_entry_price pos))
                           (Close row) = true).
  { apply orb_true_iff. destruct Hrisk as [H|H]; [left|right];
      apply Qle_bool_iff; exact H. }
  destruct (loop_body_of c params backtest (frame params bars) i row st db)
    as [r db'] eqn:Hbody.
  destruct (processed_bar _ _ _ _ _ _ _ _ _ _ Hd Hbody)
    as [(e & -> & -> & He)|(s & l & daily & _ & _ & _ & Hsig)].
  - left. exists e. auto.
  - right.
    rewrite (risk_exit_of_signals c params backtest _ i row s l _ _ pos) in Hsig;
      [|exact Hpos|exact Hb].
    inversion Hsig; subst. eexists _, _. split; [reflexivity|].
    cbn. auto.
Qed.

(** The risk exit of the worked run: holding 6 shares bought at 12, the
    close of 20 is above the take-profit price of 18. *)
Lemma risk_exit_closes_position_witness :
  exists st' db',
    loop_body_of StrategiesViews dip_params (initial_backtest dip_params 1)
      (frame dip_params dip_bars) 5
      (mkRow (midnight 5) 20 (Some 20) (Some ((12 + 20) / 2)))
      (state_of (after_bars StrategiesViews dip_params dip_bars 5)
                (initial_state dip_params))
      (snd (after_bars StrategiesViews dip_params dip_bars 5))
    = (Ok st', db')
    /\ position st' = None.
Proof.
  destruct (risk_exit_closes_position StrategiesViews dip_params
              (initial_backtest dip_params 1) dip_bars empty_store 5
              (mkRow (midnight 5) 20 (Some 20) (Some ((12 + 20) / 2)))
              (state_of (after_bars StrategiesViews dip_params dip_bars 5)
                        (initial_state dip_params))
              (snd (after_bars StrategiesViews dip_params dip_bars 5))
              (mkPosition 6 12 (midnight 4)))
    as [(e & He & _)|(st' & db' & Hbody & Hflat & _)].
  - vm_compute. reflexivity.
  - vm_compute. reflexivity.
  - vm_compute. reflexivity.
  - right. vm_compute. discriminate.
  - vm_compute in He. discriminate.
  - exists st', db'. split; assumption.
Defined.

(** C4 fails in the backend copy on the run that slumps.  Day 5 finds both
    copies holding the share bought at 0.1, and its close of 0.0005 is below
    the stop price of 0.001.  The strategies copy sells at that close and
    records the trade.  The backend copy divides by the portfolio value of the
    snapshot of day 4, which is 0.00, and raises [ZeroDivisionError] in its
    snapshot block, before the risk check: the position is never closed and
    the run ends without a trade. *)
Theorem backend_stops_before_a_risk_exit :
  exists row,
    nth_error (frame slump_params slump_bars) 5 = Some row
    /\ (forall c, exists st db pos,
          after_bars c slump_params slump_bars 5 = (Ok st, db)
          /\ position st = Some pos
          /\ Close row <= stop_price slump_params (pos_entry_price pos)
          /\ match c with
             | StrategiesViews =>
                 exists st' db',
                   loop_body_of c slump_params (initial_backtest slump_params 1)
                     (frame slump_params slump_bars) 5 row st db = (Ok st', db')
                   /\ position st' = None
                   /\ trades db'
                      = trades db ++ [sold slump_params
                                        (initial_backtest slump_params 1) pos
                                        (stamp_of c (index row)) (Close row)]
             | BackendViews =>
                 loop_body_of c slump_params (initial_backtest slump_params 1)
                   (frame slump_params slump_bars) 5 row st db
                 = (Raise ZeroDivisionError, db)
             end)
    /\ exists db,
         Backend._execute_backtest slump_params slump_bars empty_store
         = (Raise ZeroDivisionError, db)
         /\ trades db = [].
Proof.
  eexists. split; [vm_compute; reflexivity|]. split.
  - intros []; eexists _, _, _;
      (split; [vm_compute; reflexivity|]);
      (split; [reflexivity|]);
      (split; [vm_compute; discriminate|]).
    + eexists _, _. split; [vm_compute; reflexivity|].
      split; reflexivity.
    + vm_compute. reflexivity.
  - eexists. split; [vm_compute; reflexivity|]. reflexivity.
Qed.

(** ** Duplicate days *)

Lemma snapshots_behind_bar c params backtest rows i row st db st' db' :
  nth_error rows i = Some row ->
  loop_body_of c params backtest rows i row st db = (Ok st', db') ->
  snapshots_behind backtest rows i db ->
  snapshots_behind backtest rows (S i) db'.
Proof.
  intros Hrow Hbody Hinv s Hin Hbt.
  assert (Hold : In s (snapshots db) ->
                 exists j r, (j < S i)%nat /\ nth_error rows j = Some r
                             /\ date s = dt_date (index r)).
  { intros H. destruct (Hinv s H Hbt) as (j & r & Hj & Hr & Hd).
    exists j, r. auto with arith. }
  destruct (defined row) eqn:Hd.
  - apply processed_bar in Hbody; [|assumption].
    destruct Hbody as [(e & He & _)|(x & l & daily & _ & _ & _ & H)];
      [discriminate|].
    apply ledger_of_signals in H. destruct H as (_ & Hs & _).
    rewrite Hs in Hin. cbn in Hin. apply in_app_or in Hin.
    destruct Hin as [Hin|[<-|[]]]; [auto|].
    exists i, row. auto.
  - rewrite skipped_bar in Hbody by assumption. inversion Hbody; subst. auto.
Qed.

Lemma snapshots_behind_prefix c params backtest rows db0 : forall i st db,
  (i <= List.length rows)%nat ->
  snapshots_behind backtest rows 0 db0 ->
  for_rows (loop_body_of c params backtest rows) 0 (firstn i rows)
           (initial_state params) db0 = (Ok st, db) ->
  snapshots_behind backtest rows i db.
Proof.
  induction i as [|i IH]; intros st db Hlen H0 Hrun.
  - cbn in Hrun. inversion Hrun; subst. exact H0.
  - destruct (nth_error rows i) as [row|] eqn:Hrow.
    2:{ apply nth_error_None in Hrow. lia. }
    rewrite (firstn_snoc _ _ _ Hrow), for_rows_snoc in Hrun.
    destruct (for_rows _ 0 (firstn i rows) _ db0) as [[sti|e] dbi] eqn:Hpre;
      [|discriminate].
    rewrite length_firstn, Nat.min_l in Hrun by lia. cbn in Hrun.
    eapply snapshots_behind_bar; [exact Hrow|exact Hrun|].
    eapply IH; [lia|exact H0|reflexivity].
Qed.

(** On bars in increasing order of day no snapshot is refused: the day of
    the bar at hand is never taken. *)
Lemma sorted_days_are_free backtest rows i row db :
  increasing_days rows ->
  snapshots_behind backtest rows i db ->
  nth_error rows i = Some row ->
  day_taken (pk backtest) (dt_date (index row)) db = false.
Proof.
  intros Hsorted Hinv Hrow. unfold day_taken.
  destruct (existsb _ _) eqn:E; [|reflexivity].
  apply existsb_exists in E. destruct E as (s & Hin & Hs).
  apply andb_true_iff in Hs. destruct Hs as [Hbt Hd].
  apply Nat.eqb_eq in Hbt. apply Z.eqb_eq in Hd.
  destruct (Hinv s Hin Hbt) as (j & r & Hj & Hr & Hdate).
  pose proof (Hsorted j i r row Hr Hrow Hj). lia.
Qed.

(** ** Trade ledger *)

Lemma close_remaining_appends c params backtest rows st db :
  exists st' db',
    close_remaining_of c params backtest rows st db = (Ok st', db')
    /\ trades db'
       = trades db
         ++ match position st with
            | Some pos =>
                [sold params backtest pos
                      (stamp_of c (last (map index rows) (midnight 0)))
                      (last (map Close rows) 0)]
            | None => []
            end
    /\ trades_count st'
       = (trades_count st + match position st with Some _ => 1 | None => 0 end)%Z
    /\ snapshots db' = snapshots db /\ backtests db' = backtests db
    /\ peak_value st' = peak_value st
    /\ portfolio_value st' = portfolio_value st
    /\ cash st'
       = match position st with
         | Some pos => cash st + inject_Z (pos_quantity pos) * last (map Close rows) 0
         | None => cash st
         end.
Proof.
  destruct c; cbn [close_remaining_of stamp_of];
    unfold Strategies.close_remaining, Backend.close_remaining,
           record_trade, Trade_create, bind, ret, sold;
    destruct (position st) as [pos|]; eexists _, _; (split; [reflexivity|]);
    cbn; rewrite ?app_nil_r, ?Z.add_0_r; auto 10.
Qed.

(** C7: a bar that takes the account from holding to flat appends exactly
    one trade, made of the position's entry date, entry price and quantity and
    of the bar's close and date; any other bar, an entry included, leaves the
    ledger alone; and after the last bar a position still open is closed by
    exactly one more trade at the last close and date. *)
Theorem every_exit_appends_one_trade c params backtest rows i row st db st' db' :
  loop_body_of c params backtest rows i row st db = (Ok st', db') ->
  ledger_step c params backtest row st st' db db'
  /\ forall stn dbn, exists stf dbf,
       close_remaining_of c params backtest rows stn dbn = (Ok stf, dbf)
       /\ trades dbf
          = trades dbn
            ++ match position stn with
               | Some pos =>
                   [sold params backtest pos
                         (stamp_of c (last (map index rows) (midnight 0)))
                         (last (map Close rows) 0)]
               | None => []
               end
       /\ trades_count stf
          = (trades_count stn
             + match position stn with Some _ => 1 | None => 0 end)%Z.
Proof.
  intros H. split.
  - eapply ledger_of_bar; eassumption.
  - intros stn dbn.
    destruct (close_remaining_appends c params backtest rows stn dbn)
      as (stf & dbf & H1 & H2 & H3 & _).
    exists stf, dbf. auto.
Qed.

(** The death cross of the worked run: the 10 shares bought at 10 on day 2
    are sold at 8 on day 3, and that is the one trade in the ledger. *)
Lemma every_exit_appends_one_trade_witness :
  trades (snd (after_bars StrategiesViews dip_params dip_bars 4))
  = trades (snd (after_bars StrategiesViews dip_params dip_bars 3))
    ++ [mkTrade 1 "AAPL" (midnight 2) 10 10 (midnight 3) 8].
Proof.
  pose proof (every_exit_appends_one_trade StrategiesViews dip_params
                (initial_backtest dip_params 1) (frame dip_params dip_bars) 3
                (mkRow (midnight 3) 8 (Some 8) (Some ((10 + 8) / 2)))
                (state_of (after_bars StrategiesViews dip_params dip_bars 3)
                          (initial_state dip_params))
                (snd (after_bars StrategiesViews dip_params dip_bars 3))
                (state_of (after_bars StrategiesViews dip_params dip_bars 4)
                          (initial_state dip_params))
                (snd (after_bars StrategiesViews dip_params dip_bars 4))) as H.
  destruct H as [H _].
  - vm_compute. reflexivity.
  - vm_compute in H. destruct H as [H _]. vm_compute. exact H.
Defined.

(** ** Snapshots *)

Lemma snapshot_of_bar c params backtest rows i row st db st' db' :
  loop_body_of c params backtest rows i row st db = (Ok st', db') ->
  defined row = true ->
  exists daily,
    snapshots db'
    = snapshots db
      ++ [snapshot_row backtest (index row) (update_valuation st (Close row)) daily]
    /\ (c = StrategiesViews -> daily = 0).
Proof.
  intros H Hd. apply processed_bar in H; [|assumption].
  destruct H as [(e & He & _)|(s & l & daily & _ & _ & Hdaily & H)]; [discriminate|].
  apply ledger_of_signals in H. destruct H as (_ & H & _).
  exists daily. split; [|assumption]. rewrite H. reflexivity.
Qed.

(** C5, as the code has it: for a bar with both indicators, the snapshot is
    taken before the risk check and the crossover signals; its cash balance,
    portfolio value and open-position count are those of the state the bar
    starts in, valued at the bar's close. *)
Theorem snapshot_precedes_decision c params backtest rows i row st db st' db' :
  loop_body_of c params backtest rows i row st db = (Ok st', db') ->
  defined row = true ->
  exists s,
    snapshots db' = snapshots db ++ [s]
    /\ cash_balance s = round2 (cash st)
    /\ total_portfolio_value s
       = round2 (match position st with
                 | Some pos => cash st + inject_Z (pos_quantity pos) * Close row
                 | None => cash st
                 end)
    /\ open_positions_count s
       = (if bool_of_position (position st) then 1 else 0)%Z.
Proof.
  intros H Hd.
  destruct (snapshot_of_bar _ _ _ _ _ _ _ _ _ _ H Hd) as (daily & Hs & _).
  eexists. split; [exact Hs|]. cbn. auto.
Qed.

(** The entry bar of the worked run: the snapshot of day 2 still shows the
    100 in cash and no open position. *)
Lemma snapshot_precedes_decision_witness :
  exists s,
    snapshots (snd (after_bars StrategiesViews dip_params dip_bars 3))
    = snapshots (snd (after_bars StrategiesViews dip_params dip_bars 2)) ++ [s]
    /\ cash_balance s = round2 100
    /\ open_positions_count s = 0%Z.
Proof.
  destruct (snapshot_precedes_decision StrategiesViews dip_params
              (initial_backtest dip_params 1) (frame dip_params dip_bars) 2
              (mkRow (midnight 2) 10 (Some 10) (Some ((9 + 10) / 2)))
              (state_of (after_bars StrategiesViews dip_params dip_bars 2)
                        (initial_state dip_params))
              (snd (after_bars StrategiesViews dip_params dip_bars 2))
              (state_of (after_bars StrategiesViews dip_params dip_bars 3)
                        (initial_state dip_params))
              (snd (after_bars StrategiesViews dip_params dip_bars 3)))
    as (s & H1 & H2 & _ & H3).
  - vm_compute. reflexivity.
  - reflexivity.
  - exists s. split; [exact H1|]. split; [exact H2|exact H3].
Defined.

(** C5 as stated fails on the entry bar of the worked run: the account ends
    day 2 holding 10 shares with no cash left, and the snapshot of day 2 shows
    100 in cash and no open position. *)
Lemma snapshot_after_decision_fails :
  ~ snapshot_after_decision StrategiesViews dip_params
      (initial_backtest dip_params 1) (frame dip_params dip_bars) 2
      (mkRow (midnight 2) 10 (Some 10) (Some ((9 + 10) / 2)))
      (state_of (after_bars StrategiesViews dip_params dip_bars 2)
                (initial_state dip_params))
      (snd (after_bars StrategiesViews dip_params dip_bars 2)).
Proof.
  intros H.
  destruct (H (state_of (after_bars StrategiesViews dip_params dip_bars 3)
                        (initial_state dip_params))
              (snd (after_bars StrategiesViews dip_params dip_bars 3)))
    as (s & Hs & _ & Hopen).
  - vm_compute. reflexivity.
  - vm_compute in Hs. inversion Hs; subst s.
    vm_compute in Hopen. discriminate.
Qed.

(** A completed loop has written one snapshot for each bar that had both
    indicators, and none for the others. *)
Lemma snapshots_only_for_defined_bars c params backtest rows :
  forall todo i st db st' db',
    for_rows (loop_body_of c params backtest rows) i todo st db = (Ok st', db') ->
    List.length (snapshots db')
    = (List.length (snapshots db) + List.length (filter defined todo))%nat.
Proof.
  induction todo as [|row todo IH]; intros i st db st' db' H.
  - inversion H; subst. cbn. lia.
  - cbn [for_rows] in H. unfold bind in H.
    destruct (loop_body_of c params backtest rows i row st db)
      as [[st1|e] db1] eqn:Hb; [|discriminate].
    apply IH in H. rewrite H. cbn [filter].
    destruct (defined row) eqn:Hd.
    + destruct (snapshot_of_bar _ _ _ _ _ _ _ _ _ _ Hb Hd) as (daily & Hs & _).
      rewrite Hs, length_app. cbn. lia.
    + rewrite skipped_bar in Hb by assumption. inversion Hb; subst. lia.
Qed.

(** ** The two copies side by side *)







Lemma daily_return_stays backtest i v db r db' :
  Backend.compute_daily_return_pct backtest i v db = (r, db') ->
  db' = db /\ match r with Ok _ => True | Raise e => e = ZeroDivisionError end.
Proof.
  unfold Backend.compute_daily_return_pct, Backend.prev_snapshots_first,
    truediv, bind, ret, raise.
  intros H. crunch; auto.
Qed.

Section SideBySide.

Variables (params : Params) (backtest : BacktestResult) (rows : list Row).






End SideBySide.




(** ** Runs that stop early or trade nothing *)

Lemma execute_of_empty c params db :
  execute_of c params [] db = (Raise ValueError, db).
Proof. destruct c; reflexivity. Qed.

(** The run past its guards: the result row is created, the frame is
    simulated, the results are written. *)
Lemma execute_of_frame c params bars db :
  bars <> [] ->
  (0 <= short_period params)%Z -> (0 <= long_period params)%Z ->
  execute_of c params bars db
  = bind (BacktestResult_create (initial_backtest params))
         (fun backtest =>
            bind (simulate_of c params backtest (frame params bars))
                 (update_backtest_results params backtest)) db.
Proof.
  intros Hne Hs Hl. destruct bars as [|b bars]; [congruence|].
  unfold frame, rolling_mean.
  destruct c; cbn [execute_of simulate_of];
    unfold Strategies._execute_backtest, Backend._execute_backtest,
           rolling_mean, lift;
    apply Z.ltb_ge in Hs, Hl; rewrite Hs, Hl; reflexivity.
Qed.

Lemma execute_of_refused_window c params bars db :
  bars <> [] ->
  (short_period params < 0)%Z \/ (long_period params < 0)%Z ->
  execute_of c params bars db = (Raise ValueError, db).
Proof.
  intros Hne H. destruct bars as [|b bars]; [congruence|].
  destruct c; cbn [execute_of];
    unfold Strategies._execute_backtest, Backend._execute_backtest,
           rolling_mean, lift, bind;
    destruct (short_period params <? 0)%Z eqn:Hs; try reflexivity;
    destruct (long_period params <? 0)%Z eqn:Hl; try reflexivity;
    apply Z.ltb_ge in Hs, Hl; lia.
Qed.

Lemma for_rows_all_skipped c params backtest rows : forall todo i st db,
  (forall row, In row todo -> defined row = false) ->
  for_rows (loop_body_of c params backtest rows) i todo st db = (Ok st, db).
Proof.
  induction todo as [|row todo IH]; intros i st db H; [reflexivity|].
  cbn [for_rows]. unfold bind.
  rewrite skipped_bar by (apply H; left; reflexivity).
  apply IH. intros r Hr. apply H. right. exact Hr.
Qed.

Lemma add_columns_length bars : forall s l,
  (List.length (add_columns bars s l) <= List.length bars)%nat.
Proof.
  induction bars as [|b bars IH]; intros [|x s] [|y l]; cbn; try lia.
  specialize (IH s l). lia.
Qed.

Lemma frame_length params bars :
  (List.length (frame params bars) <= List.length bars)%nat.
Proof.
  unfold frame.
  destruct (rolling_mean (short_period params) _); [|cbn; lia].
  destruct (rolling_mean (long_period params) _); [|cbn; lia].
  apply add_columns_length.
Qed.

Lemma short_frame_undefined params bars row :
  (Z.of_nat (List.length bars) < Z.min (short_period params) (long_period params))%Z ->
  In row (frame params bars) -> defined row = false.
Proof.
  intros Hlen Hin. apply In_nth_error in Hin. destruct Hin as [i Hi].
  assert (i < List.length (frame params bars))%nat
    by (apply nth_error_Some; congruence).
  pose proof (frame_length params bars).
  apply frame_nth_error in Hi. destruct Hi as [Hs _].
  unfold defined. rewrite Hs, isna_window_mean.
  assert (Nat.ltb (S i) (Z.to_nat (short_period params)) = true) as ->
    by (apply Nat.ltb_lt; lia).
  rewrite orb_true_r. reflexivity.
Qed.

Lemma simulate_of_unfold c params backtest rows db :
  simulate_of c params backtest rows db
  = bind (for_rows (loop_body_of c params backtest rows) 0 rows
                   (initial_state params))
         (close_remaining_of c params backtest rows) db.
Proof. destruct c; reflexivity. Qed.

(** C3, as the code has it: a series that is not empty but has fewer bars
    than the smaller window is not refused.  With a starting amount other than
    zero the run completes: every bar is skipped, no snapshot and no trade is
    written, and the stored result shows zero trades and the starting amount
    as closing amount.  Only the empty series raises. *)
Theorem short_history_completes c params bars db :
  bars <> [] ->
  (Z.of_nat (List.length bars) < Z.min (short_period params) (long_period params))%Z ->
  ~ p_starting_amount params == 0 ->
  (exists r db',
      execute_of c params bars db = (Ok r, db')
      /\ number_of_trades r = 0%Z
      /\ closing_amount r = round2 (p_starting_amount params)
      /\ snapshots db' = snapshots db
      /\ trades db' = trades db
      /\ In r (backtests db'))
  /\ execute_of c params [] db = (Raise ValueError, db).
Proof.
  intros Hne Hlen Hcash. split; [|apply execute_of_empty].
  assert (Hpos : (0 < Z.of_nat (List.length bars))%Z).
  { destruct bars; [congruence|cbn; lia]. }
  rewrite execute_of_frame by (assumption || lia).
  unfold bind at 1. unfold BacktestResult_create.
  set (bt := initial_backtest params _). set (db1 := mkStore _ _ _).
  unfold bind at 1. rewrite simulate_of_unfold. unfold bind at 1.
  rewrite for_rows_all_skipped
    by (intros row Hin; eapply short_frame_undefined; eassumption).
  assert (Hclose : close_remaining_of c params bt (frame params bars)
                     (initial_state params) db1
                   = (Ok (initial_state params), db1)) by (destruct c; reflexivity).
  rewrite Hclose.
  unfold update_backtest_results, truediv, bind, ret, raise, BacktestResult_save.
  cbn [cash peak_value portfolio_value trades_count initial_state].
  assert (Hz : Qeq_bool (p_starting_amount params) 0 = false).
  { destruct (Qeq_bool (p_starting_amount params) 0) eqn:E; [|reflexivity].
    apply Qeq_bool_iff in E. contradiction. }
  rewrite Hz. eexists _, _. split; [reflexivity|].
  cbn. repeat split.
  rewrite map_app. apply in_or_app. right. cbn.
  rewrite Nat.eqb_refl. left. reflexivity.
Qed.

(** One bar against windows 2 and 3: the run ends with a stored result. *)
Lemma short_history_completes_witness :
  exists r db',
    Strategies._execute_backtest warmup_params (daily_bars [10]) empty_store
    = (Ok r, db')
    /\ number_of_trades r = 0%Z.
Proof.
  destruct (short_history_completes StrategiesViews warmup_params
              (daily_bars [10]) empty_store)
    as [(r & db' & Hrun & Hn & _) _].
  - discriminate.
  - vm_compute. reflexivity.
  - vm_compute. discriminate.
  - exists r, db'. split; assumption.
Defined.

(** C3 as stated fails: one bar against windows 2 and 3 raises nothing. *)
Lemma short_history_is_not_refused :
  ~ refuses_short_history StrategiesViews warmup_params (daily_bars [10])
      empty_store.
Proof.
  intros H. destruct H as (e & db' & He).
  - discriminate.
  - vm_compute. reflexivity.
  - vm_compute in He. discriminate.
Qed.

(** ** What a failed run leaves behind *)

Lemma grows_refl db : grows db db.
Proof.
  repeat split; exists []; rewrite app_nil_r; reflexivity.
Qed.

Lemma grows_trans db1 db2 db3 : grows db1 db2 -> grows db2 db3 -> grows db1 db3.
Proof.
  intros (Hb & (s & Hs) & (t & Ht)) (Hb' & (s' & Hs') & (t' & Ht')).
  repeat split.
  - congruence.
  - exists (s ++ s'). rewrite Hs', Hs, app_assoc. reflexivity.
  - exists (t ++ t'). rewrite Ht', Ht, app_assoc. reflexivity.
Qed.

Section Growth.

Variables (params : Params) (backtest : BacktestResult) (rows : list Row).

Lemma signals_grow c i row s l st db r db' :
  check_stop_loss_take_profit_of c params backtest rows i row s l st db = (r, db') ->
  grows db db'.
Proof.
  intros H. destruct r as [st'|e].
  - apply ledger_of_signals in H. destruct H as (Hl & Hs & Hb).
    repeat split; [assumption|exists []; rewrite app_nil_r; assumption|].
    unfold ledger_step in Hl.
    destruct (position st) as [pos|]; [destruct (position st')|].
    + exists []. rewrite app_nil_r. apply Hl.
    + eexists. apply Hl.
    + exists []. rewrite app_nil_r. apply Hl.
  - apply failed_signals in H. subst. apply grows_refl.
Qed.

Lemma bar_grows c i row st db r db' :
  loop_body_of c params backtest rows i row st db = (r, db') -> grows db db'.
Proof.
  intros H. destruct (defined row) eqn:Hd.
  - apply processed_bar in H; [|assumption].
    destruct H as [(e & _ & -> & _)|(s & l & daily & _ & _ & _ & H)].
    + apply grows_refl.
    + apply signals_grow in H. eapply grows_trans; [|exact H].
      repeat split; [eexists; reflexivity|exists []; rewrite app_nil_r; reflexivity].
  - rewrite skipped_bar in H by assumption. inversion H. apply grows_refl.
Qed.

Lemma loop_grows c : forall todo i st db r db',
  for_rows (loop_body_of c params backtest rows) i todo st db = (r, db') ->
  grows db db'.
Proof.
  induction todo as [|row todo IH]; intros i st db r db' H.
  - inversion H. apply grows_refl.
  - cbn [for_rows] in H. unfold bind in H.
    destruct (loop_body_of c params backtest rows i row st db)
      as [[st1|e] db1] eqn:Hb; apply bar_grows in Hb.
    + apply IH in H. eapply grows_trans; eassumption.
    + inversion H; subst. exact Hb.
Qed.

Lemma simulate_grows c db r db' :
  simulate_of c params backtest rows db = (r, db') -> grows db db'.
Proof.
  rewrite simulate_of_unfold. unfold bind. intros H.
  destruct (for_rows _ 0 rows _ db) as [[st|e] db1] eqn:Hl; apply loop_grows in Hl.
  - destruct (close_remaining_appends c params backtest rows st db1)
      as (st' & db2 & Hc & Ht & _ & Hs & Hb & _).
    rewrite Hc in H. inversion H; subst.
    eapply grows_trans; [exact Hl|].
    repeat split; [assumption|exists []; rewrite app_nil_r; assumption|].
    eexists. exact Ht.
  - inversion H; subst. exact Hl.
Qed.

End Growth.

Lemma failed_summary params backtest st db e db' :
  update_backtest_results params backtest st db = (Raise e, db') -> db' = db.
Proof.
  unfold update_backtest_results, truediv, BacktestResult_save, bind, ret, raise.
  intros H. crunch; reflexivity.
Qed.

(** C9, as the code has it: a failed run leaves nothing behind only when it
    fails before the result row is created, that is on an empty series or a
    negative window.  A run that fails later leaves the result row, with the
    placeholder figures it was created with, and every snapshot and trade
    written before the exception. *)
Theorem failed_run_keeps_written_rows c params bars db e db' :
  execute_of c params bars db = (Raise e, db') ->
  (db' = db
   /\ (bars = [] \/ (short_period params < 0)%Z \/ (long_period params < 0)%Z))
  \/ (backtests db'
      = backtests db
        ++ [initial_backtest params (S (List.length (backtests db)))]
      /\ (exists snaps, snapshots db' = snapshots db ++ snaps)
      /\ (exists sold_, trades db' = trades db ++ sold_)).
Proof.
  intros H.
  destruct bars as [|b bars]; [rewrite execute_of_empty in H; inversion H; auto|].
  destruct (Z.ltb_spec (short_period params) 0) as [Hs|Hs].
  { rewrite execute_of_refused_window in H by (discriminate || auto).
    inversion H; auto. }
  destruct (Z.ltb_spec (long_period params) 0) as [Hl|Hl].
  { rewrite execute_of_refused_window in H by (discriminate || auto).
    inversion H; auto. }
  right. rewrite execute_of_frame in H by (discriminate || assumption).
  unfold bind at 1 in H. unfold BacktestResult_create in H.
  set (bt := initial_backtest params _) in *. set (db1 := mkStore _ _ _) in *.
  unfold bind in H.
  destruct (simulate_of c params bt _ db1) as [[st|e1] db2] eqn:Hsim;
    apply simulate_grows in Hsim; destruct Hsim as (Hb & Hsn & Ht).
  - apply failed_summary in H. subst db'. auto.
  - inversion H; subst. auto.
Qed.

(** The run with nothing in cash: the division of the profit by the
    starting amount raises after the loop; the result row and the snapshot of
    the one bar stay. *)
Lemma failed_run_keeps_written_rows_witness :
  exists db',
    Strategies._execute_backtest broke_params broke_bars empty_store
    = (Raise ZeroDivisionError, db')
    /\ backtests db' = [initial_backtest broke_params 1].
Proof.
  exists (snd (Strategies._execute_backtest broke_params broke_bars empty_store)).
  split; [vm_compute; reflexivity|].
  destruct (failed_run_keeps_written_rows StrategiesViews broke_params broke_bars
              empty_store ZeroDivisionError
              (snd (Strategies._execute_backtest broke_params broke_bars
                      empty_store)))
    as [[_ [H|[H|H]]]|[H _]].
  - vm_compute. reflexivity.
  - discriminate.
  - vm_compute in H. discriminate.
  - vm_compute in H. discriminate.
  - exact H.
Defined.

(** C9 as stated fails in both copies.  With nothing in cash the strategies
    copy raises after the loop and leaves the result row and a snapshot.  With
    1 in cash and positive prices the backend copy raises inside the loop, on
    the snapshot that follows one whose portfolio value rounds to 0.00, and
    leaves the result row, three snapshots and a trade. *)
Lemma runs_are_not_atomic :
  ~ atomic_run StrategiesViews broke_params broke_bars empty_store
  /\ ~ atomic_run BackendViews penny_params penny_bars empty_store.
Proof.
  split; intros H.
  - specialize (H ZeroDivisionError
                  (snd (Strategies._execute_backtest broke_params broke_bars
                          empty_store))
                  ltac:(vm_compute; reflexivity)).
    vm_compute in H. discriminate.
  - specialize (H ZeroDivisionError
                  (snd (Backend._execute_backtest penny_params penny_bars
                          empty_store))
                  ltac:(vm_compute; reflexivity)).
    vm_compute in H. discriminate.
Qed.

(** ** The worked runs *)

(** C1 fails on the scenario of the design notes: five bars, windows 2 and
    3; both copies skip days 0 and 1 before the snapshot is written and store
    three snapshots, for days 2, 3 and 4. *)
Theorem warmup_bars_get_no_snapshot :
  List.length warmup_bars = 5%nat
  /\ forall c, exists r db,
       execute_of c warmup_params warmup_bars empty_store = (Ok r, db)
       /\ map date (snapshots db) = [2; 3; 4]%Z.
Proof.
  split; [reflexivity|].
  intros []; eexists _, _; (split; [vm_compute; reflexivity|]);
    vm_compute; reflexivity.
Qed.

(** C2 fails on the run that dips and recovers: the snapshots record a
    portfolio value of 80 and a drawdown of 20 %, and the stored result, which
    is computed from the variables of the last bar, has a lowest value of 100
    and a drawdown of 0. *)
Theorem trough_and_drawdown_come_from_last_bar :
  forall c, exists r db,
    execute_of c dip_params dip_bars empty_store = (Ok r, db)
    /\ map (fun s => Qred (total_portfolio_value s)) (snapshots db)
       = [100; 100; 80; 80; 128]
    /\ Qred (lowest_stock_value r) = 100
    /\ map (fun s => Qred (snap_drawdown s)) (snapshots db) = [0; 0; 20; 20; 0]
    /\ Qred (drawdown r) = 0.
Proof.
  intros []; eexists _, _; (split; [vm_compute; reflexivity|]);
    vm_compute; repeat split; reflexivity.
Qed.

(** C6 fails in the strategies copy: on the run that dips and recovers the
    portfolio value goes 100, 100, 80, 80, 128 and every daily return is
    stored as 0; the backend copy stores 0, 0, -20, 0 and 60 for the same
    bars. *)
Theorem strategies_daily_return_is_constant_zero :
  (exists r db,
      Strategies._execute_backtest dip_params dip_bars empty_store = (Ok r, db)
      /\ map (fun s => Qred (total_portfolio_value s)) (snapshots db)
         = [100; 100; 80; 80; 128]
      /\ map daily_return (snapshots db) = [0; 0; 0; 0; 0])
  /\ (exists r db,
         Backend._execute_backtest dip_params dip_bars empty_store = (Ok r, db)
         /\ map (fun s => Qred (daily_return s)) (snapshots db)
            = [0; 0; - (20); 0; 60]).
Proof.
  split; eexists _, _; (split; [vm_compute; reflexivity|]);
    vm_compute; repeat split; reflexivity.
Qed.

(** * Further properties *)

(** ** The three things a bar can do *)

Section Decisions.

Variables (params : Params) (backtest : BacktestResult) (rows : list Row).

(** The risk check and the signals either leave everything as it is, or
    sell the open position at the close, or buy what the cash affords at the
    close; a purchase needs a previous bar with both indicators. *)
Lemma signals_cases c i row s l st db st' db' :
  check_stop_loss_take_profit_of c params backtest rows i row s l st db
  = (Ok st', db') ->
  (st' = st /\ db' = db)
  \/ (exists pos,
         position st = Some pos
         /\ st' = after_sale st pos (Close row)
         /\ db' = with_trade db (sold params backtest pos (stamp_of c (index row))
                                      (Close row)))
  \/ (position st = None
      /\ Qeq_bool (Close row) 0 = false
      /\ (0 < int (cash st / Close row))%Z
      /\ (0 < i)%nat
      /\ defined (nth (i - 1) rows row) = true
      /\ st' = after_entry c st row (int (cash st / Close row))
      /\ db' = db).
Proof.
  intros H. unfold after_entry, with_trade, sold, defined.
  destruct c; cbn [check_stop_loss_take_profit_of stamp_of] in *; run_signals;
    destruct (position st) as [pos|] eqn:Hpos; crunch; auto;
    try (right; left; eexists; repeat split; reflexivity);
    try (right; right; repeat split; auto;
         try (apply Z.ltb_lt; assumption); apply Nat.ltb_lt; assumption).
Qed.

(** A bar is skipped, or its snapshot is written and the signals run on the
    valued state. *)
Lemma bar_cases c i row st db st' db' :
  loop_body_of c params backtest rows i row st db = (Ok st', db') ->
  (defined row = false /\ st' = st /\ db' = db)
  \/ (exists s l daily,
         defined row = true
         /\ check_stop_loss_take_profit_of c params backtest rows i row s l
              (update_valuation st (Close row))
              (with_snapshot db
                 (snapshot_row backtest (index row)
                               (update_valuation st (Close row)) daily))
            = (Ok st', db')).
Proof.
  intros H. destruct (defined row) eqn:Hd.
  - right. apply processed_bar in H; [|assumption].
    destruct H as [(e & He & _)|(s & l & daily & _ & _ & _ & H)]; [discriminate|].
    exists s, l, daily. auto.
  - left. rewrite skipped_bar in H by assumption. inversion H; auto.
Qed.

(** A property kept by every bar is kept by the loop. *)
Lemma for_rows_preserves c (P : State -> Store -> Prop) (G : Row -> Prop) :
  (forall i row st db st' db',
      G row -> P st db ->
      loop_body_of c params backtest rows i row st db = (Ok st', db') ->
      P st' db') ->
  forall todo i st db st' db',
    Forall G todo -> P st db ->
    for_rows (loop_body_of c params backtest rows) i todo st db = (Ok st', db') ->
    P st' db'.
Proof.
  intros Hstep. induction todo as [|row todo IH]; intros i st db st' db' HG HP H.
  - inversion H; subst. exact HP.
  - cbn [for_rows] in H. unfold bind in H.
    destruct (loop_body_of c params backtest rows i row st db)
      as [[st1|e] db1] eqn:Hb; [|discriminate].
    inversion HG; subst.
    eapply IH; [eassumption| |exact H].
    eapply Hstep; eassumption.
Qed.

End Decisions.

(** ** Accounting *)

Lemma ledger_profit_snoc l t :
  ledger_profit (l ++ [t]) == ledger_profit l + trade_profit t.
Proof.
  induction l as [|a l IH]; cbn [app ledger_profit fold_right].
  - ring.
  - fold (ledger_profit (l ++ [t])). fold (ledger_profit l). rewrite IH. ring.
Qed.

Section Accounting.

Variables (params : Params) (backtest : BacktestResult) (rows : list Row).

Lemma balanced_bar c db0 cash0 i row st db st' db' :
  balanced db0 cash0 st db ->
  loop_body_of c params backtest rows i row st db = (Ok st', db') ->
  balanced db0 cash0 st' db'.
Proof.
  intros (added & Ht & Hc & Hn) H.
  apply bar_cases in H.
  destruct H as [(_ & -> & ->)|(s & l & daily & _ & H)];
    [exists added; auto|].
  apply signals_cases in H.
  destruct H as [(-> & ->)|[(pos & Hpos & -> & ->)|(Hpos & _ & _ & _ & _ & -> & ->)]].
  - exists added. auto.
  - cbn in Hpos. exists (added ++ [sold params backtest pos
                                     (stamp_of c (index row)) (Close row)]).
    cbn [with_trade with_snapshot trades]. rewrite Ht, app_assoc.
    split; [reflexivity|]. split.
    + rewrite ledger_profit_snoc.
      unfold holdings_cost, after_sale, trade_profit, sold in *.
      cbn [position cash update_valuation exit_price entry_price quantity] in *.
      rewrite Hpos in Hc. lra.
    + cbn. rewrite Hn, length_app. cbn. lia.
  - cbn in Hpos. exists added. cbn [with_snapshot trades].
    split; [assumption|]. split; [|exact Hn].
    unfold holdings_cost, after_entry in *.
    cbn [position cash update_valuation pos_quantity pos_entry_price] in *.
    rewrite Hpos in Hc. lra.
Qed.

Lemma balanced_simulation c db st db' :
  simulate_of c params backtest rows db = (Ok st, db') ->
  exists added,
    trades db' = trades db ++ added
    /\ cash st == p_starting_amount params + ledger_profit added
    /\ trades_count st = Z.of_nat (List.length added).
Proof.
  rewrite simulate_of_unfold. unfold bind. intros H.
  destruct (for_rows _ 0 rows _ db) as [[st1|e] db1] eqn:Hloop; [|discriminate].
  assert (Hb : balanced db (p_starting_amount params) st1 db1).
  { apply (for_rows_preserves params backtest rows c
             (balanced db (p_starting_amount params)) (fun _ => True))
      with (todo := rows) (i := 0%nat) (st := initial_state params) (db := db).
    - intros i row s d s' d' _ Hs Hbody. eapply balanced_bar; eassumption.
    - apply Forall_forall. auto.
    - exists []. rewrite app_nil_r. split; [reflexivity|]. split; [|reflexivity].
      unfold holdings_cost, ledger_profit. cbn. lra.
    - exact Hloop. }
  destruct Hb as (added & Ht & Hc & Hn).
  destruct (close_remaining_appends c params backtest rows st1 db1)
    as (stf & dbf & Hclose & Htf & Hnf & _ & _ & _ & _ & Hcf).
  rewrite Hclose in H. inversion H; subst stf dbf.
  destruct (position st1) as [pos|] eqn:Hpos.
  - eexists. rewrite Htf, Ht, <- app_assoc. split; [reflexivity|]. split.
    + rewrite ledger_profit_snoc, Hcf.
      unfold holdings_cost, trade_profit, sold in *. rewrite Hpos in Hc.
      cbn [exit_price entry_price quantity]. lra.
    + rewrite Hnf, Hn, length_app. cbn. lia.
  - exists added. rewrite Htf, app_nil_r. split; [assumption|]. split.
    + rewrite Hcf. unfold holdings_cost in Hc. rewrite Hpos in Hc. lra.
    + rewrite Hnf, Hn. lia.
Qed.

End Accounting.

(** X2: the counter of trades is the number of rows the run added to the
    ledger, in the loop variables and, once the results are written, in the
    stored [number_of_trades]. *)
Theorem number_of_trades_counts_the_ledger c params bars db r db' :
  execute_of c params bars db = (Ok r, db') ->
  exists added,
    trades db' = trades db ++ added
    /\ number_of_trades r = Z.of_nat (List.length added).
Proof.
  intros H.
  destruct bars as [|b bars]; [rewrite execute_of_empty in H; discriminate|].
  destruct (Z.ltb_spec (short_period params) 0) as [Hs|Hs].
  { rewrite execute_of_refused_window in H by (discriminate || auto). discriminate. }
  destruct (Z.ltb_spec (long_period params) 0) as [Hl|Hl].
  { rewrite execute_of_refused_window in H by (discriminate || auto). discriminate. }
  rewrite execute_of_frame in H by (discriminate || assumption).
  unfold bind at 1 in H. unfold BacktestResult_create in H.
  set (bt := initial_backtest params _) in *. set (db1 := mkStore _ _ _) in *.
  unfold bind in H.
  destruct (simulate_of c params bt _ db1) as [[st|e] db2] eqn:Hsim; [|discriminate].
  destruct (balanced_simulation _ _ _ _ _ _ _ Hsim) as (added & Ht & _ & Hn).
  unfold update_backtest_results, truediv, BacktestResult_save, bind, ret, raise in H.
  destruct (Qeq_bool (p_starting_amount params) 0); [discriminate|].
  destruct (Qeq_bool (peak_value st) 0); [discriminate|].
  inversion H; subst. cbn. exists added. auto.
Qed.

Lemma number_of_trades_counts_the_ledger_witness :
  exists r db',
    Backend._execute_backtest dip_params dip_bars empty_store = (Ok r, db')
    /\ number_of_trades r = Z.of_nat (List.length (trades db')).
Proof.
  destruct (Backend._execute_backtest dip_params dip_bars empty_store)
    as [[r|e] db'] eqn:Hrun; [|vm_compute in Hrun; discriminate].
  destruct (number_of_trades_counts_the_ledger BackendViews dip_params dip_bars
              empty_store r db' Hrun) as (added & Ht & Hn).
  exists r, db'. split; [reflexivity|]. rewrite Hn, Ht. reflexivity.
Defined.

(** ** Whole shares *)

Section WholeShares.

Variables (params : Params) (backtest : BacktestResult) (rows : list Row).

Lemma whole_shares_bar c db0 i row st db st' db' :
  whole_shares db0 st db ->
  loop_body_of c params backtest rows i row st db = (Ok st', db') ->
  whole_shares db0 st' db'.
Proof.
  intros (Hpos & added & Ht & Hadded) H.
  apply bar_cases in H.
  destruct H as [(_ & -> & ->)|(s & l & daily & _ & H)];
    [split; [assumption|exists added; auto]|].
  apply signals_cases in H.
  destruct H as [(-> & ->)|[(pos & Hp & -> & ->)|(_ & _ & Hn & _ & _ & -> & ->)]].
  - split; [exact Hpos|]. exists added. auto.
  - cbn in Hp. split; [intros p Hp'; discriminate|].
    exists (added ++ [sold params backtest pos (stamp_of c (index row)) (Close row)]).
    cbn [with_trade with_snapshot trades]. rewrite Ht, app_assoc.
    split; [reflexivity|]. apply Forall_app. split; [exact Hadded|].
    constructor; [|constructor]. cbn. apply Hpos. exact Hp.
  - split; [|exists added; auto].
    intros p Hp. unfold after_entry in Hp. cbn [position] in Hp.
    inversion Hp; subst p. cbn [pos_quantity cash update_valuation] in *. lia.
Qed.

Lemma whole_shares_simulation c db st db' :
  simulate_of c params backtest rows db = (Ok st, db') ->
  exists added,
    trades db' = trades db ++ added
    /\ Forall (fun t => (1 <= quantity t)%Z) added.
Proof.
  rewrite simulate_of_unfold. unfold bind. intros H.
  destruct (for_rows _ 0 rows _ db) as [[st1|e] db1] eqn:Hloop; [|discriminate].
  assert (Hw : whole_shares db st1 db1).
  { apply (for_rows_preserves params backtest rows c (whole_shares db)
             (fun _ => True))
      with (todo := rows) (i := 0%nat) (st := initial_state params) (db := db).
    - intros i row s d s' d' _ Hs Hb. eapply whole_shares_bar; eassumption.
    - apply Forall_forall. auto.
    - split; [intros p Hp; discriminate|]. exists []. rewrite app_nil_r. auto.
    - exact Hloop. }
  destruct Hw as (Hpos & added & Ht & Hadded).
  destruct (close_remaining_appends c params backtest rows st1 db1)
    as (stf & dbf & Hclose & Htf & _).
  rewrite Hclose in H. inversion H; subst stf dbf.
  eexists. rewrite Htf, Ht, <- app_assoc. split; [reflexivity|].
  apply Forall_app. split; [exact Hadded|].
  destruct (position st1) as [pos|]; [|constructor].
  constructor; [|constructor]. cbn. apply Hpos. reflexivity.
Qed.

End WholeShares.

(** X3: every trade a simulation writes is of at least one share: a
    position is opened only when [int(cash / close)] is positive, whatever
    that quotient comes to, and a trade takes its quantity from the position
    it closes. *)
Theorem trades_are_of_whole_shares c params backtest rows db st db' :
  simulate_of c params backtest rows db = (Ok st, db') ->
  exists added,
    trades db' = trades db ++ added
    /\ Forall (fun t => (1 <= quantity t)%Z) added.
Proof.
  apply whole_shares_simulation.
Qed.

(** The run that dips and recovers sells 10 shares and then 6. *)
Lemma trades_are_of_whole_shares_witness :
  exists added,
    trades (snd (Backend.simulate dip_params (initial_backtest dip_params 1)
                   (frame dip_params dip_bars) empty_store))
    = [] ++ added
    /\ Forall (fun t => (1 <= quantity t)%Z) added
    /\ map quantity added = [10; 6]%Z.
Proof.
  destruct (trades_are_of_whole_shares BackendViews dip_params
              (initial_backtest dip_params 1) (frame dip_params dip_bars)
              empty_store
              (state_of (Backend.simulate dip_params
                           (initial_backtest dip_params 1)
                           (frame dip_params dip_bars) empty_store)
                        (initial_state dip_params))
              (snd (Backend.simulate dip_params
                      (initial_backtest dip_params 1)
                      (frame dip_params dip_bars) empty_store)))
    as (added & Ht & Hall).
  - vm_compute. reflexivity.
  - exists added. split; [exact Ht|]. split; [exact Hall|].
    assert (E : added
                = trades (snd (Backend.simulate dip_params
                                 (initial_backtest dip_params 1)
                                 (frame dip_params dip_bars) empty_store)))
      by (symmetry; exact Ht).
    rewrite E. vm_compute. reflexivity.
Defined.

(** ** Solvency of the exact figures *)

(** The lemmas of this part hold of the exact figures of the embedding and
    serve the bounds on the rounded drawdown below; in binary floating point
    [cash - shares * price] can fall a rounding error below zero. *)

(** [int] of a float that is not negative is its floor. *)
Lemma int_bounds x :
  0 <= x -> inject_Z (int x) <= x /\ x < inject_Z (int x) + 1.
Proof.
  intros Hx. unfold int.
  assert (Hn : (0 <= Qnum x)%Z).
  { unfold Qle in Hx. cbn in Hx. lia. }
  rewrite Z.quot_div_nonneg by lia.
  replace (Qnum x / Zpos (Qden x))%Z with (Qfloor x) by (destruct x; reflexivity).
  split; [apply Qfloor_le|].
  pose proof (Qlt_floor x) as H. rewrite inject_Z_plus in H. exact H.
Qed.

Lemma affordable_shares cash price :
  0 <= cash -> 0 < price ->
  0 <= cash - inject_Z (int (cash / price)) * price
  /\ cash - inject_Z (int (cash / price)) * price < price.
Proof.
  intros Hc Hp.
  assert (Hq : 0 <= cash / price).
  { apply Qle_shift_div_l; [assumption|]. lra. }
  destruct (int_bounds _ Hq) as [Hlo Hhi].
  assert (Hne : ~ price == 0) by lra.
  assert (Hcp : cash / price * price == cash) by (field; assumption).
  split.
  - assert (inject_Z (int (cash / price)) * price <= cash / price * price)
      by (apply Qmult_le_compat_r; lra).
    lra.
  - assert (cash / price * price < (inject_Z (int (cash / price)) + 1) * price)
      by (apply Qmult_lt_compat_r; lra).
    lra.
Qed.

Lemma Qeq_bool_false_neq a b : Qeq_bool a b = false -> ~ a == b.
Proof.
  intros H E. apply Qeq_bool_iff in E. congruence.
Qed.

Lemma last_in {A} (l : list A) d : l <> [] -> In (last l d) l.
Proof.
  intros H. destruct (exists_last H) as (l' & a & ->).
  rewrite last_last. apply in_or_app. right. left. reflexivity.
Qed.

Section Solvency.

Variables (params : Params) (backtest : BacktestResult) (rows : list Row).

Lemma solvent_bar c i row st db st' db' :
  0 <= Close row -> solvent st ->
  loop_body_of c params backtest rows i row st db = (Ok st', db') ->
  solvent st'.
Proof.
  intros Hprice [Hcash Hq] H. apply bar_cases in H.
  destruct H as [(_ & -> & _)|(s & l & daily & _ & H)]; [split; assumption|].
  apply signals_cases in H.
  destruct H as [(-> & _)|[(pos & Hpos & -> & _)|(Hpos & Hne & Hn & _ & _ & -> & _)]].
  - split; assumption.
  - cbn in Hpos. rewrite Hpos in Hq. split; [|exact I].
    cbn [after_sale cash update_valuation].
    assert (0 <= inject_Z (pos_quantity pos) * Close row).
    { apply Qmult_le_0_compat; [|assumption].
      change 0 with (inject_Z 0). rewrite <- Zle_Qle. lia. }
    lra.
  - apply Qeq_bool_false_neq in Hne. cbn [cash update_valuation] in *.
    split; [|exact Hn]. cbn [after_entry cash].
    apply affordable_shares; [assumption|]. lra.
Qed.

Lemma solvent_loop c todo i st db st' db' :
  Forall (fun row => 0 <= Close row) todo ->
  solvent st ->
  for_rows (loop_body_of c params backtest rows) i todo st db = (Ok st', db') ->
  solvent st'.
Proof.
  intros Htodo Hs H.
  apply (for_rows_preserves params backtest rows c
           (fun st _ => solvent st) (fun row => 0 <= Close row))
    with (todo := todo) (i := i) (st := st) (db := db) (db' := db'); auto.
  intros j row s d s' d' Hp Hsol Hb. eapply solvent_bar; eassumption.
Qed.

Lemma last_close_not_negative :
  Forall (fun row => 0 <= Close row) rows -> 0 <= last (map Close rows) 0.
Proof.
  intros Hrows. destruct rows as [|r rs] eqn:E; [cbn; lra|]. rewrite <- E in *.
  assert (Hin : In (last (map Close rows) 0) (map Close rows))
    by (apply last_in; subst rows; discriminate).
  apply in_map_iff in Hin. destruct Hin as (row & <- & Hin).
  revert row Hin. apply Forall_forall. exact Hrows.
Qed.

Lemma solvent_simulation c db st db' :
  0 <= p_starting_amount params ->
  Forall (fun row => 0 <= Close row) rows ->
  simulate_of c params backtest rows db = (Ok st, db') -> 0 <= cash st.
Proof.
  intros Hstart Hrows. rewrite simulate_of_unfold. unfold bind. intros H.
  destruct (for_rows _ 0 rows _ db) as [[st1|e] db1] eqn:Hl; [|discriminate].
  destruct (solvent_loop c rows 0%nat (initial_state params) db st1 db1 Hrows)
    as [Hcash Hq]; [split; [exact Hstart|exact I]|exact Hl|].
  destruct (close_remaining_appends c params backtest rows st1 db1)
    as (stf & dbf & Hclose & _ & _ & _ & _ & _ & _ & Hcf).
  rewrite Hclose in H. inversion H; subst stf dbf. rewrite Hcf.
  destruct (position st1) as [pos|]; [|assumption].
  pose proof (last_close_not_negative Hrows).
  assert (0 <= inject_Z (pos_quantity pos) * last (map Close rows) 0).
  { apply Qmult_le_0_compat; [|assumption].
    change 0 with (inject_Z 0). rewrite <- Zle_Qle. lia. }
  lra.
Qed.

End Solvency.

(** ** Properties that depend on the position in the series *)

Lemma prefix_invariant c params backtest rows db0 st0
      (P : nat -> State -> Store -> Prop) :
  P 0%nat st0 db0 ->
  (forall i row st db st' db',
      nth_error rows i = Some row -> P i st db ->
      loop_body_of c params backtest rows i row st db = (Ok st', db') ->
      P (S i) st' db') ->
  forall n st db,
    (n <= List.length rows)%nat ->
    for_rows (loop_body_of c params backtest rows) 0 (firstn n rows) st0 db0
    = (Ok st, db) ->
    P n st db.
Proof.
  intros H0 Hstep. induction n as [|n IH]; intros st db Hlen Hrun.
  - cbn in Hrun. inversion Hrun; subst. exact H0.
  - destruct (nth_error rows n) as [row|] eqn:Hrow.
    2:{ apply nth_error_None in Hrow. lia. }
    rewrite (firstn_snoc _ _ _ Hrow), for_rows_snoc in Hrun.
    destruct (for_rows _ 0 (firstn n rows) st0 db0) as [[stn|e] dbn] eqn:Hpre;
      [|discriminate].
    rewrite length_firstn, Nat.min_l in Hrun by lia. cbn in Hrun.
    eapply Hstep; [exact Hrow| |exact Hrun].
    apply IH; [lia|reflexivity].
Qed.

Lemma whole_loop_is_a_prefix (body : nat -> Row -> State -> M State) rows st db :
  for_rows body 0 rows st db
  = for_rows body 0 (firstn (List.length rows) rows) st db.
Proof. rewrite firstn_all. reflexivity. Qed.

Lemma Qlt_bool_irrefl x : Qlt_bool x x = false.
Proof.
  unfold Qlt_bool. apply negb_false_iff, Qle_bool_iff. apply Qle_refl.
Qed.

Lemma flat_valuation params price :
  update_valuation (initial_state params) price = initial_state params.
Proof.
  unfold update_valuation, initial_state. cbn. rewrite Qlt_bool_irrefl. reflexivity.
Qed.

Lemma defined_in_frame params bars i row :
  nth_error (frame params bars) i = Some row ->
  defined row = true ->
  (short_period params <= Z.of_nat (S i))%Z
  /\ (long_period params <= Z.of_nat (S i))%Z
  /\ (0 < short_period params)%Z /\ (0 < long_period params)%Z.
Proof.
  intros Hrow Hd. apply frame_nth_error in Hrow. destruct Hrow as [Hs Hl].
  unfold defined in Hd. rewrite Hs, Hl, !isna_window_mean in Hd.
  apply andb_true_iff in Hd. destruct Hd as [H1 H2].
  apply negb_true_iff, orb_false_iff in H1, H2.
  destruct H1 as [H1 H1'], H2 as [H2 H2'].
  apply Nat.eqb_neq in H1, H2. apply Nat.ltb_ge in H1', H2'. lia.
Qed.

(** X5: no position is opened while the indicators warm up.  After the
    first [n] bars, [n] at most the larger window, the local variables are
    those the run started with and the ledger is untouched: an entry needs
    both averages on the bar and on the bar before. *)
Theorem no_trade_during_warm_up c params backtest bars db n st db' :
  (Z.of_nat n <= Z.max (short_period params) (long_period params))%Z ->
  for_rows (loop_body_of c params backtest (frame params bars)) 0
           (firstn n (frame params bars)) (initial_state params) db
  = (Ok st, db') ->
  st = initial_state params /\ trades db' = trades db.
Proof.
  intros Hn Hrun.
  set (rows := frame params bars) in *.
  assert (Hgen : forall m st db',
             (m <= List.length rows)%nat ->
             for_rows (loop_body_of c params backtest rows) 0 (firstn m rows)
                      (initial_state params) db = (Ok st, db') ->
             (Z.of_nat m <= Z.max (short_period params) (long_period params))%Z ->
             st = initial_state params /\ trades db' = trades db).
  { apply (prefix_invariant c params backtest rows db (initial_state params)
             (fun m st db' =>
                (Z.of_nat m <= Z.max (short_period params) (long_period params))%Z ->
                st = initial_state params /\ trades db' = trades db)).
    - auto.
    - intros i row s d s' d' Hrow IH Hbody Hi.
      destruct IH as [-> Ht]; [lia|].
      apply bar_cases in Hbody.
      destruct Hbody as [(_ & -> & ->)|(x & l & daily & _ & H)]; [auto|].
      rewrite flat_valuation in H. apply signals_cases in H.
      destruct H as [(-> & ->)|[(pos & Hpos & _)|(_ & _ & _ & Hi0 & Hprev & _)]].
      + auto.
      + cbn in Hpos. discriminate.
      + exfalso.
        assert (Hnth : nth_error rows (i - 1) = Some (nth (i - 1) rows row)).
        { apply nth_error_nth'. apply Nat.lt_le_incl in Hi0.
          assert (i < List.length rows)%nat by (apply nth_error_Some; congruence).
          lia. }
        pose proof (defined_in_frame _ _ _ _ Hnth Hprev). lia. }
  destruct (Nat.le_gt_cases n (List.length rows)) as [Hle|Hgt].
  - apply (Hgen n); assumption.
  - rewrite firstn_all2 in Hrun by lia.
    rewrite whole_loop_is_a_prefix in Hrun.
    apply (Hgen (List.length rows)); [lia|exact Hrun|lia].
Qed.

(** The scenario of the design notes, windows 2 and 3: nothing has happened
    after three bars. *)
Lemma no_trade_during_warm_up_witness :
  state_of (after_bars BackendViews warmup_params warmup_bars 3)
           (initial_state warmup_params)
  = initial_state warmup_params.
Proof.
  destruct (no_trade_during_warm_up BackendViews warmup_params
              (initial_backtest warmup_params 1) warmup_bars empty_store 3
              (state_of (after_bars BackendViews warmup_params warmup_bars 3)
                        (initial_state warmup_params))
              (snd (after_bars BackendViews warmup_params warmup_bars 3)))
    as [H _].
  - vm_compute. discriminate.
  - vm_compute. reflexivity.
  - exact H.
Defined.

Lemma dt_date_stamp_of c d : dt_date (stamp_of c d) = dt_date d.
Proof. destruct c; reflexivity. Qed.

Lemma last_row rows :
  rows <> [] ->
  exists r,
    nth_error rows (List.length rows - 1) = Some r
    /\ last (map index rows) (midnight 0) = index r
    /\ last (map Close rows) 0 = Close r.
Proof.
  intros H. destruct (exists_last H) as (l & a & ->). exists a.
  rewrite !map_app. cbn [map]. rewrite !last_last, length_app. cbn.
  replace (List.length l + 1 - 1)%nat with (List.length l) by lia.
  rewrite nth_error_app2, Nat.sub_diag by lia. auto.
Qed.

(** X6: on bars in increasing order of day, a ledger whose trades do not
    end before they start still has that property after a simulation: every
    trade the run writes has its exit day on or after its entry day. *)
Theorem trades_end_after_they_start c params backtest rows db st db' :
  increasing_days rows ->
  Forall ordered_trade (trades db) ->
  simulate_of c params backtest rows db = (Ok st, db') ->
  Forall ordered_trade (trades db').
Proof.
  intros Hsorted Hdb. rewrite simulate_of_unfold. unfold bind. intros H.
  destruct (for_rows _ 0 rows _ db) as [[st1|e] db1] eqn:Hloop; [|discriminate].
  rewrite whole_loop_is_a_prefix in Hloop.
  assert (Hinv : Forall ordered_trade (trades db1)
                 /\ forall pos, position st1 = Some pos ->
                      exists j r, (j < List.length rows)%nat
                                  /\ nth_error rows j = Some r
                                  /\ dt_date (pos_entry_date pos)
                                     = dt_date (index r)).
  { apply (prefix_invariant c params backtest rows db (initial_state params)
             (fun i s d =>
                Forall ordered_trade (trades d)
                /\ forall pos, position s = Some pos ->
                     exists j r, (j < i)%nat /\ nth_error rows j = Some r
                                 /\ dt_date (pos_entry_date pos)
                                    = dt_date (index r)))
      with (n := List.length rows) (st := st1) (db := db1); auto.
    - split; [exact Hdb|]. intros pos Hp. discriminate.
    - intros i row s d s' d' Hrow [Hord Hpos] Hbody.
      assert (Hkeep : forall pos, position s = Some pos ->
                exists j r, (j < S i)%nat /\ nth_error rows j = Some r
                            /\ dt_date (pos_entry_date pos) = dt_date (index r)).
      { intros pos Hp. destruct (Hpos pos Hp) as (j & r & Hj & Hr & Hd).
        exists j, r. auto with arith. }
      apply bar_cases in Hbody.
      destruct Hbody as [(_ & -> & ->)|(x & l & daily & _ & Hsig)]; [auto|].
      apply signals_cases in Hsig.
      destruct Hsig
        as [(-> & ->)|[(pos & Hp & -> & ->)|(_ & _ & _ & _ & _ & -> & ->)]].
      + auto.
      + cbn in Hp. split; [|intros p Hp'; discriminate].
        cbn [with_trade with_snapshot trades]. apply Forall_app. split; [exact Hord|].
        constructor; [|constructor].
        destruct (Hpos pos Hp) as (j & r & Hj & Hr & Hd).
        unfold ordered_trade, sold. cbn. rewrite dt_date_stamp_of, Hd.
        pose proof (Hsorted j i r row Hr Hrow Hj). lia.
      + split; [exact Hord|]. intros p Hp. cbn in Hp. inversion Hp; subst p.
        exists i, row. cbn. rewrite dt_date_stamp_of. auto. }
  destruct Hinv as [Hord Hpos].
  destruct (close_remaining_appends c params backtest rows st1 db1)
    as (stf & dbf & Hclose & Htf & _).
  rewrite Hclose in H. inversion H; subst stf dbf. rewrite Htf.
  apply Forall_app. split; [exact Hord|].
  destruct (position st1) as [pos|]; [|constructor].
  constructor; [|constructor].
  destruct (Hpos pos eq_refl) as (j & r & Hj & Hr & Hd).
  assert (Hne : rows <> []) by (intros ->; cbn in Hj; lia).
  destruct (last_row rows Hne) as (rl & Hrl & Hil & _).
  unfold ordered_trade, sold. cbn. rewrite dt_date_stamp_of, Hil, Hd.
  destruct (Nat.eq_dec j (List.length rows - 1)) as [->|Hneq].
  - rewrite Hr in Hrl. inversion Hrl. lia.
  - pose proof (Hsorted j (List.length rows - 1)%nat r rl Hr Hrl ltac:(lia)). lia.
Qed.

Lemma daily_bars_increasing params closes : increasing_days (frame params (daily_bars closes)).
Proof.
  unfold frame.
  destruct (rolling_mean (short_period params) _) as [ss|]; [|intros [|i] j; discriminate].
  destruct (rolling_mean (long_period params) _) as [ls|]; [|intros [|i] j; discriminate].
  unfold daily_bars. generalize 0%nat.
  assert (H : forall (bars : list Bar) k ss ls,
             (forall i b, nth_error bars i = Some b ->
                          dt_date (bar_index b) = Z.of_nat (k + i)) ->
             forall i row, nth_error (add_columns bars ss ls) i = Some row ->
                           dt_date (index row) = Z.of_nat (k + i)).
  { induction bars as [|b bars IH]; intros k s l Hb i row Hrow.
    - destruct i; discriminate.
    - destruct s as [|x s], l as [|y l]; try (destruct i; discriminate).
      destruct i as [|i]; cbn in Hrow.
      + inversion Hrow; subst. cbn. apply (Hb 0%nat b). reflexivity.
      + rewrite Nat.add_succ_r, <- Nat.add_succ_l.
        eapply IH; [|exact Hrow]. intros i' b' Hb'.
        rewrite Nat.add_succ_l, <- Nat.add_succ_r. apply (Hb (S i')). exact Hb'. }
  intros k i j ri rj Hi Hj Hlt.
  assert (Hbars : forall i b,
             nth_error (map (fun ic => mkBar (midnight (Z.of_nat (fst ic))) (snd ic))
                            (combine (seq k (List.length closes)) closes)) i = Some b ->
             dt_date (bar_index b) = Z.of_nat (k + i)).
  { clear. revert k. induction closes as [|x closes IH]; intros k i b Hb.
    - destruct i; discriminate.
    - destruct i as [|i]; cbn in Hb.
      + inversion Hb. cbn. f_equal. lia.
      + apply IH in Hb. rewrite Hb. f_equal. lia. }
  rewrite (H _ k ss ls Hbars i ri Hi), (H _ k ss ls Hbars j rj Hj). lia.
Qed.

(** The run that dips and recovers: both trades end a day after they
    start. *)
Lemma trades_end_after_they_start_witness :
  Forall ordered_trade
    (trades (snd (Strategies.simulate dip_params (initial_backtest dip_params 1)
                    (frame dip_params dip_bars) empty_store))).
Proof.
  apply (trades_end_after_they_start StrategiesViews dip_params
           (initial_backtest dip_params 1) (frame dip_params dip_bars)
           empty_store
           (state_of (Strategies.simulate dip_params
                        (initial_backtest dip_params 1)
                        (frame dip_params dip_bars) empty_store)
                     (initial_state dip_params))).
  - apply daily_bars_increasing.
  - constructor.
  - vm_compute. reflexivity.
Defined.

(** ** What the stored result is made of *)

Lemma round_half_even_comp x y : x == y -> round_half_even x = round_half_even y.
Proof.
  intros H. unfold round_half_even.
  rewrite (Qfloor_comp _ _ H).
  assert (Hc : Qcompare (x - inject_Z (Qfloor y)) (1 # 2)
               = Qcompare (y - inject_Z (Qfloor y)) (1 # 2)).
  { apply Qcompare_comp; [rewrite H|]; reflexivity. }
  rewrite Hc. reflexivity.
Qed.

Lemma round2_comp x y : x == y -> round2 x = round2 y.
Proof.
  intros H. unfold round2. rewrite (round_half_even_comp (x * 100) (y * 100)).
  - reflexivity.
  - rewrite H. reflexivity.
Qed.

Lemma py_min_comp a a' b : a == a' -> py_min a b == py_min a' b.
Proof.
  intros H. unfold py_min, Qlt_bool.
  assert (Hb : Qle_bool a b = Qle_bool a' b).
  { apply eq_iff_eq_true. rewrite !Qle_bool_iff, H. reflexivity. }
  rewrite Hb. destruct (negb _); [reflexivity|exact H].
Qed.

Lemma marked_prefix c params backtest bars db : forall n st db',
  (n <= List.length (frame params bars))%nat ->
  for_rows (loop_body_of c params backtest (frame params bars)) 0
           (firstn n (frame params bars)) (initial_state params) db
  = (Ok st, db') ->
  marked_to_last_close (frame params bars) n st.
Proof.
  apply (prefix_invariant c params backtest (frame params bars) db
           (initial_state params)
           (fun n st _ => marked_to_last_close (frame params bars) n st)).
  - cbn. reflexivity.
  - intros i row st d st' d' Hrow Hinv Hbody.
    apply bar_cases in Hbody.
    destruct Hbody as [(Hd & -> & _)|(x & l & daily & Hd & Hsig)].
    + unfold marked_to_last_close in *.
      destruct (position st) as [pos|]; [|exact Hinv].
      destruct Hinv as (r & Hr & Hi & Hdr & _).
      replace i with (S (i - 1)) in Hrow by lia.
      rewrite (frame_warm _ _ _ _ _ Hr Hrow Hdr) in Hd. discriminate.
    + apply signals_cases in Hsig.
      destruct Hsig
        as [(-> & _)|[(pos & Hp & -> & _)|(Hp & _ & _ & _ & _ & -> & _)]];
        unfold marked_to_last_close, update_valuation, after_sale, after_entry in *;
        cbn [position cash portfolio_value pos_quantity] in *;
        replace (S i - 1)%nat with i by lia.
      * destruct (position st) as [pos|]; [|reflexivity].
        exists row. repeat split; auto with arith; try reflexivity.
      * rewrite Hp. reflexivity.
      * rewrite Hp. exists row. repeat split; auto with arith; try lra.
Qed.

Lemma final_cash_is_last_value c params backtest bars db st db' :
  simulate_of c params backtest (frame params bars) db = (Ok st, db') ->
  portfolio_value st == cash st.
Proof.
  intros Hsim. rewrite simulate_of_unfold in Hsim. unfold bind in Hsim.
  destruct (for_rows _ 0 (frame params bars) _ db)
    as [[st1|e] dbl] eqn:Hloop; [|discriminate].
  rewrite whole_loop_is_a_prefix in Hloop.
  apply marked_prefix in Hloop; [|apply Nat.le_refl].
  destruct (close_remaining_appends c params backtest (frame params bars) st1 dbl)
    as (stf & dbf & Hclose & _ & _ & _ & _ & _ & Hpv & Hcf).
  rewrite Hclose in Hsim. inversion Hsim; subst stf dbf.
  rewrite Hpv, Hcf. unfold marked_to_last_close in Hloop.
  destruct (position st1) as [pos|]; [|exact Hloop].
  destruct Hloop as (rl & Hrl & Hlen & _ & Hmark).
  assert (Hne : frame params bars <> [])
    by (intros E; rewrite E in Hlen; cbn in Hlen; lia).
  destruct (last_row _ Hne) as (rl' & Hrl' & _ & Hcl).
  rewrite Hrl in Hrl'. inversion Hrl'; subst rl'. rewrite Hcl. exact Hmark.
Qed.

(** X7: a simulation ends with its cash equal to the portfolio value
    computed on the last valued bar: the forced liquidation sells at the close
    the position was last valued at.  So the figure stored as
    [lowest_stock_value] is the smaller of the closing cash and the starting
    amount, rounded. *)
Theorem lowest_value_is_min_of_closing_and_starting c params bars db r db' :
  execute_of c params bars db = (Ok r, db') ->
  exists final,
    closing_amount r = round2 final
    /\ total_profit r = round2 (final - p_starting_amount params)
    /\ lowest_stock_value r = round2 (py_min final (p_starting_amount params)).
Proof.
  intros H.
  destruct bars as [|b bars]; [rewrite execute_of_empty in H; discriminate|].
  destruct (Z.ltb_spec (short_period params) 0) as [Hs|Hs].
  { rewrite execute_of_refused_window in H by (discriminate || auto). discriminate. }
  destruct (Z.ltb_spec (long_period params) 0) as [Hl|Hl].
  { rewrite execute_of_refused_window in H by (discriminate || auto). discriminate. }
  rewrite execute_of_frame in H by (discriminate || assumption).
  unfold bind at 1 in H. unfold BacktestResult_create in H.
  set (bt := initial_backtest params _) in *. set (db1 := mkStore _ _ _) in *.
  set (rows := frame params (b :: bars)) in *.
  unfold bind in H.
  destruct (simulate_of c params bt rows db1) as [[st|e] db2] eqn:Hsim; [|discriminate].
  assert (Hcash : portfolio_value st == cash st)
    by (eapply final_cash_is_last_value; exact Hsim).
  unfold update_backtest_results, truediv, BacktestResult_save, bind, ret, raise in H.
  destruct (Qeq_bool (p_starting_amount params) 0); [discriminate|].
  destruct (Qeq_bool (peak_value st) 0); [discriminate|].
  inversion H; subst. cbn. exists (cash st). repeat split.
  apply round2_comp, py_min_comp. exact Hcash.
Qed.

(** The run that dips and recovers closes at 128: the lowest value stored
    is 100, the starting amount, although the portfolio was down to 80. *)
Lemma lowest_value_is_min_of_closing_and_starting_witness :
  exists r db' final,
    Strategies._execute_backtest dip_params dip_bars empty_store = (Ok r, db')
    /\ closing_amount r = round2 final
    /\ lowest_stock_value r = round2 (py_min final 100).
Proof.
  destruct (Strategies._execute_backtest dip_params dip_bars empty_store)
    as [[r|e] db'] eqn:Hrun; [|vm_compute in Hrun; discriminate].
  destruct (lowest_value_is_min_of_closing_and_starting StrategiesViews
              dip_params dip_bars empty_store r db' Hrun)
    as (final & Hc & _ & Hl).
  exists r, db', final. auto.
Defined.

(** ** How many snapshots a run writes *)

Lemma defined_rows_of_columns ws wl xs :
  (1 <= ws)%nat -> (1 <= wl)%nat ->
  forall bars k,
    List.length
      (filter defined
              (add_columns bars
                 (map (window_mean ws xs) (seq k (List.length bars)))
                 (map (window_mean wl xs) (seq k (List.length bars)))))
    = (k + List.length bars - Nat.max k (Nat.max ws wl - 1))%nat.
Proof.
  intros Hs Hl. induction bars as [|b bars IH]; intros k.
  - cbn. lia.
  - cbn [List.length seq map add_columns filter].
    unfold defined at 1. cbn [SMA_short SMA_long].
    rewrite !isna_window_mean.
    destruct (Nat.eqb_spec ws 0); [lia|]. destruct (Nat.eqb_spec wl 0); [lia|].
    cbn [orb].
    destruct (Nat.ltb_spec (S k) ws), (Nat.ltb_spec (S k) wl);
      cbn [negb andb List.length]; rewrite IH; lia.
Qed.

Lemma defined_rows_of_frame params bars :
  (1 <= short_period params)%Z -> (1 <= long_period params)%Z ->
  List.length (filter defined (frame params bars))
  = (List.length bars
     - (Z.to_nat (Z.max (short_period params) (long_period params)) - 1))%nat.
Proof.
  intros Hs Hl. unfold frame, rolling_mean.
  destruct (Z.ltb_spec (short_period params) 0); [lia|].
  destruct (Z.ltb_spec (long_period params) 0); [lia|].
  rewrite length_map, defined_rows_of_columns by lia. lia.
Qed.

(** X8: a run that completes with windows [s] and [l], both at least 1, over
    [n] bars has written [n - (max s l - 1)] snapshots, none if the series is
    shorter: one for every bar from the first on which both averages
    exist. *)
Theorem snapshots_written_by_a_run c params bars db r db' :
  (1 <= short_period params)%Z -> (1 <= long_period params)%Z ->
  execute_of c params bars db = (Ok r, db') ->
  List.length (snapshots db')
  = (List.length (snapshots db)
     + (List.length bars
        - (Z.to_nat (Z.max (short_period params) (long_period params)) - 1)))%nat.
Proof.
  intros Hs Hl H.
  destruct bars as [|b bars]; [rewrite execute_of_empty in H; discriminate|].
  rewrite execute_of_frame in H by (discriminate || lia).
  unfold bind at 1 in H. unfold BacktestResult_create in H.
  set (bt := initial_backtest params _) in *. set (db1 := mkStore _ _ _) in *.
  unfold bind in H.
  destruct (simulate_of c params bt _ db1) as [[st|e] db2] eqn:Hsim; [|discriminate].
  assert (Hr : snapshots db' = snapshots db2).
  { unfold update_backtest_results, truediv, BacktestResult_save, bind, ret, raise in H.
    destruct (Qeq_bool (p_starting_amount params) 0); [discriminate|].
    destruct (Qeq_bool (peak_value st) 0); [discriminate|].
    inversion H; subst. reflexivity. }
  rewrite Hr. rewrite simulate_of_unfold in Hsim. unfold bind in Hsim.
  destruct (for_rows _ 0 _ _ db1) as [[st1|e] dbl] eqn:Hloop; [|discriminate].
  apply snapshots_only_for_defined_bars in Hloop.
  destruct (close_remaining_appends c params bt (frame params (b :: bars)) st1 dbl)
    as (stf & dbf & Hclose & _ & _ & Hsn & _).
  rewrite Hclose in Hsim. inversion Hsim; subst stf dbf.
  rewrite Hsn, Hloop, defined_rows_of_frame by assumption. reflexivity.
Qed.

(** Five bars against windows 2 and 3: 5 - (3 - 1) = 3 snapshots. *)
Lemma snapshots_written_by_a_run_witness :
  exists r db',
    Backend._execute_backtest warmup_params warmup_bars empty_store = (Ok r, db')
    /\ List.length (snapshots db') = 3%nat.
Proof.
  destruct (Backend._execute_backtest warmup_params warmup_bars empty_store)
    as [[r|e] db'] eqn:Hrun; [|vm_compute in Hrun; discriminate].
  exists r, db'. split; [reflexivity|].
  rewrite (snapshots_written_by_a_run BackendViews warmup_params warmup_bars
             empty_store r db'); [reflexivity| | |exact Hrun].
  - vm_compute. discriminate.
  - vm_compute. discriminate.
Defined.

(** ** One snapshot per backtest and day *)

Lemma day_taken_false b d db :
  day_taken b d db = false -> ~ In (b, d) (map snapshot_key (snapshots db)).
Proof.
  unfold day_taken. intros H Hin. apply in_map_iff in Hin.
  destruct Hin as (s & Hk & Hin).
  assert (E : existsb (fun s => Nat.eqb (snap_backtest s) b && Z.eqb (date s) d)
                      (snapshots db) = true).
  { apply existsb_exists. exists s. split; [exact Hin|].
    unfold snapshot_key in Hk. inversion Hk.
    rewrite Nat.eqb_refl, Z.eqb_refl. reflexivity. }
  congruence.
Qed.

Lemma NoDup_snoc {A} (l : list A) a : NoDup l -> ~ In a l -> NoDup (l ++ [a]).
Proof.
  induction l as [|x l IH]; intros Hl Ha; cbn.
  - constructor; [intros []|constructor].
  - inversion Hl; subst. constructor.
    + intros Hin. apply in_app_or in Hin. destruct Hin as [Hin|[->|[]]].
      * contradiction.
      * apply Ha. left. reflexivity.
    + apply IH; [assumption|]. intros Hin. apply Ha. right. exact Hin.
Qed.

Section UniqueDays.

Variables (params : Params) (backtest : BacktestResult) (rows : list Row).

Lemma snapshot_of_any_bar c i row st db r db' :
  loop_body_of c params backtest rows i row st db = (r, db') ->
  snapshots db' = snapshots db
  \/ (exists s,
         snapshots db' = snapshots db ++ [s]
         /\ snapshot_key s = (pk backtest, dt_date (index row))
         /\ day_taken (pk backtest) (dt_date (index row)) db = false).
Proof.
  intros H. destruct (defined row) eqn:Hd.
  2:{ rewrite skipped_bar in H by assumption. inversion H. auto. }
  unfold defined, isna in Hd.
  destruct (SMA_short row) as [s|] eqn:Hs; [|discriminate].
  destruct (SMA_long row) as [l|] eqn:Hl; [|discriminate].
  assert (Hsig : forall u daily dbm,
             day_taken (pk backtest) (dt_date (index row)) db = false ->
             dbm = with_snapshot db (snapshot_row backtest (index row) u daily) ->
             check_stop_loss_take_profit_of c params backtest rows i row s l u dbm
             = (r, db') ->
             exists s0, snapshots db' = snapshots db ++ [s0]
                        /\ snapshot_key s0 = (pk backtest, dt_date (index row))
                        /\ day_taken (pk backtest) (dt_date (index row)) db = false).
  { intros u daily dbm Hfree -> Hrun. eexists. split; [|split; [|exact Hfree]].
    - destruct r as [st'|e].
      + apply ledger_of_signals in Hrun. destruct Hrun as (_ & Hsn & _).
        rewrite Hsn. reflexivity.
      + apply failed_signals in Hrun. subst db'. reflexivity.
    - reflexivity. }
  destruct c; cbn [loop_body_of check_stop_loss_take_profit_of] in *.
  - unfold Strategies.loop_body in H. rewrite Hs, Hl in H.
    unfold bind, DailyPortfolioSnapshot_create in H.
    cbn [snapshot_row snap_backtest date] in H.
    destruct (day_taken _ _ db) eqn:Htaken.
    + inversion H. auto.
    + right. eapply Hsig; [reflexivity|reflexivity|exact H].
  - unfold Backend.loop_body in H. rewrite Hs, Hl in H.
    unfold bind at 1 in H.
    destruct (Backend.compute_daily_return_pct _ _ _ db) as [[daily|e] db1] eqn:Hdr;
      apply daily_return_stays in Hdr; destruct Hdr as [-> _].
    + unfold bind, DailyPortfolioSnapshot_create in H.
      cbn [snapshot_row snap_backtest date] in H.
      destruct (day_taken _ _ db) eqn:Htaken.
      * inversion H. auto.
      * right. eapply Hsig; [reflexivity|reflexivity|exact H].
    + inversion H. auto.
Qed.

Lemma unique_days_bar c i row st db r db' :
  unique_days db ->
  loop_body_of c params backtest rows i row st db = (r, db') ->
  unique_days db'.
Proof.
  unfold unique_days. intros Hu H. apply snapshot_of_any_bar in H.
  destruct H as [->|(s & -> & Hk & Hfree)]; [exact Hu|].
  rewrite map_app. cbn [map]. apply NoDup_snoc; [exact Hu|].
  rewrite Hk. apply day_taken_false. exact Hfree.
Qed.

Lemma unique_days_loop c : forall todo i st db r db',
  unique_days db ->
  for_rows (loop_body_of c params backtest rows) i todo st db = (r, db') ->
  unique_days db'.
Proof.
  induction todo as [|row todo IH]; intros i st db r db' Hu H.
  - inversion H; subst. exact Hu.
  - cbn [for_rows] in H. unfold bind in H.
    destruct (loop_body_of c params backtest rows i row st db)
      as [[st1|e] db1] eqn:Hb; apply unique_days_bar in Hb; try assumption.
    + eapply IH; eassumption.
    + inversion H; subst. exact Hb.
Qed.

End UniqueDays.

(** X9: whatever a run does, and whether it returns or raises, it leaves at
    most one snapshot per backtest and day in the table if it found the table
    so: the constraint [unique_together] of the model is an invariant of the
    engine. *)
Theorem runs_keep_one_snapshot_per_day c params bars db r db' :
  unique_days db ->
  execute_of c params bars db = (r, db') ->
  unique_days db'.
Proof.
  intros Hu H.
  destruct bars as [|b bars]; [rewrite execute_of_empty in H; inversion H; subst; auto|].
  destruct (Z.ltb_spec (short_period params) 0) as [Hs|Hs].
  { rewrite execute_of_refused_window in H by (discriminate || auto).
    inversion H; subst; auto. }
  destruct (Z.ltb_spec (long_period params) 0) as [Hl|Hl].
  { rewrite execute_of_refused_window in H by (discriminate || auto).
    inversion H; subst; auto. }
  rewrite execute_of_frame in H by (discriminate || assumption).
  unfold bind at 1 in H. unfold BacktestResult_create in H.
  set (bt := initial_backtest params _) in *. set (db1 := mkStore _ _ _) in *.
  assert (Hu1 : unique_days db1) by exact Hu.
  unfold bind in H. rewrite simulate_of_unfold in H. unfold bind in H.
  destruct (for_rows _ 0 _ _ db1) as [[st1|e] dbl] eqn:Hloop;
    apply unique_days_loop in Hloop; try assumption.
  - destruct (close_remaining_appends c params bt (frame params (b :: bars)) st1 dbl)
      as (stf & dbf & Hclose & _ & _ & Hsn & _).
    rewrite Hclose in H.
    assert (Huf : unique_days dbf) by (unfold unique_days; rewrite Hsn; exact Hloop).
    unfold update_backtest_results, truediv, BacktestResult_save, bind, ret, raise in H.
    destruct (Qeq_bool (p_starting_amount params) 0); [inversion H; subst; auto|].
    destruct (Qeq_bool (peak_value stf) 0); inversion H; subst; auto.
  - inversion H; subst. exact Hloop.
Qed.

Lemma runs_keep_one_snapshot_per_day_witness :
  unique_days (snd (Backend._execute_backtest penny_params penny_bars empty_store)).
Proof.
  apply (runs_keep_one_snapshot_per_day BackendViews penny_params penny_bars
           empty_store
           (fst (Backend._execute_backtest penny_params penny_bars empty_store))).
  - constructor.
  - vm_compute. reflexivity.
Defined.

(** ** The rows of a frame and the peak *)

Lemma add_columns_bar bars : forall s l i row,
  nth_error (add_columns bars s l) i = Some row ->
  exists b, nth_error bars i = Some b
            /\ index row = bar_index b /\ Close row = bar_Close b.
Proof.
  induction bars as [|b bars IH]; intros s l i row H.
  - destruct i; discriminate.
  - destruct s as [|x s], l as [|y l]; try (destruct i; discriminate).
    destruct i as [|i]; cbn in H.
    + inversion H; subst. exists b. auto.
    + apply IH in H. exact H.
Qed.

Lemma frame_bar params bars i row :
  nth_error (frame params bars) i = Some row ->
  exists b, nth_error bars i = Some b
            /\ index row = bar_index b /\ Close row = bar_Close b.
Proof.
  unfold frame.
  destruct (rolling_mean (short_period params) _); [|destruct i; discriminate].
  destruct (rolling_mean (long_period params) _); [|destruct i; discriminate].
  apply add_columns_bar.
Qed.

Lemma frame_increasing params bars :
  increasing_bar_days bars -> increasing_days (frame params bars).
Proof.
  intros H i j ri rj Hi Hj Hlt.
  apply frame_bar in Hi, Hj.
  destruct Hi as (bi & Hbi & -> & _), Hj as (bj & Hbj & -> & _).
  eapply H; eassumption.
Qed.

Lemma Qlt_bool_iff a b : Qlt_bool a b = true <-> a < b.
Proof.
  unfold Qlt_bool. rewrite negb_true_iff. split.
  - intros H. apply Qnot_le_lt. intros Hle. apply Qle_bool_iff in Hle. congruence.
  - intros H. destruct (Qle_bool b a) eqn:E; [|reflexivity].
    apply Qle_bool_iff in E. lra.
Qed.

Lemma Qlt_bool_false a b : Qlt_bool a b = false -> b <= a.
Proof.
  unfold Qlt_bool. rewrite negb_false_iff. apply Qle_bool_iff.
Qed.

Lemma peak_of_valuation st price :
  peak_value st <= peak_value (update_valuation st price)
  /\ portfolio_value (update_valuation st price)
     <= peak_value (update_valuation st price).
Proof.
  unfold update_valuation. cbn [peak_value portfolio_value].
  destruct (Qlt_bool (peak_value st) _) eqn:E.
  - apply Qlt_bool_iff in E. split; lra.
  - apply Qlt_bool_false in E. split; lra.
Qed.

Section Peak.

Variables (params : Params) (backtest : BacktestResult) (rows : list Row).

Lemma peak_bar c floor i row st db st' db' :
  floor <= peak_value st ->
  loop_body_of c params backtest rows i row st db = (Ok st', db') ->
  floor <= peak_value st'.
Proof.
  intros Hp H. apply bar_cases in H.
  destruct H as [(_ & -> & _)|(s & l & daily & _ & H)]; [assumption|].
  destruct (peak_of_valuation st (Close row)) as [Hmono _].
  apply signals_cases in H.
  destruct H as [(-> & _)|[(pos & _ & -> & _)|(_ & _ & _ & _ & _ & -> & _)]];
    cbn [after_sale after_entry peak_value]; lra.
Qed.

Lemma peak_loop c floor todo i st db st' db' :
  floor <= peak_value st ->
  for_rows (loop_body_of c params backtest rows) i todo st db = (Ok st', db') ->
  floor <= peak_value st'.
Proof.
  intros Hp H.
  apply (for_rows_preserves params backtest rows c
           (fun s _ => floor <= peak_value s) (fun _ => True))
    with (todo := todo) (i := i) (st := st) (db := db) (db' := db'); auto.
  - intros j row s d s' d' _ Hs Hb. eapply peak_bar; eassumption.
  - apply Forall_forall. auto.
Qed.

End Peak.

Lemma daily_bars_days closes : increasing_bar_days (daily_bars closes).
Proof.
  unfold daily_bars.
  assert (H : forall k i b,
             nth_error (map (fun ic => mkBar (midnight (Z.of_nat (fst ic))) (snd ic))
                            (combine (seq k (List.length closes)) closes)) i = Some b ->
             dt_date (bar_index b) = Z.of_nat (k + i)).
  { induction closes as [|x closes IH]; intros k i b Hb.
    - destruct i; discriminate.
    - destruct i as [|i]; cbn in Hb.
      + inversion Hb. cbn. f_equal. lia.
      + apply IH in Hb. rewrite Hb. f_equal. lia. }
  intros i j bi bj Hi Hj Hlt. rewrite (H _ _ _ Hi), (H _ _ _ Hj). lia.
Qed.

(** ** Rounding keeps the order *)

Lemma round_half_even_near x :
  (Qfloor x <= round_half_even x <= Qfloor x + 1)%Z.
Proof.
  unfold round_half_even.
  destruct (Qcompare _ _); [destruct (Z.even _)| |]; lia.
Qed.

Lemma round_half_even_mono x y : x <= y -> (round_half_even x <= round_half_even y)%Z.
Proof.
  intros H. pose proof (Qfloor_resp_le _ _ H) as Hf.
  destruct (Z.eq_dec (Qfloor x) (Qfloor y)) as [E|E].
  - unfold round_half_even. rewrite E.
    destruct (Qcompare (x - inject_Z (Qfloor y)) (1 # 2)) eqn:Cx;
      destruct (Qcompare (y - inject_Z (Qfloor y)) (1 # 2)) eqn:Cy;
      try (destruct (Z.even (Qfloor y)); lia); try lia; exfalso.
    + apply Qeq_alt in Cx. apply Qlt_alt in Cy. lra.
    + apply Qgt_alt in Cx. apply Qeq_alt in Cy. lra.
    + apply Qgt_alt in Cx. apply Qlt_alt in Cy. lra.
  - pose proof (round_half_even_near x). pose proof (round_half_even_near y). lia.
Qed.

Lemma round2_mono x y : x <= y -> round2 x <= round2 y.
Proof.
  intros H. unfold round2.
  assert (Hz : (round_half_even (x * 100) <= round_half_even (y * 100))%Z)
    by (apply round_half_even_mono; lra).
  rewrite Zle_Qle in Hz. unfold Qdiv. apply Qmult_le_compat_r; [exact Hz|].
  vm_compute. discriminate.
Qed.

Lemma round2_Z z : round2 (inject_Z z) == inject_Z z.
Proof.
  unfold round2.
  assert (E : inject_Z z * 100 == inject_Z (z * 100)).
  { rewrite inject_Z_mult. reflexivity. }
  rewrite (round_half_even_comp _ _ E). unfold round_half_even.
  rewrite Qfloor_Z.
  assert (C : Qcompare (inject_Z (z * 100) - inject_Z (z * 100)) (1 # 2) = Lt).
  { apply Qlt_alt. generalize (inject_Z (z * 100)). intros q.
    setoid_replace (q - q) with 0 by ring. reflexivity. }
  rewrite C, inject_Z_mult. field.
Qed.

(** ** Peak and drawdown *)

Lemma nondecreasing_snoc l x :
  nondecreasing l -> Forall (fun y => y <= x) l -> nondecreasing (l ++ [x]).
Proof.
  induction l as [|a l IH]; intros Hl Hx; cbn.
  - split; [constructor|exact I].
  - destruct Hl as [Ha Hl]. inversion Hx; subst. split.
    + apply Forall_app. split; [exact Ha|]. constructor; [assumption|constructor].
    + apply IH; assumption.
Qed.

Lemma drawdown_pct_not_negative st :
  portfolio_value st <= peak_value st -> 0 <= drawdown_pct st.
Proof.
  intros H. unfold drawdown_pct.
  destruct (Qlt_bool 0 (peak_value st)) eqn:E; [|lra].
  apply Qlt_bool_iff in E.
  assert (0 <= (peak_value st - portfolio_value st) / peak_value st)
    by (apply Qle_shift_div_l; [assumption|lra]).
  lra.
Qed.

Lemma round2_0 : round2 0 == 0.
Proof. apply (round2_Z 0). Qed.

Lemma round2_100 : round2 100 == 100.
Proof. apply (round2_Z 100). Qed.

Section PeakAndDrawdown.

Variables (params : Params) (backtest : BacktestResult) (rows : list Row).

(** What the signals leave of the valuation: nothing changes but cash and
    position. *)
Lemma signals_keep_valuation c i row s l st db st' db' :
  check_stop_loss_take_profit_of c params backtest rows i row s l st db
  = (Ok st', db') ->
  portfolio_value st' = portfolio_value st /\ peak_value st' = peak_value st
  /\ snapshots db' = snapshots db.
Proof.
  intros H. pose proof H as H'. apply ledger_of_signals in H'.
  destruct H' as (_ & Hs & _). apply signals_cases in H.
  destruct H as [(-> & _)|[(pos & _ & -> & _)|(_ & _ & _ & _ & _ & -> & _)]]; auto.
Qed.

Lemma charted_bar c db0 i row st db st' db' :
  charted db0 st db ->
  loop_body_of c params backtest rows i row st db = (Ok st', db') ->
  charted db0 st' db'.
Proof.
  intros (Hpv & added & Hs & Hsane & Hmono & Hbound) H.
  apply bar_cases in H.
  destruct H as [(_ & -> & ->)|(s & l & daily & _ & H)];
    [split; [assumption|exists added; auto]|].
  apply signals_keep_valuation in H. destruct H as (Epv & Epk & Esn).
  destruct (peak_of_valuation st (Close row)) as [Hup Hdom].
  set (u := update_valuation st (Close row)) in *.
  split; [rewrite Epv, Epk; exact Hdom|].
  exists (added ++ [snapshot_row backtest (index row) u daily]).
  rewrite Esn. cbn [with_snapshot snapshots]. rewrite Hs, app_assoc.
  split; [reflexivity|].
  assert (Hold : Forall (fun y => y <= round2 (peak_value u))
                        (map peak_portfolio_value added)).
  { eapply Forall_impl; [|exact Hbound]. intros y Hy. cbv beta in *.
    pose proof (round2_mono _ _ Hup). lra. }
  split; [|split].
  - apply Forall_app. split; [exact Hsane|]. constructor; [|constructor].
    split; cbn.
    + apply round2_mono. exact Hdom.
    + pose proof (round2_mono _ _ (drawdown_pct_not_negative u Hdom)).
      pose proof round2_0. lra.
  - rewrite map_app. cbn [map]. apply nondecreasing_snoc; [exact Hmono|].
    exact Hold.
  - rewrite Epk, map_app. apply Forall_app. split; [exact Hold|].
    constructor; [cbn; lra|constructor].
Qed.

Lemma charted_simulation c db st db' :
  simulate_of c params backtest rows db = (Ok st, db') ->
  portfolio_value st <= peak_value st
  /\ p_starting_amount params <= peak_value st
  /\ exists added,
       snapshots db' = snapshots db ++ added
       /\ Forall sane_snapshot added
       /\ nondecreasing (map peak_portfolio_value added).
Proof.
  rewrite simulate_of_unfold. unfold bind. intros H.
  destruct (for_rows _ 0 rows _ db) as [[st1|e] db1] eqn:Hloop; [|discriminate].
  assert (Hc : charted db st1 db1).
  { apply (for_rows_preserves params backtest rows c (charted db) (fun _ => True))
      with (todo := rows) (i := 0%nat) (st := initial_state params) (db := db).
    - intros i row s d s' d' _ Hs Hb. eapply charted_bar; eassumption.
    - apply Forall_forall. auto.
    - split; [cbn; lra|]. exists []. rewrite app_nil_r. cbn. auto.
    - exact Hloop. }
  assert (Hpk : p_starting_amount params <= peak_value st1).
  { eapply (peak_loop params backtest rows); [|exact Hloop]. cbn. lra. }
  destruct Hc as (Hpv & added & Hs & Hsane & Hmono & _).
  destruct (close_remaining_appends c params backtest rows st1 db1)
    as (stf & dbf & Hclose & _ & _ & Hsn & _ & Epk & Epv & _).
  rewrite Hclose in H. inversion H; subst stf dbf.
  rewrite Epk, Epv, Hsn. split; [exact Hpv|]. split; [exact Hpk|].
  exists added. auto.
Qed.

End PeakAndDrawdown.

(** X11: the snapshots a simulation writes chart a running peak: in each,
    the portfolio value is at most the peak and the drawdown is not negative,
    and from one snapshot to the next the peak never goes down. *)
Theorem snapshots_chart_a_running_peak c params backtest rows db st db' :
  simulate_of c params backtest rows db = (Ok st, db') ->
  exists added,
    snapshots db' = snapshots db ++ added
    /\ Forall sane_snapshot added
    /\ nondecreasing (map peak_portfolio_value added).
Proof.
  intros H. destruct (charted_simulation _ _ _ _ _ _ _ H) as (_ & _ & Hadded).
  exact Hadded.
Qed.

Lemma snapshots_chart_a_running_peak_witness :
  exists added,
    snapshots (snd (Backend.simulate dip_params (initial_backtest dip_params 1)
                      (frame dip_params dip_bars) empty_store))
    = [] ++ added
    /\ nondecreasing (map peak_portfolio_value added).
Proof.
  destruct (snapshots_chart_a_running_peak BackendViews dip_params
              (initial_backtest dip_params 1) (frame dip_params dip_bars)
              empty_store
              (state_of (Backend.simulate dip_params
                           (initial_backtest dip_params 1)
                           (frame dip_params dip_bars) empty_store)
                        (initial_state dip_params))
              (snd (Backend.simulate dip_params
                      (initial_backtest dip_params 1)
                      (frame dip_params dip_bars) empty_store)))
    as (added & Hs & _ & Hmono).
  - vm_compute. reflexivity.
  - exists added. split; assumption.
Defined.

(** X12: in the stored result of a run the peak is at least the closing
    amount and at least the starting amount, both taken to the cent. *)
Theorem stored_peak_dominates c params bars db r db' :
  execute_of c params bars db = (Ok r, db') ->
  closing_amount r <= peak_stock_value r
  /\ round2 (starting_amount r) <= peak_stock_value r.
Proof.
  intros H.
  destruct bars as [|b bars]; [rewrite execute_of_empty in H; discriminate|].
  destruct (Z.ltb_spec (short_period params) 0) as [Hs|Hs].
  { rewrite execute_of_refused_window in H by (discriminate || auto). discriminate. }
  destruct (Z.ltb_spec (long_period params) 0) as [Hl|Hl].
  { rewrite execute_of_refused_window in H by (discriminate || auto). discriminate. }
  rewrite execute_of_frame in H by (discriminate || assumption).
  unfold bind at 1 in H. unfold BacktestResult_create in H.
  set (bt := initial_backtest params _) in *. set (db1 := mkStore _ _ _) in *.
  unfold bind in H.
  destruct (simulate_of c params bt _ db1) as [[st|e] db2] eqn:Hsim; [|discriminate].
  pose proof (final_cash_is_last_value _ _ _ _ _ _ _ Hsim) as Hcash.
  destruct (charted_simulation _ _ _ _ _ _ _ Hsim) as (Hpv & Hstart & _).
  unfold update_backtest_results, truediv, BacktestResult_save, bind, ret, raise in H.
  destruct (Qeq_bool (p_starting_amount params) 0); [discriminate|].
  destruct (Qeq_bool (peak_value st) 0); [discriminate|].
  inversion H; subst. cbn. split; apply round2_mono; lra.
Qed.

Lemma stored_peak_dominates_witness :
  exists r db',
    Strategies._execute_backtest dip_params dip_bars empty_store = (Ok r, db')
    /\ closing_amount r <= peak_stock_value r.
Proof.
  destruct (Strategies._execute_backtest dip_params dip_bars empty_store)
    as [[r|e] db'] eqn:Hrun; [|vm_compute in Hrun; discriminate].
  destruct (stored_peak_dominates StrategiesViews dip_params dip_bars
              empty_store r db' Hrun) as [H _].
  exists r, db'. split; [reflexivity|exact H].
Defined.

(** X13: when the starting amount and the closes are not negative, the
    drawdown stored with the result of a run lies between 0 and 100. *)
Theorem stored_drawdown_is_a_percentage c params bars db r db' :
  0 <= p_starting_amount params ->
  Forall (fun b => 0 <= bar_Close b) bars ->
  execute_of c params bars db = (Ok r, db') ->
  0 <= drawdown r /\ drawdown r <= 100.
Proof.
  intros Hstart Hbars H.
  destruct bars as [|b bars]; [rewrite execute_of_empty in H; discriminate|].
  destruct (Z.ltb_spec (short_period params) 0) as [Hs|Hs].
  { rewrite execute_of_refused_window in H by (discriminate || auto). discriminate. }
  destruct (Z.ltb_spec (long_period params) 0) as [Hl|Hl].
  { rewrite execute_of_refused_window in H by (discriminate || auto). discriminate. }
  rewrite execute_of_frame in H by (discriminate || assumption).
  unfold bind at 1 in H. unfold BacktestResult_create in H.
  set (bt := initial_backtest params _) in *. set (db1 := mkStore _ _ _) in *.
  assert (Hrows : Forall (fun row => 0 <= Close row) (frame params (b :: bars))).
  { apply Forall_forall. intros row Hin. apply In_nth_error in Hin.
    destruct Hin as [i Hi]. apply frame_bar in Hi.
    destruct Hi as (b' & Hb' & _ & ->). apply nth_error_In in Hb'.
    revert b' Hb'. apply Forall_forall. exact Hbars. }
  unfold bind in H.
  destruct (simulate_of c params bt _ db1) as [[st|e] db2] eqn:Hsim; [|discriminate].
  pose proof (final_cash_is_last_value _ _ _ _ _ _ _ Hsim) as Hcash.
  pose proof (solvent_simulation _ _ _ _ _ _ _ Hstart Hrows Hsim) as Hnn.
  destruct (charted_simulation _ _ _ _ _ _ _ Hsim) as (Hpv & Hpk & _).
  unfold update_backtest_results, truediv, BacktestResult_save, bind, ret, raise in H.
  destruct (Qeq_bool (p_starting_amount params) 0); [discriminate|].
  destruct (Qeq_bool (peak_value st) 0) eqn:E; [discriminate|].
  apply Qeq_bool_false_neq in E.
  inversion H; subst. cbn.
  assert (Hpos : 0 < peak_value st) by lra.
  assert (H0 : 0 <= (peak_value st - cash st) / peak_value st)
    by (apply Qle_shift_div_l; [assumption|lra]).
  assert (H1 : (peak_value st - cash st) / peak_value st <= 1)
    by (apply Qle_shift_div_r; [assumption|lra]).
  assert (L : 0 <= (peak_value st - cash st) / peak_value st * 100) by lra.
  assert (U : (peak_value st - cash st) / peak_value st * 100 <= 100) by lra.
  apply round2_mono in L, U. pose proof round2_0. pose proof round2_100.
  split; lra.
Qed.

Lemma stored_drawdown_is_a_percentage_witness :
  exists r db',
    Backend._execute_backtest dip_params dip_bars empty_store = (Ok r, db')
    /\ 0 <= drawdown r /\ drawdown r <= 100.
Proof.
  destruct (Backend._execute_backtest dip_params dip_bars empty_store)
    as [[r|e] db'] eqn:Hrun; [|vm_compute in Hrun; discriminate].
  exists r, db'. split; [reflexivity|].
  apply (stored_drawdown_is_a_percentage BackendViews dip_params dip_bars
           empty_store r db'); [| |exact Hrun].
  - vm_compute. discriminate.
  - repeat constructor; vm_compute; discriminate.
Defined.

(** ** The daily return of the backend copy *)

Lemma ascending_snoc l x :
  ascending l -> Forall (fun y => (y < x)%Z) l -> ascending (l ++ [x]).
Proof.
  induction l as [|a l IH]; intros Hl Hx; cbn.
  - split; [constructor|exact I].
  - destruct Hl as [Ha Hl]. inversion Hx; subst. split.
    + apply Forall_app. split; [exact Ha|]. constructor; [assumption|constructor].
    + apply IH; assumption.
Qed.

(** With dates in ascending order, [order_by('-date').first()] is the row
    written last. *)
Lemma latest_is_last backtest : forall l best,
  ascending (map date l) ->
  Forall (fun s => snap_backtest s = pk backtest) l ->
  (forall b, best = Some b -> Forall (fun s => (date b < date s)%Z) l) ->
  fold_left
    (fun best s =>
       if Nat.eqb (snap_backtest s) (pk backtest) then
         match best with
         | Some b => if (date b <? date s)%Z then Some s else best
         | None => Some s
         end
       else best) l best
  = match last_option l with Some s => Some s | None => best end.
Proof.
  induction l as [|x l IH]; intros best Hasc Hown Hbest; [reflexivity|].
  cbn [fold_left]. inversion Hown as [|? ? Hx Hl]; subst.
  rewrite Hx, Nat.eqb_refl. destruct Hasc as [Hxl Hasc].
  assert (Hstep : match best with
                  | Some b => if (date b <? date x)%Z then Some x else best
                  | None => Some x
                  end = Some x).
  { destruct best as [b|]; [|reflexivity].
    specialize (Hbest b eq_refl). inversion Hbest; subst.
    assert (E : (date b <? date x)%Z = true) by (apply Z.ltb_lt; assumption).
    rewrite E. reflexivity. }
  rewrite Hstep, IH; [|exact Hasc|exact Hl|].
  - cbn [last_option]. destruct (last_option l); reflexivity.
  - intros b Hb. inversion Hb; subst b.
    rewrite Forall_map in Hxl. exact Hxl.
Qed.

Lemma fold_over_own backtest (f : option DailyPortfolioSnapshot ->
                                  DailyPortfolioSnapshot ->
                                  option DailyPortfolioSnapshot) :
  forall l best,
    fold_left (fun best s =>
                 if Nat.eqb (snap_backtest s) (pk backtest) then f best s else best)
              l best
    = fold_left (fun best s =>
                   if Nat.eqb (snap_backtest s) (pk backtest) then f best s else best)
                (filter (fun s => Nat.eqb (snap_backtest s) (pk backtest)) l) best.
Proof.
  induction l as [|x l IH]; intros best; [reflexivity|].
  cbn [fold_left filter]. destruct (Nat.eqb (snap_backtest x) (pk backtest)) eqn:E.
  - cbn [fold_left]. rewrite E. apply IH.
  - apply IH.
Qed.

Section DailyReturn.

Variables (params : Params) (backtest : BacktestResult) (rows : list Row).

Lemma backend_bar_snapshot i row st db st' db' :
  Backend.loop_body params backtest rows i row st db = (Ok st', db') ->
  defined row = true ->
  exists daily,
    Backend.compute_daily_return_pct backtest i
      (portfolio_value (update_valuation st (Close row))) db = (Ok daily, db)
    /\ snapshots db'
       = snapshots db
         ++ [snapshot_row backtest (index row) (update_valuation st (Close row))
                          daily].
Proof.
  intros H Hd. unfold defined, isna in Hd.
  destruct (SMA_short row) as [s|] eqn:Hs; [|discriminate].
  destruct (SMA_long row) as [l|] eqn:Hl; [|discriminate].
  unfold Backend.loop_body in H. rewrite Hs, Hl in H. unfold bind at 1 in H.
  destruct (Backend.compute_daily_return_pct _ _ _ db) as [[daily|e] db1] eqn:Hdr;
    [|discriminate].
  pose proof (daily_return_stays _ _ _ _ _ _ Hdr) as [-> _].
  exists daily. split; [reflexivity|].
  unfold bind, DailyPortfolioSnapshot_create in H.
  destruct (day_taken _ _ db); [discriminate|].
  change (check_stop_loss_take_profit_of BackendViews params backtest rows i row
            s l (update_valuation st (Close row))
            (with_snapshot db
               (snapshot_row backtest (index row)
                             (update_valuation st (Close row)) daily))
          = (Ok st', db')) in H.
  apply ledger_of_signals in H. destruct H as (_ & Hsn & _).
  rewrite Hsn. reflexivity.
Qed.

Lemma nothing_behind_is_nothing_owned db :
  snapshots_behind backtest rows 0 db -> own_snapshots backtest db = [].
Proof.
  intros H0. unfold own_snapshots.
  destruct (filter _ (snapshots db)) as [|s l] eqn:E; [reflexivity|].
  assert (Hin : In s (filter (fun s => Nat.eqb (snap_backtest s) (pk backtest))
                             (snapshots db))) by (rewrite E; left; reflexivity).
  apply filter_In in Hin. destruct Hin as [Hin Hk]. apply Nat.eqb_eq in Hk.
  destruct (H0 s Hin Hk) as (j & _ & Hj & _). lia.
Qed.

Lemma chronicle_prefix c db0 :
  increasing_days rows ->
  snapshots_behind backtest rows 0 db0 ->
  forall n st db,
    (n <= List.length rows)%nat ->
    for_rows (loop_body_of c params backtest rows) 0 (firstn n rows)
             (initial_state params) db0 = (Ok st, db) ->
    chronicle backtest rows db0 n db.
Proof.
  intros Hsorted H0.
  apply (prefix_invariant c params backtest rows db0
           (initial_state params) (fun n _ db => chronicle backtest rows db0 n db)).
  - split; [exact H0|]. split.
    + rewrite (nothing_behind_is_nothing_owned db0 H0). exact I.
    + exists []. rewrite app_nil_r. auto.
  - intros i row st db st' db' Hrow (Hbehind & Hasc & added & Hsn0 & Hown) Hbody.
    split; [eapply snapshots_behind_bar; eassumption|].
    destruct (defined row) eqn:Hd.
    + destruct (snapshot_of_bar _ _ _ _ _ _ _ _ _ _ Hbody Hd) as (daily & Hsn & _).
      set (s := snapshot_row _ _ _ daily) in *.
      assert (E : own_snapshots backtest db'
                  = own_snapshots backtest db ++ [s]).
      { unfold own_snapshots. rewrite Hsn, filter_app. cbn.
        rewrite Nat.eqb_refl. reflexivity. }
      split.
      * rewrite E, map_app. cbn [map]. apply ascending_snoc; [exact Hasc|].
        rewrite Forall_map. apply Forall_forall. intros x Hx.
        apply filter_In in Hx. destruct Hx as [Hin Hk]. apply Nat.eqb_eq in Hk.
        destruct (Hbehind x Hin Hk) as (j & r & Hj & Hr & Hdate).
        rewrite Hdate. cbn. apply (Hsorted j i r row Hr Hrow Hj).
      * exists (added ++ [s]). rewrite Hsn, Hsn0, app_assoc.
        split; [reflexivity|]. apply Forall_app. split; [exact Hown|].
        constructor; [reflexivity|constructor].
    + rewrite skipped_bar in Hbody by assumption.
      inversion Hbody; subst. split; [exact Hasc|]. exists added. auto.
Qed.

End DailyReturn.

(** X14: in the backend copy, on bars in increasing order of day and a
    database without snapshots of the run, the daily return stored with a
    snapshot is 0 for the first snapshot of the run and otherwise
    (value - previous) / previous * 100, where [previous] is the portfolio
    value recorded in the snapshot the run wrote last and [value] the
    unrounded value of the bar. *)
Theorem backend_daily_return_is_against_previous_snapshot
    params backtest rows db0 i row st db st' db' :
  increasing_days rows ->
  snapshots_behind backtest rows 0 db0 ->
  for_rows (Backend.loop_body params backtest rows) 0 (firstn i rows)
           (initial_state params) db0 = (Ok st, db) ->
  nth_error rows i = Some row ->
  defined row = true ->
  Backend.loop_body params backtest rows i row st db = (Ok st', db') ->
  exists s,
    snapshots db' = snapshots db ++ [s]
    /\ daily_return s
       = return_against (last_option (own_snapshots backtest db))
           (match position st with
            | Some pos => cash st + inject_Z (pos_quantity pos) * Close row
            | None => cash st
            end).
Proof.
  intros Hsorted H0 Hpre Hrow Hd Hbody.
  assert (Hlen : (i <= List.length rows)%nat).
  { apply Nat.lt_le_incl, nth_error_Some. congruence. }
  destruct (chronicle_prefix params backtest rows BackendViews db0 Hsorted H0
              i st db Hlen Hpre) as (Hbehind & Hasc & _).
  apply backend_bar_snapshot in Hbody; [|assumption].
  destruct Hbody as (daily & Hdaily & Hsn).
  eexists. split; [exact Hsn|]. cbn [snapshot_row daily_return].
  unfold Backend.compute_daily_return_pct in Hdaily.
  assert (Hlatest : Backend.prev_snapshots_first backtest db
                    = (Ok (last_option (own_snapshots backtest db)), db)).
  { unfold Backend.prev_snapshots_first. f_equal. f_equal.
    rewrite (fold_over_own backtest
               (fun best s => match best with
                              | Some b => if (date b <? date s)%Z then Some s else best
                              | None => Some s
                              end)).
    fold (own_snapshots backtest db).
    rewrite latest_is_last.
    - destruct (last_option _); reflexivity.
    - exact Hasc.
    - apply Forall_forall. intros x Hx. apply filter_In in Hx.
      apply Nat.eqb_eq. apply Hx.
    - intros b Hb. discriminate. }
  destruct (Nat.eqb i 0) eqn:Ei.
  - apply Nat.eqb_eq in Ei. subst i. inversion Hdaily; subst daily.
    assert (E : own_snapshots backtest db = [])
      by (apply (nothing_behind_is_nothing_owned backtest rows); exact Hbehind).
    rewrite E. reflexivity.
  - unfold bind in Hdaily. rewrite Hlatest in Hdaily.
    destruct (last_option (own_snapshots backtest db)) as [p|].
    + unfold truediv, ret, raise in Hdaily.
      destruct (Qeq_bool (total_portfolio_value p) 0); [discriminate|].
      inversion Hdaily. reflexivity.
    + inversion Hdaily. reflexivity.
Qed.

(** Day 3 of the run that dips and recovers: the value falls from the 100
    of the snapshot before to 80, a daily return of -20. *)
Lemma backend_daily_return_is_against_previous_snapshot_witness :
  exists s,
    snapshots (snd (after_bars BackendViews dip_params dip_bars 4))
    = snapshots (snd (after_bars BackendViews dip_params dip_bars 3)) ++ [s]
    /\ daily_return s == - (20).
Proof.
  destruct (backend_daily_return_is_against_previous_snapshot dip_params
              (initial_backtest dip_params 1) (frame dip_params dip_bars)
              empty_store 3
              (mkRow (midnight 3) 8 (Some 8) (Some ((10 + 8) / 2)))
              (state_of (after_bars BackendViews dip_params dip_bars 3)
                        (initial_state dip_params))
              (snd (after_bars BackendViews dip_params dip_bars 3))
              (state_of (after_bars BackendViews dip_params dip_bars 4)
                        (initial_state dip_params))
              (snd (after_bars BackendViews dip_params dip_bars 4)))
    as (s & Hs & Hr).
  - apply daily_bars_increasing.
  - intros s [].
  - vm_compute. reflexivity.
  - vm_compute. reflexivity.
  - reflexivity.
  - vm_compute. reflexivity.
  - exists s. split; [exact Hs|]. rewrite Hr. vm_compute. reflexivity.
Defined.

(** ** The trades of a run as the model reads them *)

Section Prices.

Variables (params : Params) (backtest : BacktestResult) (rows : list Row).

Lemma priced_bar c db0 i row st db st' db' :
  In row rows -> priced backtest rows db0 st db ->
  loop_body_of c params backtest rows i row st db = (Ok st', db') ->
  priced backtest rows db0 st' db'.
Proof.
  intros Hin (Hpos & added & Ht & Hadded) H.
  assert (Hclose : In (Close row) (map Close rows)) by (apply in_map; exact Hin).
  apply bar_cases in H.
  destruct H as [(_ & -> & ->)|(s & l & daily & _ & H)];
    [split; [assumption|exists added; auto]|].
  apply signals_cases in H.
  destruct H as [(-> & ->)|[(pos & Hp & -> & ->)|(_ & _ & _ & _ & _ & -> & ->)]].
  - split; [exact Hpos|]. exists added. auto.
  - cbn in Hp. split; [intros p Hp'; discriminate|].
    exists (added ++ [sold params backtest pos (stamp_of c (index row)) (Close row)]).
    cbn [with_trade with_snapshot trades]. rewrite Ht, app_assoc.
    split; [reflexivity|]. apply Forall_app. split; [exact Hadded|].
    constructor; [|constructor]. repeat split; cbn; auto.
  - split; [|exists added; auto].
    intros p Hp. cbn in Hp. inversion Hp; subst p. exact Hclose.
Qed.

Lemma priced_simulation c db st db' :
  simulate_of c params backtest rows db = (Ok st, db') ->
  exists added,
    trades db' = trades db ++ added
    /\ Forall (fun t => priced_at_closes rows t
                        /\ trade_backtest t = pk backtest) added.
Proof.
  rewrite simulate_of_unfold. unfold bind. intros H.
  destruct (for_rows _ 0 rows _ db) as [[st1|e] db1] eqn:Hloop; [|discriminate].
  assert (Hp : priced backtest rows db st1 db1).
  { apply (for_rows_preserves params backtest rows c (priced backtest rows db)
             (fun row => In row rows))
      with (todo := rows) (i := 0%nat) (st := initial_state params) (db := db).
    - intros i row s d s' d' Hin Hs Hb. eapply priced_bar; eassumption.
    - apply Forall_forall. auto.
    - split; [intros p Hp; discriminate|]. exists []. rewrite app_nil_r. auto.
    - exact Hloop. }
  destruct Hp as (Hpos & added & Ht & Hadded).
  destruct (close_remaining_appends c params backtest rows st1 db1)
    as (stf & dbf & Hclose & Htf & _).
  rewrite Hclose in H. inversion H; subst stf dbf.
  eexists. rewrite Htf, Ht, <- app_assoc. split; [reflexivity|].
  apply Forall_app. split; [exact Hadded|].
  destruct (position st1) as [pos|]; [|constructor].
  constructor; [|constructor]. specialize (Hpos pos eq_refl).
  repeat split; cbn; [exact Hpos|].
  apply last_in. intros E. rewrite E in Hpos. exact Hpos.
Qed.

End Prices.

Lemma round2_of_a_cent x : 1 # 100 <= x -> ~ round2 x == 0.
Proof.
  intros H E. apply round2_mono in H.
  assert (C : round2 (1 # 100) == 1 # 100) by reflexivity.
  rewrite C, E in H. apply Qle_bool_iff in H. discriminate.
Qed.

Lemma round2_below_half_a_cent x : 0 <= x -> x < 1 # 200 -> round2 x == 0.
Proof.
  intros L U. unfold round2.
  assert (F : Qfloor (x * 100) = 0%Z).
  { apply Z.le_antisymm.
    - apply Z.lt_succ_r. rewrite Zlt_Qlt.
      apply Qle_lt_trans with (x * 100); [apply Qfloor_le|].
      change (inject_Z (Z.succ 0)) with 1. lra.
    - change 0%Z with (Qfloor 0). apply Qfloor_resp_le. lra. }
  unfold round_half_even. rewrite F.
  assert (C : Qcompare (x * 100 - inject_Z 0) (1 # 2) = Lt).
  { rewrite <- Qlt_alt. change (inject_Z 0) with 0. lra. }
  rewrite C. reflexivity.
Qed.

(** X15: every trade a simulation writes belongs to the backtest it ran for,
    and both its prices are closes of the series: the engine sells and buys at
    closes only, never at the stop or at the target price. *)
Theorem trades_of_a_run_are_priced_at_closes c params backtest rows db st db' :
  simulate_of c params backtest rows db = (Ok st, db') ->
  exists added,
    trades db' = trades db ++ added
    /\ Forall (fun t => priced_at_closes rows t
                        /\ trade_backtest t = pk backtest) added.
Proof.
  apply priced_simulation.
Qed.

Lemma trades_of_a_run_are_priced_at_closes_witness :
  exists added,
    trades (snd (Strategies.simulate dip_params (initial_backtest dip_params 1)
                   (frame dip_params dip_bars) empty_store))
    = [] ++ added
    /\ Forall (fun t => trade_backtest t = 1%nat) added.
Proof.
  destruct (trades_of_a_run_are_priced_at_closes StrategiesViews dip_params
              (initial_backtest dip_params 1) (frame dip_params dip_bars)
              empty_store
              (state_of (Strategies.simulate dip_params
                           (initial_backtest dip_params 1)
                           (frame dip_params dip_bars) empty_store)
                        (initial_state dip_params))
              (snd (Strategies.simulate dip_params
                      (initial_backtest dip_params 1)
                      (frame dip_params dip_bars) empty_store)))
    as (added & Ht & Hall).
  - vm_compute. reflexivity.
  - exists added. split; [exact Ht|].
    eapply Forall_impl; [|exact Hall]. intros t (_ & Ho). exact Ho.
Defined.

(** ** Reading a run back through the view set *)

Lemma completed_run c params bars db r db' :
  execute_of c params bars db = (Ok r, db') ->
  exists st db2,
    simulate_of c params
      (initial_backtest params (S (List.length (backtests db))))
      (frame params bars)
      (mkStore (backtests db
                ++ [initial_backtest params (S (List.length (backtests db)))])
               (snapshots db) (trades db))
    = (Ok st, db2)
    /\ update_backtest_results params
         (initial_backtest params (S (List.length (backtests db)))) st db2
       = (Ok r, db').
Proof.
  intros H.
  destruct bars as [|b bars]; [rewrite execute_of_empty in H; discriminate|].
  destruct (Z.ltb_spec (short_period params) 0) as [Hs|Hs].
  { rewrite execute_of_refused_window in H by (discriminate || auto). discriminate. }
  destruct (Z.ltb_spec (long_period params) 0) as [Hl|Hl].
  { rewrite execute_of_refused_window in H by (discriminate || auto). discriminate. }
  rewrite execute_of_frame in H by (discriminate || assumption).
  unfold bind at 1 in H. unfold BacktestResult_create in H. unfold bind in H.
  destruct (simulate_of c params _ _ _) as [[st|e] db2] eqn:Hsim; [|discriminate].
  exists st, db2. auto.
Qed.

Lemma written_results params backtest st db r db' :
  update_backtest_results params backtest st db = (Ok r, db') ->
  pk r = pk backtest
  /\ number_of_trades r = trades_count st
  /\ snapshots db' = snapshots db /\ trades db' = trades db
  /\ backtests db'
     = map (fun b' => if Nat.eqb (pk b') (pk backtest) then r else b') (backtests db).
Proof.
  unfold update_backtest_results, truediv, BacktestResult_save, bind, ret, raise.
  intros H.
  destruct (Qeq_bool (p_starting_amount params) 0); [discriminate|].
  destruct (Qeq_bool (peak_value st) 0); [discriminate|].
  inversion H; subst. cbn. auto.
Qed.

Lemma find_in_saved r key : forall l,
  pk r = key ->
  Forall (fun b => pk b <> key) l ->
  forall b0, pk b0 = key ->
  find (fun b => Nat.eqb (pk b) key)
       (map (fun b' => if Nat.eqb (pk b') key then r else b') (l ++ [b0]))
  = Some r.
Proof.
  induction l as [|x l IH]; intros Hr Hl b0 Hb0; cbn.
  - rewrite Hb0, Nat.eqb_refl, Hr, Nat.eqb_refl. reflexivity.
  - inversion Hl; subst. apply Nat.eqb_neq in H1. rewrite H1, H1.
    apply IH; auto.
Qed.

(** The view finds the row of a run that has completed. *)
Lemma completed_run_is_found c params bars db r db' :
  keys_in_range db ->
  execute_of c params bars db = (Ok r, db') ->
  Views.get_object (pk r) db' = Some r
  /\ pk r = S (List.length (backtests db)).
Proof.
  intros Hkeys H. apply completed_run in H. destruct H as (st & db2 & Hsim & Hup).
  apply simulate_grows in Hsim. destruct Hsim as (Hb & _ & _). cbn in Hb.
  apply written_results in Hup. destruct Hup as (Hpk & _ & _ & _ & Hbt).
  cbn in Hpk. split; [|exact Hpk].
  unfold Views.get_object. rewrite Hbt, Hb, Hpk. cbn [initial_backtest pk].
  apply find_in_saved; auto.
  eapply Forall_impl; [|exact Hkeys]. cbn. intros b Hle. lia.
Qed.

Lemma filter_none {A} (f : A -> bool) l :
  Forall (fun x => f x = false) l -> filter f l = [].
Proof.
  induction l as [|x l IH]; intros H; [reflexivity|].
  inversion H; subst. cbn. rewrite H2. auto.
Qed.

Lemma filter_all {A} (f : A -> bool) l :
  Forall (fun x => f x = true) l -> filter f l = l.
Proof.
  induction l as [|x l IH]; intros H; [reflexivity|].
  inversion H; subst. cbn. rewrite H2. f_equal. auto.
Qed.

Lemma profit_of_a_priced_trade t :
  ~ round2 (exit_price t) == 0 ->
  Views.TradeSerializer t = Models.Returns (shown t).
Proof.
  intros Hnz. unfold Views.TradeSerializer, Models.get_profit, Models.stored, shown.
  cbn. destruct (Qeq_bool (round2 (exit_price t)) 0) eqn:E; [|reflexivity].
  apply Qeq_bool_iff in E. contradiction.
Qed.

Lemma many_shown l :
  Forall (fun t => ~ round2 (exit_price t) == 0) l ->
  Views.many Views.TradeSerializer l = Models.Returns (map shown l).
Proof.
  induction l as [|t l IH]; intros H; [reflexivity|].
  inversion H; subst. cbn [Views.many map].
  rewrite (profit_of_a_priced_trade t H2), (IH H3). reflexivity.
Qed.

Lemma many_fails {A B} (f : A -> Models.outcome B) x : forall l,
  In x l -> f x = Models.TypeError -> Views.many f l = Models.TypeError.
Proof.
  induction l as [|y l IH]; intros Hin Hx; [contradiction|].
  cbn. destruct Hin as [->|Hin].
  - rewrite Hx. reflexivity.
  - rewrite (IH Hin Hx). destruct (f y); reflexivity.
Qed.

Lemma frame_closes params bars (P : Q -> Prop) :
  Forall (fun b => P (bar_Close b)) bars ->
  Forall (fun row => P (Close row)) (frame params bars).
Proof.
  intros Hbars. apply Forall_forall. intros row Hin. apply In_nth_error in Hin.
  destruct Hin as [i Hi]. apply frame_bar in Hi.
  destruct Hi as (b' & Hb' & _ & ->). apply nth_error_In in Hb'.
  rewrite Forall_forall in Hbars. apply Hbars. exact Hb'.
Qed.

(** X16: a trade whose exit price is below half a cent is stored with an
    exit price of 0.00, which [get_profit] takes for a missing one: it turns
    to the final market price, which the engine never stores, and raises.
    The [trades] action of the backtest of such a trade answers with a
    server error, although the trade is closed. *)
Theorem trades_action_fails_on_a_sale_below_half_a_cent key backtest t db :
  Views.get_object key db = Some backtest ->
  In t (trades db) ->
  trade_backtest t = pk backtest ->
  0 <= exit_price t -> exit_price t < 1 # 200 ->
  Models.is_open (Models.stored t) = false
  /\ Models.get_profit (Models.stored t) = Models.TypeError
  /\ Views.trades key db = Views.HTTP_500_INTERNAL_SERVER_ERROR.
Proof.
  intros Hget Hin Hfk L U.
  assert (Hp : Models.get_profit (Models.stored t) = Models.TypeError).
  { unfold Models.get_profit, Models.stored. cbn.
    pose proof (round2_below_half_a_cent _ L U) as E.
    apply Qeq_bool_iff in E. rewrite E. reflexivity. }
  split; [reflexivity|]. split; [exact Hp|].
  unfold Views.trades. rewrite Hget.
  rewrite (many_fails Views.TradeSerializer t); [reflexivity| |].
  - apply filter_In. split; [exact Hin|]. rewrite Hfk. apply Nat.eqb_refl.
  - unfold Views.TradeSerializer. rewrite Hp. reflexivity.
Qed.

Lemma trades_action_fails_on_a_sale_below_half_a_cent_witness :
  Views.trades 1
    (mkStore [initial_backtest dip_params 1] []
             [mkTrade 1 "AAPL" (midnight 2) 10 10 (midnight 3) (1 # 1000)])
  = Views.HTTP_500_INTERNAL_SERVER_ERROR.
Proof.
  apply (trades_action_fails_on_a_sale_below_half_a_cent 1
           (initial_backtest dip_params 1)
           (mkTrade 1 "AAPL" (midnight 2) 10 10 (midnight 3) (1 # 1000))).
  - reflexivity.
  - left. reflexivity.
  - reflexivity.
  - vm_compute. discriminate.
  - vm_compute. reflexivity.
Defined.

(** X17: a completed run can be read back through the [trades] action.  On
    a database whose keys are in range, and over bars that close at a cent or
    more, the action called with the key of the new result answers 200 with
    one entry for each trade the run added to the ledger and for no other
    trade; none of them is open, and the profit shown is computed from the
    prices as the two-place columns keep them.  Their number is the stored
    [number_of_trades]. *)
Theorem trades_action_shows_the_ledger_of_a_run c params bars db r db' :
  keys_in_range db ->
  referential db ->
  Forall (fun b => 1 # 100 <= bar_Close b) bars ->
  execute_of c params bars db = (Ok r, db') ->
  exists added,
    trades db' = trades db ++ added
    /\ Views.trades (pk r) db' = Views.HTTP_200_OK (map shown added)
    /\ number_of_trades r = Z.of_nat (List.length added).
Proof.
  intros Hkeys [_ Href] Hbars H.
  destruct (completed_run_is_found _ _ _ _ _ _ Hkeys H) as [Hfound Hpk].
  apply completed_run in H. destruct H as (st & db2 & Hsim & Hup).
  apply written_results in Hup. destruct Hup as (_ & Hn & _ & Ht & _).
  set (bt := initial_backtest params _) in *.
  pose proof (frame_closes params bars (fun q => 1 # 100 <= q) Hbars) as Hrows.
  destruct (priced_simulation _ _ _ _ _ _ _ Hsim) as (added & Hadd & Hp).
  destruct (balanced_simulation _ _ _ _ _ _ _ Hsim) as (added' & Hadd' & _ & Hcount).
  assert (added' = added).
  { rewrite Hadd in Hadd'. apply app_inv_head in Hadd'. congruence. }
  subst added'. cbn [trades] in Hadd.
  exists added. rewrite Ht, Hadd. split; [reflexivity|].
  split; [|rewrite Hn; exact Hcount].
  unfold Views.trades. rewrite Hfound, Ht, Hadd, filter_app.
  rewrite filter_none, filter_all, app_nil_l.
  - rewrite many_shown; [reflexivity|].
    eapply Forall_impl; [|exact Hp]. intros t [[_ Hx] _].
    apply in_map_iff in Hx. destruct Hx as (row & Hrow & Hin).
    apply round2_of_a_cent. rewrite <- Hrow.
    rewrite Forall_forall in Hrows. apply Hrows. exact Hin.
  - eapply Forall_impl; [|exact Hp]. intros t [_ Hk].
    rewrite Hk, Hpk. apply Nat.eqb_refl.
  - apply Forall_forall. intros t Hin. apply Href in Hin.
    apply Nat.eqb_neq. lia.
Qed.

Lemma trades_action_shows_the_ledger_of_a_run_witness :
  exists r db',
    Strategies._execute_backtest dip_params dip_bars empty_store = (Ok r, db')
    /\ Views.trades (pk r) db' = Views.HTTP_200_OK (map shown (trades db')).
Proof.
  destruct (Strategies._execute_backtest dip_params dip_bars empty_store)
    as [[r|e] db'] eqn:Hrun; [|vm_compute in Hrun; discriminate].
  destruct (trades_action_shows_the_ledger_of_a_run StrategiesViews dip_params
              dip_bars empty_store r db') as (added & Ht & Hv & _).
  - constructor.
  - split; intros x [].
  - repeat constructor; vm_compute; discriminate.
  - exact Hrun.
  - exists r, db'. split; [reflexivity|]. rewrite Hv, Ht. reflexivity.
Defined.

(** ** The snapshots of a run as the chart reads them *)

Lemma insert_by_date_perm s : forall l,
  Permutation (s :: l) (Views.insert_by_date s l).
Proof.
  induction l as [|x l IH]; cbn; [reflexivity|].
  destruct (date s <=? date x)%Z; [reflexivity|].
  rewrite perm_swap. apply perm_skip. exact IH.
Qed.

Lemma order_by_date_perm : forall l, Permutation l (Views.order_by_date l).
Proof.
  induction l as [|x l IH]; [reflexivity|].
  change (Views.order_by_date (x :: l))
    with (Views.insert_by_date x (Views.order_by_date l)).
  rewrite <- insert_by_date_perm. apply perm_skip. exact IH.
Qed.

Lemma insert_by_date_sorted s : forall l,
  StronglySorted by_date l -> StronglySorted by_date (Views.insert_by_date s l).
Proof.
  induction l as [|x l IH]; intros H; cbn.
  - repeat constructor.
  - inversion H as [|? ? Hl Hx]; subst.
    destruct (Z.leb_spec (date s) (date x)) as [Hle|Hgt].
    + constructor; [exact H|]. constructor; [exact Hle|].
      eapply Forall_impl; [|exact Hx]. unfold by_date. intros y Hy. lia.
    + constructor; [apply IH; exact Hl|].
      rewrite <- insert_by_date_perm. constructor; [unfold by_date; lia|exact Hx].
Qed.

Lemma order_by_date_sorted : forall l,
  StronglySorted by_date (Views.order_by_date l).
Proof.
  induction l as [|x l IH]; [constructor|].
  change (Views.order_by_date (x :: l))
    with (Views.insert_by_date x (Views.order_by_date l)).
  apply insert_by_date_sorted. exact IH.
Qed.

Lemma order_by_date_ascending : forall l,
  ascending (map date l) -> Views.order_by_date l = l.
Proof.
  induction l as [|x l IH]; intros H; [reflexivity|].
  cbn in H. destruct H as [Hx Hl].
  change (Views.order_by_date (x :: l))
    with (Views.insert_by_date x (Views.order_by_date l)).
  rewrite (IH Hl).
  destruct l as [|y l]; [reflexivity|]. cbn.
  inversion Hx; subst.
  destruct (Z.leb_spec (date x) (date y)); [reflexivity|lia].
Qed.

Lemma own_days_differ backtest db :
  unique_days db -> NoDup (map date (own_snapshots backtest db)).
Proof.
  unfold unique_days, own_snapshots.
  induction (snapshots db) as [|s l IH]; intros H; cbn; [constructor|].
  cbn in H. inversion H as [|? ? Hs Hl]; subst.
  destruct (Nat.eqb_spec (snap_backtest s) (pk backtest)) as [E|_]; [|auto].
  cbn. constructor; [|auto].
  intros Hin. apply in_map_iff in Hin. destruct Hin as (s' & Hd & Hin').
  apply filter_In in Hin'. destruct Hin' as [Hin' Hk]. apply Nat.eqb_eq in Hk.
  apply Hs. apply in_map_iff. exists s'. split; [|exact Hin'].
  unfold snapshot_key. congruence.
Qed.

(** X18: for a stored backtest, in a table that holds one snapshot per
    backtest and day, the [daily_snapshots] action lists the snapshots of that
    backtest and no other, each once, in order of date, with their figures as
    the two-place columns keep them; no two of the listed days are equal, so
    the order is the only one. *)
Theorem daily_snapshots_action_lists_own_days_in_order key backtest db :
  Views.get_object key db = Some backtest ->
  unique_days db ->
  exists listed,
    Views.daily_snapshots key db
    = Views.HTTP_200_OK (map Models.read_snapshot listed)
    /\ Permutation (own_snapshots backtest db) listed
    /\ StronglySorted by_date listed
    /\ NoDup (map date listed).
Proof.
  unfold Views.daily_snapshots. intros -> H.
  eexists. split; [reflexivity|]. fold (own_snapshots backtest db).
  split; [apply order_by_date_perm|]. split; [apply order_by_date_sorted|].
  eapply Permutation_NoDup.
  - apply Permutation_map. apply order_by_date_perm.
  - apply own_days_differ. exact H.
Qed.

(** Two runs in one database, the snapshots of the second filed before those
    of the first: the chart of the first run is its own three days. *)
Lemma daily_snapshots_action_lists_own_days_in_order_witness :
  exists data,
    Views.daily_snapshots 1
      (mkStore [initial_backtest dip_params 1; initial_backtest dip_params 2]
               (map (fun d => mkSnapshot 2 d 100 100 0 100 0 0)
                    [5; 4]%Z
                ++ map (fun d => mkSnapshot 1 d 100 100 0 100 0 0)
                       [3; 1; 2]%Z)
               [])
    = Views.HTTP_200_OK data
    /\ map date data = [1; 2; 3]%Z.
Proof.
  destruct (daily_snapshots_action_lists_own_days_in_order 1
              (initial_backtest dip_params 1)
              (mkStore [initial_backtest dip_params 1; initial_backtest dip_params 2]
                 (map (fun d => mkSnapshot 2 d 100 100 0 100 0 0)
                      [5; 4]%Z
                  ++ map (fun d => mkSnapshot 1 d 100 100 0 100 0 0)
                         [3; 1; 2]%Z)
                 []))
    as (listed & Hv & _).
  - reflexivity.
  - unfold unique_days. cbn.
    repeat (constructor; [cbn; intuition discriminate|]). constructor.
  - exists (map Models.read_snapshot listed). split; [exact Hv|].
    cbn in Hv. inversion Hv. reflexivity.
Defined.

Section Chart.

Variables (params : Params) (backtest : BacktestResult) (rows : list Row).

Lemma charted_days c db st db' :
  increasing_days rows ->
  (forall s, In s (snapshots db) -> snap_backtest s <> pk backtest) ->
  simulate_of c params backtest rows db = (Ok st, db') ->
  exists added,
    snapshots db' = snapshots db ++ added
    /\ own_snapshots backtest db' = added
    /\ ascending (map date added).
Proof.
  intros Hsorted Hfresh H.
  rewrite simulate_of_unfold in H. unfold bind in H.
  destruct (for_rows _ 0 rows _ db) as [[st1|e] db1] eqn:Hloop; [|discriminate].
  rewrite whole_loop_is_a_prefix in Hloop.
  assert (H0 : snapshots_behind backtest rows 0 db).
  { intros s Hin Hk. exfalso. exact (Hfresh s Hin Hk). }
  destruct (chronicle_prefix params backtest rows c db Hsorted H0
              (List.length rows) st1 db1 (le_n _) Hloop)
    as (_ & Hasc & added & Hsn & Hown).
  destruct (close_remaining_appends c params backtest rows st1 db1)
    as (stf & dbf & Hclose & _ & _ & Hsnf & _).
  rewrite Hclose in H. inversion H; subst stf dbf.
  assert (E : own_snapshots backtest db' = added).
  { unfold own_snapshots. rewrite Hsnf, Hsn, filter_app.
    rewrite filter_none, filter_all; [reflexivity| |].
    - eapply Forall_impl; [|exact Hown]. intros s Hk. rewrite Hk.
      apply Nat.eqb_refl.
    - apply Forall_forall. intros s Hin. apply Nat.eqb_neq. auto. }
  exists added. rewrite Hsnf. split; [exact Hsn|]. split; [exact E|].
  unfold own_snapshots in E, Hasc. rewrite Hsnf in E. rewrite E in Hasc.
  exact Hasc.
Qed.

End Chart.

(** X20: a completed run over bars in increasing order of day can be read
    back through the [daily_snapshots] action: on a database whose keys are in
    range, and provided every figure the run wrote in a snapshot fits its
    column, the action called with the key of the new result answers 200 with
    exactly the snapshots the run added to the table, in the order in which
    the run wrote them, their figures as the two-place columns keep them. *)
Theorem daily_snapshots_action_charts_a_run c params bars db r db' :
  keys_in_range db ->
  referential db ->
  increasing_bar_days bars ->
  execute_of c params bars db = (Ok r, db') ->
  exists added,
    snapshots db' = snapshots db ++ added
    /\ (Forall fits_columns added ->
        Views.daily_snapshots (pk r) db'
        = Views.HTTP_200_OK (map Models.read_snapshot added)).
Proof.
  intros Hkeys [Href _] Hbars H.
  destruct (completed_run_is_found _ _ _ _ _ _ Hkeys H) as [Hfound Hpk].
  apply completed_run in H. destruct H as (st & db2 & Hsim & Hup).
  apply written_results in Hup. destruct Hup as (_ & _ & Hs & _ & _).
  apply charted_days in Hsim.
  - destruct Hsim as (added & Hsn & Hown & Hasc). cbn [snapshots] in Hsn.
    exists added. rewrite Hs. split; [exact Hsn|]. intros _.
    unfold Views.daily_snapshots. rewrite Hfound, Hs, Hpk.
    unfold own_snapshots in Hown. cbn [initial_backtest pk] in Hown.
    rewrite Hown. rewrite order_by_date_ascending by exact Hasc. reflexivity.
  - apply frame_increasing. exact Hbars.
  - cbn. intros s Hin. apply Href in Hin. lia.
Qed.

(** The backend run that dips and recovers: its five snapshots fit their
    columns and are what the action lists. *)
Lemma daily_snapshots_action_charts_a_run_witness :
  exists r db',
    Backend._execute_backtest dip_params dip_bars empty_store = (Ok r, db')
    /\ Forall fits_columns (snapshots db')
    /\ Views.daily_snapshots (pk r) db'
       = Views.HTTP_200_OK (map Models.read_snapshot (snapshots db')).
Proof.
  destruct (Backend._execute_backtest dip_params dip_bars empty_store)
    as [[r|e] db'] eqn:Hrun; [|vm_compute in Hrun; discriminate].
  assert (Hfit : Forall fits_columns (snapshots db')).
  { vm_compute in Hrun. inversion Hrun; subst r db'.
    repeat constructor. }
  destruct (daily_snapshots_action_charts_a_run BackendViews dip_params
              dip_bars empty_store r db') as (added & Ht & Hv).
  - constructor.
  - split; intros x [].
  - apply daily_bars_days.
  - exact Hrun.
  - exists r, db'. split; [reflexivity|]. split; [exact Hfit|].
    cbn [snapshots empty_store app] in Ht. rewrite Ht in Hfit.
    rewrite (Hv Hfit), Ht. reflexivity.
Defined.

(** ** The download *)

Lemma dt_leb_spec a b :
  Download.dt_leb a b = true
  <-> (dt_date a < dt_date b)%Z
      \/ (dt_date a = dt_date b /\ (dt_time a <= dt_time b)%Z).
Proof.
  unfold Download.dt_leb.
  rewrite orb_true_iff, andb_true_iff, Z.ltb_lt, Z.eqb_eq, Z.leb_le. reflexivity.
Qed.

Lemma dt_leb_trans a b c :
  Download.dt_leb a b = true -> Download.dt_leb b c = true ->
  Download.dt_leb a c = true.
Proof. rewrite !dt_leb_spec. lia. Qed.

Lemma dt_leb_total a b :
  Download.dt_leb a b = false -> Download.dt_leb b a = true.
Proof.
  intros H. apply dt_leb_spec.
  destruct (Download.dt_leb a b) eqn:E; [discriminate|].
  assert (N : ~ ((dt_date a < dt_date b)%Z
                 \/ (dt_date a = dt_date b /\ (dt_time a <= dt_time b)%Z))).
  { intros K. apply dt_leb_spec in K. congruence. }
  lia.
Qed.

Lemma insert_by_index_perm r : forall l,
  Permutation (r :: l) (Download.insert_by_index r l).
Proof.
  induction l as [|x l IH]; cbn; [reflexivity|].
  destruct (Download.dt_leb (fst r) (fst x)); [reflexivity|].
  rewrite perm_swap. apply perm_skip. exact IH.
Qed.

Lemma sort_index_perm : forall l, Permutation l (Download.sort_index l).
Proof.
  induction l as [|x l IH]; [reflexivity|].
  change (Download.sort_index (x :: l))
    with (Download.insert_by_index x (Download.sort_index l)).
  rewrite <- insert_by_index_perm. apply perm_skip. exact IH.
Qed.

Lemma insert_by_index_sorted r : forall l,
  StronglySorted by_index l ->
  StronglySorted by_index (Download.insert_by_index r l).
Proof.
  induction l as [|x l IH]; intros H; cbn.
  - repeat constructor.
  - inversion H as [|? ? Hl Hx]; subst.
    destruct (Download.dt_leb (fst r) (fst x)) eqn:E.
    + constructor; [exact H|]. constructor; [exact E|].
      eapply Forall_impl; [|exact Hx]. unfold by_index. intros y Hy.
      eapply dt_leb_trans; eassumption.
    + constructor; [apply IH; exact Hl|].
      rewrite <- insert_by_index_perm.
      constructor; [apply dt_leb_total; exact E|exact Hx].
Qed.

Lemma sort_index_sorted : forall l, StronglySorted by_index (Download.sort_index l).
Proof.
  induction l as [|x l IH]; [constructor|].
  change (Download.sort_index (x :: l))
    with (Download.insert_by_index x (Download.sort_index l)).
  apply insert_by_index_sorted. exact IH.
Qed.

Lemma sort_index_of_sorted : forall l,
  StronglySorted by_index l -> Download.sort_index l = l.
Proof.
  induction l as [|x l IH]; intros H; [reflexivity|].
  inversion H as [|? ? Hl Hx]; subst.
  change (Download.sort_index (x :: l))
    with (Download.insert_by_index x (Download.sort_index l)).
  rewrite (IH Hl). destruct l as [|y l]; [reflexivity|]. cbn.
  inversion Hx; subst. unfold by_index in H2. rewrite H2. reflexivity.
Qed.

Lemma filter_sorted {A} (R : A -> A -> Prop) f : forall l,
  StronglySorted R l -> StronglySorted R (filter f l).
Proof.
  induction l as [|x l IH]; intros H; [constructor|].
  inversion H as [|? ? Hl Hx]; subst. cbn.
  destruct (f x); [|auto]. constructor; [auto|].
  apply Forall_forall. intros y Hy. apply filter_In in Hy.
  rewrite Forall_forall in Hx. apply Hx. apply Hy.
Qed.

Lemma filter_perm {A} (f : A -> bool) l l' :
  Permutation l l' -> Permutation (filter f l) (filter f l').
Proof.
  induction 1 as [|x l l' _ IH|x y l|l l' l'' _ IH1 _ IH2]; cbn.
  - constructor.
  - destruct (f x); [apply perm_skip|]; exact IH.
  - destruct (f x), (f y); try reflexivity. apply perm_swap.
  - etransitivity; eassumption.
Qed.

Lemma filter_twice {A} (f : A -> bool) l : filter f (filter f l) = filter f l.
Proof.
  apply filter_all. apply Forall_forall. intros x Hx.
  apply filter_In in Hx. apply Hx.
Qed.

Lemma rename_cases c :
  Download.rename c = c
  \/ In (Download.rename c)
        ["Open"; "High"; "Low"; "Close"; "Adj Close"; "Volume"]%string.
Proof.
  unfold Download.rename. cbv zeta.
  repeat match goal with
         | |- context [if ?b then _ else _] => destruct b; [cbn; tauto|]
         end.
  left. reflexivity.
Qed.

Lemma rename_idempotent c :
  Download.rename (Download.rename c) = Download.rename c.
Proof.
  destruct (rename_cases c) as [E|H]; [rewrite E; exact E|].
  cbn in H.
  repeat (destruct H as [<-|H]; [reflexivity|]). contradiction.
Qed.

Lemma existsb_close l :
  existsb (String.eqb "Close") l = true <-> In "Close"%string l.
Proof.
  rewrite existsb_exists. split.
  - intros (x & Hin & E). apply String.eqb_eq in E. subst. exact Hin.
  - intros H. exists "Close"%string. split; [exact H|apply String.eqb_refl].
Qed.

(** What a successful download went through. *)
Lemma downloaded bars start_date end_date df :
  Download._download_data_with_lumibot bars start_date end_date = Ok df ->
  exists raw,
    bars = Some raw
    /\ In "Close"%string (map Download.rename (Download.df_columns raw))
    /\ df = Download.mkDataFrame
              (map Download.rename (Download.df_columns raw))
              (filter (Download.in_range (midnight start_date) (midnight end_date))
                      (Download.sort_index (Download.df_rows raw)))
    /\ Download.df_rows df <> [].
Proof.
  unfold Download._download_data_with_lumibot. cbv zeta.
  destruct bars as [raw|]; [|discriminate].
  destruct (Download.empty raw); [discriminate|].
  cbn [Download.df_columns Download.df_rows].
  destruct (existsb _ _) eqn:Hc; [|discriminate]. cbn [negb].
  destruct (Download.empty _) eqn:He; [discriminate|].
  intros H. inversion H; subst df. exists raw.
  split; [reflexivity|]. split; [apply existsb_close; exact Hc|].
  split; [reflexivity|].
  unfold Download.empty in He. cbn [Download.df_columns Download.df_rows] in *.
  destruct (map Download.rename _); [discriminate|].
  destruct (filter _ _); [discriminate|]. discriminate.
Qed.

(** X21: the frame a download returns has at least one bar and a column
    labelled Close; its stamps do not go down; and its bars are the fetched
    bars whose stamp lies between the midnights of the two dates, each as often
    as it was fetched.  So the test for an empty frame that follows the call in
    [_execute_backtest] (lines 151-152) never succeeds. *)
Theorem download_returns_sorted_bars_with_a_close bars start_date end_date df :
  Download._download_data_with_lumibot bars start_date end_date = Ok df ->
  Download.df_rows df <> []
  /\ In "Close"%string (Download.df_columns df)
  /\ StronglySorted by_index (Download.df_rows df)
  /\ exists raw,
       bars = Some raw
       /\ Permutation
            (filter (Download.in_range (midnight start_date) (midnight end_date))
                    (Download.df_rows raw))
            (Download.df_rows df).
Proof.
  intros H. apply downloaded in H. destruct H as (raw & -> & Hc & Hdf & Hne).
  split; [exact Hne|]. rewrite Hdf. cbn [Download.df_columns Download.df_rows].
  split; [exact Hc|]. split.
  - apply filter_sorted. apply sort_index_sorted.
  - exists raw. split; [reflexivity|]. apply filter_perm. apply sort_index_perm.
Qed.

Lemma download_returns_sorted_bars_with_a_close_witness :
  exists df,
    Download._download_data_with_lumibot (Some yahoo_week) 2 5 = Ok df
    /\ map (fun r => dt_date (fst r)) (Download.df_rows df) = [2; 3; 4]%Z
    /\ In "Close"%string (Download.df_columns df).
Proof.
  eexists. split; [vm_compute; reflexivity|]. split; [reflexivity|].
  apply (download_returns_sorted_bars_with_a_close (Some yahoo_week) 2 5).
  vm_compute. reflexivity.
Defined.

(** X22: when the end date is before the start date the download raises
    [ValueError], whatever was fetched. *)
Theorem download_of_a_reversed_range_fails bars start_date end_date :
  (end_date < start_date)%Z ->
  Download._download_data_with_lumibot bars start_date end_date
  = Raise ValueError.
Proof.
  intros Hlt.
  destruct (Download._download_data_with_lumibot bars start_date end_date)
    as [df|e] eqn:H.
  - exfalso. apply downloaded in H. destruct H as (raw & _ & _ & Hdf & Hne).
    apply Hne. rewrite Hdf. cbn [Download.df_rows].
    apply filter_none. apply Forall_forall. intros r _.
    unfold Download.in_range.
    destruct (Download.dt_leb (midnight start_date) (fst r)) eqn:A; [|reflexivity].
    destruct (Download.dt_leb (fst r) (midnight end_date)) eqn:B; [|reflexivity].
    pose proof (dt_leb_trans _ _ _ A B) as C. apply dt_leb_spec in C.
    cbn in C. lia.
  - unfold Download._download_data_with_lumibot in H. cbv zeta in H.
    destruct bars as [raw|]; [|congruence].
    destruct (Download.empty raw); [congruence|].
    destruct (negb _); [congruence|].
    destruct (Download.empty _); [congruence|discriminate].
Qed.

Lemma download_of_a_reversed_range_fails_witness :
  Download._download_data_with_lumibot (Some yahoo_week) 5 2 = Raise ValueError.
Proof.
  apply (download_of_a_reversed_range_fails (Some yahoo_week) 5 2). lia.
Defined.

(** X23: every bar of a downloaded frame is of a day from the start date
    to the end date, and a bar of the end date is kept only if it is stamped
    at midnight: the slice compares stamps with the midnight of the end date,
    so bars of the last day that carry a later time of day are dropped. *)
Theorem download_keeps_the_end_date_at_midnight_only
    bars start_date end_date df r :
  Download._download_data_with_lumibot bars start_date end_date = Ok df ->
  In r (Download.df_rows df) ->
  (start_date <= dt_date (fst r) <= end_date)%Z
  /\ (dt_date (fst r) = end_date -> (dt_time (fst r) <= 0)%Z)
  /\ (dt_date (fst r) = start_date -> (0 <= dt_time (fst r))%Z).
Proof.
  intros H Hin. apply downloaded in H. destruct H as (raw & _ & _ & Hdf & _).
  rewrite Hdf in Hin. cbn [Download.df_rows] in Hin.
  apply filter_In in Hin. destruct Hin as [_ Hr].
  unfold Download.in_range in Hr. apply andb_true_iff in Hr.
  destruct Hr as [A B]. apply dt_leb_spec in A, B. cbn in A, B. lia.
Qed.

(** Of a week of bars stamped at 05:00, the range from day 2 to day 5 keeps
    days 2 to 4. *)
Lemma download_keeps_the_end_date_at_midnight_only_witness :
  Download._download_data_with_lumibot (Some yahoo_week) 2 5
  = Ok (Download.mkDataFrame
          ["Open"; "Close"; "Adj Close"; "dividend"]%string
          (map (fun d => (mkDatetime d 5,
                          [inject_Z d; inject_Z d + 1; inject_Z d; 0]))
               [2; 3; 4]%Z))
  /\ (2 <= 4 <= 5)%Z.
Proof.
  split; [vm_compute; reflexivity|].
  apply (download_keeps_the_end_date_at_midnight_only (Some yahoo_week) 2 5
           (Download.mkDataFrame
              ["Open"; "Close"; "Adj Close"; "dividend"]%string
              (map (fun d => (mkDatetime d 5,
                              [inject_Z d; inject_Z d + 1; inject_Z d; 0]))
                   [2; 3; 4]%Z))
           (mkDatetime 4 5, [inject_Z 4; inject_Z 4 + 1; inject_Z 4; 0])).
  - vm_compute. reflexivity.
  - cbn. right. right. left. reflexivity.
Defined.

(** X24: the normalisation of the labels is idempotent, and so is the
    download: a frame it returned, given to it again with the same dates, is
    returned unchanged. *)
Theorem download_is_idempotent bars start_date end_date df :
  Download._download_data_with_lumibot bars start_date end_date = Ok df ->
  Download._download_data_with_lumibot (Some df) start_date end_date = Ok df.
Proof.
  intros H. apply downloaded in H. destruct H as (raw & _ & Hc & Hdf & Hne).
  unfold Download._download_data_with_lumibot. cbv zeta.
  assert (Hcols : map Download.rename (Download.df_columns df)
                  = Download.df_columns df).
  { rewrite Hdf. cbn [Download.df_columns]. rewrite map_map.
    apply map_ext. intros c. apply rename_idempotent. }
  assert (Hrows : filter (Download.in_range (midnight start_date) (midnight end_date))
                         (Download.sort_index (Download.df_rows df))
                  = Download.df_rows df).
  { rewrite Hdf. cbn [Download.df_rows].
    rewrite sort_index_of_sorted by (apply filter_sorted, sort_index_sorted).
    apply filter_twice. }
  assert (Hin : In "Close"%string (Download.df_columns df)).
  { rewrite Hdf. exact Hc. }
  assert (He : Download.empty df = false).
  { unfold Download.empty. destruct (Download.df_columns df); [contradiction|].
    destruct (Download.df_rows df); [congruence|reflexivity]. }
  rewrite He. cbn [Download.df_columns Download.df_rows].
  rewrite Hcols, Hrows.
  apply existsb_close in Hin. rewrite Hin. cbn [negb].
  destruct df as [cols rws]. cbn [Download.df_columns Download.df_rows] in *.
  rewrite He. reflexivity.
Qed.

Lemma download_is_idempotent_witness :
  exists df,
    Download._download_data_with_lumibot (Some yahoo_week) 2 5 = Ok df
    /\ Download._download_data_with_lumibot (Some df) 2 5 = Ok df.
Proof.
  eexists. split; [vm_compute; reflexivity|].
  apply (download_is_idempotent (Some yahoo_week) 2 5). vm_compute. reflexivity.
Defined.

(** ** The management command *)

(** A run past its guards files its result row, whether it completes or
    not. *)
Lemma run_files_one_result c params bars db r db' :
  bars <> [] ->
  (0 <= short_period params)%Z -> (0 <= long_period params)%Z ->
  execute_of c params bars db = (r, db') ->
  List.length (backtests db') = S (List.length (backtests db)).
Proof.
  intros Hne Hs Hl H. rewrite execute_of_frame in H by assumption.
  unfold bind at 1 in H. unfold BacktestResult_create in H. unfold bind in H.
  destruct (simulate_of c params _ _ _) as [[st|e] db2] eqn:Hsim;
    apply simulate_grows in Hsim; destruct Hsim as (Hb & _ & _); cbn in Hb.
  - destruct r as [r|e].
    + apply written_results in H. destruct H as (_ & _ & _ & _ & Hbt).
      rewrite Hbt, length_map, Hb, length_app. cbn. lia.
    + apply failed_summary in H. subst db'. rewrite Hb, length_app. cbn. lia.
  - inversion H; subst. rewrite Hb, length_app. cbn. lia.
Qed.

Lemma handle_loop fetched : forall todo acc,
  map Command.symbol_of (fst (fold_left (Command.pass fetched) todo acc))
  = map Command.symbol_of (fst acc) ++ todo
  /\ List.length (backtests (snd (fold_left (Command.pass fetched) todo acc)))
     = (List.length (backtests (snd acc))
        + List.length (filter (fun symbol => match fetched symbol with
                                             | [] => false
                                             | _ => true
                                             end) todo))%nat
  /\ (forall symbol,
        In symbol todo -> fetched symbol = [] ->
        In (Command.ERROR symbol ValueError)
           (fst (fold_left (Command.pass fetched) todo acc)))
  /\ (forall l, In l (fst acc) ->
                In l (fst (fold_left (Command.pass fetched) todo acc))).
Proof.
  induction todo as [|symbol todo IH]; intros acc.
  - cbn. rewrite app_nil_r, Nat.add_0_r. repeat split; auto. intros s [].
  - cbn [fold_left]. destruct (IH (Command.pass fetched acc symbol))
      as (Hsym & Hlen & Herr & Hkeep).
    assert (Hout : map Command.symbol_of (fst (Command.pass fetched acc symbol))
                   = map Command.symbol_of (fst acc) ++ [symbol]
                   /\ forall l, In l (fst acc) ->
                                In l (fst (Command.pass fetched acc symbol))).
    { unfold Command.pass.
      destruct (Backend._execute_backtest _ _ _) as [[r|e] d]; cbn [fst];
        rewrite map_app; (split; [reflexivity|]);
        intros l Hl; apply in_or_app; left; exact Hl. }
    destruct Hout as [Hout Hacc].
    assert (Hdb : List.length (backtests (snd (Command.pass fetched acc symbol)))
                  = (List.length (backtests (snd acc))
                     + match fetched symbol with [] => 0 | _ => 1 end)%nat
                  /\ (fetched symbol = [] ->
                      In (Command.ERROR symbol ValueError)
                         (fst (Command.pass fetched acc symbol)))).
    { unfold Command.pass.
      destruct (Backend._execute_backtest (Command.params_for symbol)
                  (fetched symbol) (snd acc)) as [r d] eqn:Hrun.
      change (Backend._execute_backtest (Command.params_for symbol)
                (fetched symbol) (snd acc))
        with (execute_of BackendViews (Command.params_for symbol)
                (fetched symbol) (snd acc)) in Hrun.
      destruct (fetched symbol) as [|b bars] eqn:Hf.
      - rewrite execute_of_empty in Hrun. inversion Hrun; subst.
        cbn. split; [lia|]. intros _. apply in_or_app. right. left. reflexivity.
      - apply run_files_one_result in Hrun;
          [|discriminate|cbn; lia|cbn; lia].
        split; [|discriminate].
        destruct r; cbn [snd]; rewrite Hrun; lia. }
    destruct Hdb as [Hdb Hfail].
    split; [rewrite Hsym, Hout, <- app_assoc; reflexivity|].
    split.
    { rewrite Hlen, Hdb. cbn [filter].
      destruct (fetched symbol); cbn [List.length]; lia. }
    split.
    { intros s [<-|Hin] Hs; [apply Hkeep, Hfail, Hs|apply Herr; assumption]. }
    intros l Hl. apply Hkeep, Hacc, Hl.
Qed.

(** X25: the management command reports once on each of its five symbols,
    in order, whatever happens to the runs; a symbol for which no bar was
    fetched is reported as failed with [ValueError] and does not stop the
    symbols after it; and every symbol for which bars were fetched leaves one
    result row in the table, whether its run completed or not. *)
Theorem handle_reports_on_every_symbol fetched db :
  map Command.symbol_of (fst (Command.handle fetched db)) = Command.symbols
  /\ List.length (backtests (snd (Command.handle fetched db)))
     = (List.length (backtests db)
        + List.length (fetched_symbols fetched))%nat
  /\ forall symbol,
       In symbol Command.symbols -> fetched symbol = [] ->
       In (Command.ERROR symbol ValueError) (fst (Command.handle fetched db)).
Proof.
  unfold Command.handle, fetched_symbols.
  destruct (handle_loop fetched Command.symbols ([], db)) as (A & B & C & _).
  auto.
Qed.

(** ** Configurations that are refused *)

(** C8, as the code has it: a run is turned away before the simulation
    loop, with nothing stored, exactly when no bar was fetched or a window is
    negative, and then with [ValueError] (pandas refuses the window).  A
    window of zero, a starting amount that is not positive and the order of
    the dates play no part: with bars fetched and no negative window, the
    result row is created before anything else can fail. *)
Theorem only_empty_series_and_negative_windows_are_refused c params bars db :
  ((exists e, execute_of c params bars db = (Raise e, db))
   <-> bars = [] \/ (short_period params < 0)%Z \/ (long_period params < 0)%Z)
  /\ (forall e, execute_of c params bars db = (Raise e, db) -> e = ValueError)
  /\ (bars <> [] ->
      (0 <= short_period params)%Z -> (0 <= long_period params)%Z ->
      forall res db',
        execute_of c params bars db = (res, db') ->
        List.length (backtests db') = S (List.length (backtests db))).
Proof.
  assert (Hrefused : bars = [] \/ (short_period params < 0)%Z
                     \/ (long_period params < 0)%Z ->
                     execute_of c params bars db = (Raise ValueError, db)).
  { intros [->|Hw]; [apply execute_of_empty|].
    destruct bars as [|b bars]; [apply execute_of_empty|].
    apply execute_of_refused_window; [discriminate|exact Hw]. }
  assert (Hrun : forall e, execute_of c params bars db = (Raise e, db) ->
                 bars = [] \/ (short_period params < 0)%Z
                 \/ (long_period params < 0)%Z).
  { intros e H. destruct bars as [|b bars]; [left; reflexivity|]. right.
    destruct (Z.ltb_spec (short_period params) 0) as [Hs|Hs]; [left; exact Hs|].
    destruct (Z.ltb_spec (long_period params) 0) as [Hl|Hl]; [right; exact Hl|].
    apply run_files_one_result in H; [lia|discriminate|assumption|assumption]. }
  split; [split|split].
  - intros [e H]. exact (Hrun e H).
  - intros H. exists ValueError. apply Hrefused. exact H.
  - intros e H. pose proof (Hrefused (Hrun e H)) as H'. congruence.
  - intros Hne Hs Hl res db' H.
    eapply run_files_one_result; eassumption.
Qed.

(** The run with a debt of 5 as starting amount files its result row. *)
Lemma only_empty_series_and_negative_windows_are_refused_witness :
  List.length
    (backtests (snd (execute_of BackendViews debt_params warmup_bars empty_store)))
  = 1%nat.
Proof.
  apply (proj2 (proj2 (only_empty_series_and_negative_windows_are_refused
                         BackendViews debt_params warmup_bars empty_store)))
    with (res := fst (execute_of BackendViews debt_params warmup_bars empty_store)).
  - discriminate.
  - vm_compute. discriminate.
  - vm_compute. discriminate.
  - destruct (execute_of BackendViews debt_params warmup_bars empty_store).
    reflexivity.
Defined.

(** C8 as stated fails: in both copies the run with a starting amount of -5
    is not turned away; it completes, with a stored result and three
    snapshots. *)
Lemma negative_cash_is_not_refused :
  ~ refuses_invalid_configuration StrategiesViews debt_params warmup_bars
      empty_store
  /\ ~ refuses_invalid_configuration BackendViews debt_params warmup_bars
         empty_store
  /\ forall c, exists r db,
       execute_of c debt_params warmup_bars empty_store = (Ok r, db)
       /\ List.length (snapshots db) = 3%nat.
Proof.
  split; [|split].
  - intros H. destruct H as [e H]; [right; right; left; vm_compute; discriminate|].
    vm_compute in H. discriminate.
  - intros H. destruct H as [e H]; [right; right; left; vm_compute; discriminate|].
    vm_compute in H. discriminate.
  - intros []; eexists _, _; split; vm_compute; reflexivity.
Qed.
